(** * DeepBayesTorch: black-box attack driver, detection statistics, generator G

    A shallow embedding of

    - [attacks/detect_attacks_logp_v2.py]: [comp_logp], [comp_detect],
      [search_alpha], and [test_attacks] with its helper [get_logits], up to
      its first call of [comp_logp];
    - [attacks/detect_attacks_logp.py]: its own [comp_detect] and
      [search_alpha], which call [torch.mean] where the other file calls
      [np.mean] and behave differently for that;
    - [models/conv_generator_cifar10_G.py]: [Generator.__init__],
      [Generator.pzy_params] and [Generator.pxz_params];
    - [attack_black_box.py]: [load_model] and [perform_attacks].

    Conventions.  Python floats are idealised as rationals [Q]: rounding
    is not modelled, the inputs are finite numbers, and the tolerance [0.01]
    of [search_alpha] is [1/100]; the one place where NumPy produces a NaN
    out of the structure of its input (the mean of an empty array) is
    kept, as the value [NaN] of [npfloat].
    Python exceptions are values of [exn]; code that can raise returns a
    [result].  Functions of the deep-learning framework and of modules of the
    repository that the scripts only import are parameters.  Names are
    resolved as Python resolves them: an attribute of [np] that NumPy does
    not define raises [AttributeError], a global that the module does not
    bind raises [NameError].  [assert] statements are executed (the
    interpreter runs without [-O]).  Line 100 of [attack_black_box.py], a
    leftover merge-conflict marker between two functions, belongs to neither
    and is left out. *)

From Stdlib Require Import QArith Qabs Lqa Lia ZArith Ascii.
From stdpp Require Import gmap strings list pretty.

Local Close Scope Q_scope.
Local Open Scope Z_scope.
Local Open Scope nat_scope.

(* ===================================================================== *)
(** ** Python values shared by the files                                  *)
(* ===================================================================== *)

Module Py.

(** The exceptions the modelled code can raise. *)
Inductive exn : Type :=
  | AssertionError (msg : string)
  | ValueError (msg : string)
  | NameError (name : string)
  | AttributeError (msg : string)
  | KeyError (key : string)
  | IndexError
  | ZeroDivisionError
  | RuntimeError (msg : string)
  | FileExistsError (path : string)
  | External (msg : string).

Inductive result (A : Type) : Type :=
  | Ok (a : A)
  | Raise (e : exn).
Arguments Ok {A} a.
Arguments Raise {A} e.

(** A float as NumPy hands it back: a number, or NaN. *)
Inductive npfloat : Type :=
  | Num (q : Q)
  | NaN.

Definition Qltb (a b : Q) : bool := negb (Qle_bool b a).

(** [a - b], [abs a], [a * b] and [a > b] with a float on the left and a
    Python number on the right; NaN propagates and compares false. *)
Definition fsub (a : npfloat) (b : Q) : npfloat :=
  match a with Num q => Num (q - b)%Q | NaN => NaN end.
Definition fabs (a : npfloat) : npfloat :=
  match a with Num q => Num (Qabs q) | NaN => NaN end.
Definition fmul (a : npfloat) (b : Q) : npfloat :=
  match a with Num q => Num (q * b)%Q | NaN => NaN end.
Definition fgt (a : npfloat) (b : Q) : bool :=
  match a with Num q => Qltb b q | NaN => false end.

(** Order on floats: every comparison with NaN is false. *)
Definition fle (a b : npfloat) : Prop :=
  match a, b with
  | Num p, Num q => (p <= q)%Q
  | _, _ => False
  end.
Definition fbetween (lo hi : Q) (a : npfloat) : Prop :=
  match a with
  | Num q => (lo <= q)%Q /\ (q <= hi)%Q
  | NaN => False
  end.

(** [np.mean] of a boolean array: the fraction of [True]; NaN on the
    empty array. *)
Fixpoint count_true (bs : list bool) : nat :=
  match bs with
  | [] => 0
  | b :: bs' => (if b then 1 else 0) + count_true bs'
  end.
Definition np_mean_bool (bs : list bool) : npfloat :=
  match bs with
  | [] => NaN
  | _ :: _ => Num (Z.of_nat (count_true bs) # Pos.of_nat (length bs))
  end.

Lemma count_true_le_length (bs : list bool) : count_true bs <= length bs.
Proof. induction bs as [|[] bs IH]; simpl; lia. Qed.

End Py.

(* ===================================================================== *)
(** ** attacks/detect_attacks_logp_v2.py: comp_logp, comp_detect,          *)
(** ** search_alpha                                                       *)
(* ===================================================================== *)

Module DetectLogp.
Import Py.

(** *** comp_logp *)

(** The names that the file reads as attributes of the module [numpy]
    ([np.mean], [np.sqrt], ...) and that NumPy defines.  [logsumexp] is not
    one of them: NumPy has [logaddexp]; [logsumexp] is a function of
    [scipy.special]. *)
Definition numpy_dir : list string :=
  ["mean"; "sqrt"; "var"; "sum"; "where"; "nanmean"; "exp"; "log";
   "array"; "full"; "nan"; "newaxis"; "abs"].

(** [np.<name>] in a module whose attributes are [dir]. *)
Definition np_getattr {A : Type} (dir : list string) (name : string) (impl : A) : result A :=
  if bool_decide (name ∈ dir) then Ok impl
  else Raise (AttributeError ("module 'numpy' has no attribute '" +:+ name +:+ "'")).

(** A two-dimensional array: its second dimension and its rows. *)
Record ndarray2 (F : Type) : Type := NdArray2 {
  shape1 : nat;
  rows : list (list F)
}.
Arguments NdArray2 {F} shape1 rows.
Arguments shape1 {F} n.
Arguments rows {F} n.

(** The entries of the list that [comp_logp] returns. *)
Inductive pyobj (F : Type) : Type :=
| PArray (a : list F)
| PFloat (v : F)
| PList (l : list F)
| PListOfArrays (l : list (list F)).
Arguments PArray {F} a.
Arguments PFloat {F} v.
Arguments PList {F} l.
Arguments PListOfArrays {F} l.

Section CompLogp.
Context {F : Type}.
(** Float arithmetic, left abstract. *)
Variables (zero one nan : F) (add sub mul div : F -> F -> F)
          (exp log sqrt : F -> F) (of_nat : nat -> F)
          (eqb : F -> F -> bool).
(** The attributes of the module bound to [np]. *)
Variable np : list string.

Definition np_sum (l : list F) : F := foldl add zero l.
Definition np_mean (l : list F) : F := div (np_sum l) (of_nat (length l)).
Definition np_var (l : list F) : F :=
  let m := np_mean l in np_mean (map (fun v => mul (sub v m) (sub v m)) l).
Definition np_std (l : list F) : F := sqrt (np_var l).
Definition logsumexp (row : list F) : F := log (np_sum (map exp row)).

(** [a * b] on two-dimensional arrays, with NumPy's broadcasting: along
    each axis the sizes are equal or one of them is 1 (NumPy's message goes
    on with the two shapes). *)
Definition broadcastable (m n : nat) : bool := (m =? n) || (m =? 1) || (n =? 1).
Definition broadcast_size (m n : nat) : nat := if m =? 1 then n else m.
Definition broadcast_to (a : ndarray2 F) (n c : nat) : list (list F) :=
  let wide := map (fun r => match r with
                            | [v] => replicate c v
                            | _ => r
                            end) (rows a) in
  match wide with
  | [r] => replicate n r
  | _ => wide
  end.
Definition np_multiply (a b : ndarray2 F) : result (ndarray2 F) :=
  let n := broadcast_size (length (rows a)) (length (rows b)) in
  let c := broadcast_size (shape1 a) (shape1 b) in
  if broadcastable (length (rows a)) (length (rows b))
     && broadcastable (shape1 a) (shape1 b)
  then Ok (NdArray2 c (zip_with (zip_with mul) (broadcast_to a n c) (broadcast_to b n c)))
  else Raise (ValueError "operands could not be broadcast together").

(** [a[ind]]: the entries of [a] at the positions [ind]; a position
    outside [a] raises. *)
Fixpoint take_at {A : Type} (a : list A) (ind : list nat) : result (list A) :=
  match ind with
  | [] => Ok []
  | i :: ind' =>
    match a !! i with
    | None => Raise IndexError
    | Some v =>
      match take_at a ind' with
      | Raise e => Raise e
      | Ok vs => Ok (v :: vs)
      end
    end
  end.
(** [np.where(y[:, i] == 1)[0]] *)
Definition where_one (y : ndarray2 F) (i : nat) : list nat :=
  List.filter (fun n => match rows y !! n with
                        | Some r => match r !! i with
                                    | Some v => eqb v one
                                    | None => false
                                    end
                        | None => false
                        end) (seq 0 (length (rows y))).
(** Column [j] of a list of rows, and a reduction over axis 0. *)
Definition column (m : list (list F)) (j : nat) : list F :=
  omap (fun r => r !! j) m.
Definition axis0 (f : list F -> F) (ncols : nat) (m : list (list F)) : list F :=
  map (fun j => f (column m j)) (seq 0 ncols).

(** The first loop of [comp_logp]: mean and standard deviation of
    [logpxy] over the samples of each class. *)
Fixpoint logpxy_stats (logpxy : list F) (y : ndarray2 F) (classes : list nat)
  : result (list (F * F)) :=
  match classes with
  | [] => Ok []
  | i :: classes' =>
    let ind := where_one y i in
    match (if 0 <? length ind
           then match take_at logpxy ind with
                | Raise e => Raise e
                | Ok selected => Ok (np_mean selected, sqrt (np_var selected))
                end
           else Ok (nan, nan)) with
    | Raise e => Raise e
    | Ok stats =>
      match logpxy_stats logpxy y classes' with
      | Raise e => Raise e
      | Ok rest => Ok (stats :: rest)
      end
    end
  end.

(** The part of [comp_logp] under [if comp_logit_dist:], for class [i]. *)
Definition logit_dist_class (logit y : ndarray2 F) (i : nat)
  : result (list F * list F * F * F * list F) :=
  let nb_classes := shape1 y in
  let ind := where_one y i in
  if 0 <? length ind then
    match take_at (rows logit) ind with
    | Raise e => Raise e
    | Ok logit_class =>
      let logit_mean := axis0 np_mean (shape1 logit) logit_class in
      let logit_std := axis0 np_std (shape1 logit) logit_class in
      match np_getattr np "logsumexp" (map logsumexp) with
      | Raise e => Raise e
      | Ok lse =>
        let logit_tmp :=
          zip_with (fun r l => map (fun v => sub v l) r) logit_class (lse logit_class) in
        let softmax_mean := axis0 np_mean (shape1 logit) (map (map exp) logit_tmp) in
        let kl_vals :=
          map (fun r => np_sum (zip_with (fun p l => mul p (sub (log p) l)) softmax_mean r))
              logit_tmp in
        Ok (logit_mean, logit_std, np_mean kl_vals, np_std kl_vals, softmax_mean)
      end
    end
  else
    Ok (replicate nb_classes nan, replicate nb_classes nan, nan, nan,
        replicate nb_classes nan).

Fixpoint logit_dist (logit y : ndarray2 F) (classes : list nat)
  : result (list (list F * list F * F * F * list F)) :=
  match classes with
  | [] => Ok []
  | i :: classes' =>
    match logit_dist_class logit y i with
    | Raise e => Raise e
    | Ok r =>
      match logit_dist logit y classes' with
      | Raise e => Raise e
      | Ok rs => Ok (r :: rs)
      end
    end
  end.

(** [comp_logp(logit, y, text, comp_logit_dist)].  The text printed on
    standard output is not part of the model. *)
Definition comp_logp (logit y : ndarray2 F) (text : string) (comp_logit_dist : bool)
  : result (list (pyobj F)) :=
  match np_getattr np "logsumexp" (map logsumexp) with
  | Raise e => Raise e
  | Ok lse =>
    let logpx := lse (rows logit) in
    let logpx_mean := np_mean logpx in
    let logpx_std := sqrt (np_var logpx) in
    match np_multiply y logit with
    | Raise e => Raise e
    | Ok product =>
      let logpxy := map np_sum (rows product) in
      match logpxy_stats logpxy y (seq 0 (shape1 y)) with
      | Raise e => Raise e
      | Ok per_class =>
        let logpxy_mean := map fst per_class in
        let logpxy_std := map snd per_class in
        let results :=
          [PArray logpx; PFloat logpx_mean; PFloat logpx_std;
           PArray logpxy; PList logpxy_mean; PList logpxy_std] in
        if comp_logit_dist then
          match logit_dist logit y (seq 0 (shape1 y)) with
          | Raise e => Raise e
          | Ok ds =>
            Ok (results ++
                [PListOfArrays (map (fun d => d.1.1.1.1) ds);
                 PListOfArrays (map (fun d => d.1.1.1.2) ds);
                 PList (map (fun d => d.1.1.2) ds);
                 PList (map (fun d => d.1.2) ds);
                 PListOfArrays (map (fun d => d.2) ds)])
          end
        else Ok results
      end
    end
  end.

End CompLogp.

(** *** comp_detect and search_alpha *)

(** [comp_detect]: the percentage of points of [x] beyond
    [x_mean + alpha * x_std] ([plus]) or below [x_mean - alpha * x_std]. *)
Definition comp_detect (x : list Q) (x_mean x_std alpha : Q) (plus : bool) : npfloat :=
  let detect_rate :=
  if plus
  then np_mean_bool (map (fun xi => Qltb (x_mean + alpha * x_std)%Q xi) x)
  else np_mean_bool (map (fun xi => Qltb xi (x_mean - alpha * x_std)%Q) x) in
  fmul detect_rate 100%Q.

(** The detection test of [comp_detect] at one point. *)
Definition detected (x_mean x_std alpha : Q) (plus : bool) (xi : Q) : bool :=
  if plus then Qltb (x_mean + alpha * x_std)%Q xi
  else Qltb xi (x_mean - alpha * x_std)%Q.

(** The local variables of [search_alpha]. *)
Record sa_state : Type := SaState {
  alpha_min : Q;
  alpha_max : Q;
  alpha_now : Q;
  detect_rate : npfloat;
  T : nat
}.

Section SearchAlpha.
Variables (x : list Q) (x_mean x_std target_rate : Q) (plus : bool).

Definition sa_init : sa_state :=
  {| alpha_min := 0%Q; alpha_max := 3%Q; alpha_now := (3 # 2)%Q;
     detect_rate := comp_detect x x_mean x_std (3 # 2)%Q plus;
     T := 0 |}.

(** [np.abs(detect_rate - target_rate) > 0.01 and T < 20] *)
Definition sa_cond (s : sa_state) : bool :=
  fgt (fabs (fsub (detect_rate s) target_rate)) (1 # 100)%Q && (T s <? 20).

Definition sa_body (s : sa_state) : sa_state :=
  let amin := if fgt (detect_rate s) target_rate then alpha_now s else alpha_min s in
  let amax := if fgt (detect_rate s) target_rate then alpha_max s else alpha_now s in
  let anow := ((1 # 2) * (amin + amax))%Q in
  {| alpha_min := amin; alpha_max := amax; alpha_now := anow;
     detect_rate := comp_detect x x_mean x_std anow plus;
     T := S (T s) |}.

(** The [while] loop; [None] when the fuel runs out before the
    condition turns false. *)
Fixpoint sa_loop (fuel : nat) (s : sa_state) : option sa_state :=
  if sa_cond s
  then match fuel with
       | 0 => None
       | S fuel' => sa_loop fuel' (sa_body s)
       end
  else Some s.

Definition search_alpha (fuel : nat) : option (Q * npfloat) :=
  match sa_loop fuel sa_init with
  | Some s => Some (alpha_now s, detect_rate s)
  | None => None
  end.

(** One turn of the loop, and the states the loop passes through. *)
Inductive sa_step : sa_state -> sa_state -> Prop :=
  | SaStep s : sa_cond s = true -> sa_step s (sa_body s).

Inductive sa_reach : sa_state -> Prop :=
  | SaReach0 : sa_reach sa_init
  | SaReachS s s' : sa_reach s -> sa_step s s' -> sa_reach s'.

Definition sa_inv (s : sa_state) : Prop :=
  (0 <= alpha_min s)%Q /\ (alpha_min s <= alpha_now s)%Q /\
  (alpha_now s <= alpha_max s)%Q /\ (alpha_max s <= 3)%Q.

(** [detect_rate] is always the rate at the current [alpha_now]. *)
Definition sa_coherent (s : sa_state) : Prop :=
  detect_rate s = comp_detect x x_mean x_std (alpha_now s) plus.

End SearchAlpha.

(** *** test_attacks and its helper get_logits *)

(** [range(start, stop, step)] for a positive [step]. *)
Fixpoint py_range_fuel (fuel start stop step : nat) : list nat :=
  match fuel with
  | 0 => []
  | S fuel' =>
    if start <? stop then start :: py_range_fuel fuel' (start + step) stop step else []
  end.
Definition py_range (start stop step : nat) : list nat :=
  py_range_fuel stop start stop step.

(** Statements in sequence: the first exception ends the function. *)
#[local] Instance result_bind : MBind result :=
  fun A B f r => match r with Ok a => f a | Raise e => Raise e end.

(** [for a in l: f(a)] *)
Fixpoint for_each {A : Type} (f : A -> result unit) (l : list A) : result unit :=
  match l with
  | [] => Ok tt
  | a :: l' => f a;; for_each f l'
  end.

(** [for a in l: out.append(f(a))] *)
Fixpoint map_result {A B : Type} (f : A -> result B) (l : list A) : result (list B) :=
  match l with
  | [] => Ok []
  | a :: l' => b ← f a; bs ← map_result f l'; Ok (b :: bs)
  end.

(** [np.concatenate(arrays, axis=0)] on two-dimensional arrays (NumPy's
    second message goes on with the sizes that differ). *)
Definition np_concatenate {F : Type} (arrays : list (ndarray2 F)) : result (ndarray2 F) :=
  match arrays with
  | [] => Raise (ValueError "need at least one array to concatenate")
  | a :: rest =>
    if forallb (fun b => shape1 b =? shape1 a) rest
    then Ok (NdArray2 (shape1 a) (concat (map rows arrays)))
    else Raise (ValueError ("all the input array dimensions except for the " +:+
                            "concatenation axis must match exactly"))
  end.

(** [get_logits(model, x, batch_size)]: the model's output on the slices
    [x[i:i+batch_size]], concatenated.  [x] is the list of its samples;
    the model gives one row of logits per sample, or raises. *)
Definition get_logits {F X : Type} (model : list X -> result (ndarray2 F)) (x : list X)
    (batch_size : Z) : result (ndarray2 F) :=
  if (batch_size =? 0)%Z then Raise (ValueError "range() arg 3 must not be zero")
  else
    let starts :=
      if (batch_size <? 0)%Z then []
      else py_range 0 (length x) (Z.to_nat batch_size) in
    logits_list ← map_result (fun i => model (take (Z.to_nat batch_size) (drop i x))) starts;
    np_concatenate logits_list.

(** The names the module binds at its top level: its imports and its four
    functions.  [test_loader] is not one of them, nor a builtin. *)
Definition module_globals : list string :=
  ["argparse"; "tqdm"; "torch"; "nn"; "F"; "np"; "math";
   "comp_logp"; "comp_detect"; "search_alpha"; "test_attacks"].

(** A name that is not local to the function, looked up among
    [globals]. *)
Definition py_global {A : Type} (globals : list string) (name : string) (impl : A)
  : result A :=
  if bool_decide (name ∈ globals) then Ok impl else Raise (NameError name).

Definition attack_methods : list string := ["FGSM"; "PGD"; "MIM"].

Section TestAttacks.
Context {F X : Type}.
Variables (zero one nan : F) (add sub mul div : F -> F -> F)
          (exp log sqrt : F -> F) (of_nat : nat -> F)
          (eqb : F -> F -> bool).
(** The attributes of the module bound to [np], and the names bound in
    the module of [test_attacks]. *)
Variable np : list string.
Variable globals : list string.
(** Lines 183-238, the loop over the batches of [test_loader], were that
    name bound. *)
Variable attack_batches : F -> string -> result unit.
(** Lines 239-241: [model.to(device)] and [model.eval()]. *)
Variable to_device :
  (list X -> result (ndarray2 F)) -> result (list X -> result (ndarray2 F)).
(** Lines 261-263: [ind_success], the positions where the argmax of
    [y_adv] differs from that of [y_clean]. *)
Variable successful : ndarray2 F -> ndarray2 F -> result (list nat).
(** Lines 270-276: the norms of the perturbations, printed. *)
Variable perturbation : list X -> list X -> list nat -> result unit.
(** Lines 282-402, everything after the first call of [comp_logp]: from
    [nb_classes], [save], [guard_name], [victim_name], [data_name],
    [targeted], [results_train], the three arrays of logits and
    [ind_success], the dictionary of results. *)
Variable detection :
  nat -> bool -> string -> string -> string -> bool ->
  list (pyobj F) -> ndarray2 F -> ndarray2 F -> ndarray2 F -> list nat ->
  result (list (string * F)).

(** Lines 177-238: the block under [if all_attack:]. *)
Definition attack_loop (epsilons : list F) : result unit :=
  for_each (fun epsilon =>
    for_each (fun attack =>
      py_global globals "tqdm" tt;;
      batches ← py_global globals "test_loader" (attack_batches epsilon attack);
      batches) attack_methods) epsilons.

(** [test_attacks(model, x_train, y_train, x_clean, y_clean, x_adv, y_adv,
    epsilons, nb_classes, save, guard_name, victim_name, data_name,
    all_attack, targeted)]; the dictionary it returns, as a list of items. *)
Definition test_attacks (model : list X -> result (ndarray2 F))
    (x_train : list X) (y_train : ndarray2 F) (x_clean : list X) (y_clean : ndarray2 F)
    (x_adv : list X) (y_adv : ndarray2 F) (epsilons : list F) (nb_classes : nat)
    (save : bool) (guard_name victim_name data_name : string) (all_attack targeted : bool)
  : result (list (string * F)) :=
  (if all_attack then attack_loop epsilons else Ok tt);;
  model ← to_device model;
  y_logit_clean ← get_logits model x_clean 100;
  y_logit_adv ← get_logits model x_adv 100;
  ind_success ← successful y_adv y_clean;
  if length ind_success =? 0 then Ok []
  else
    perturbation x_adv x_clean ind_success;;
    y_logit_train ← get_logits model x_train 100;
    results_train ←
      comp_logp zero one nan add sub mul div exp log sqrt of_nat eqb np
        y_logit_train y_train "train" true;
    detection nb_classes save guard_name victim_name data_name targeted
      results_train y_logit_train y_logit_clean y_logit_adv ind_success.

End TestAttacks.

(** *** Facts about [comp_logp] *)

Section CompLogpFacts.
Context {F : Type}.
Variables (zero one nan : F) (add sub mul div : F -> F -> F)
          (exp log sqrt : F -> F) (of_nat : nat -> F)
          (eqb : F -> F -> bool).

Abbreviation comp_logp_in np :=
  (comp_logp zero one nan add sub mul div exp log sqrt of_nat eqb np).

Lemma broadcast_to_same (a : ndarray2 F) :
  Forall (fun r => length r = shape1 a) (rows a) ->
  broadcast_to a (length (rows a)) (shape1 a) = rows a.
Proof.
  intros Hrows. unfold broadcast_to.
  assert (map (fun r => match r with
                        | [v] => replicate (shape1 a) v
                        | _ => r
                        end) (rows a) = rows a) as ->.
  { rewrite <- (map_id (rows a)) at 2. apply map_ext_Forall.
    eapply Forall_impl; [exact Hrows|]. intros [|v [|v' r]] Hr; try reflexivity.
    simpl in Hr. rewrite <- Hr. reflexivity. }
  destruct (rows a) as [|r [|r' rest]]; reflexivity.
Qed.

Lemma take_at_in_range {A : Type} (a : list A) (ind : list nat) :
  Forall (fun i => i < length a) ind -> exists vs, take_at a ind = Ok vs.
Proof.
  induction 1 as [|i ind Hi _ [vs IH]]; [exists []; reflexivity|].
  cbn [take_at]. destruct (lookup_lt_is_Some_2 a i Hi) as [v ->].
  rewrite IH. eexists; reflexivity.
Qed.

Lemma where_one_in_range (y : ndarray2 F) (i : nat) :
  Forall (fun n => n < length (rows y)) (where_one one eqb y i).
Proof.
  apply Forall_forall. intros n Hn. unfold where_one in Hn.
  apply list_elem_of_In, filter_In in Hn as [Hn _].
  apply in_seq in Hn. lia.
Qed.

Lemma logpxy_stats_Ok (logpxy : list F) (y : ndarray2 F) (classes : list nat) :
  length logpxy = length (rows y) ->
  exists per_class,
    logpxy_stats zero one nan add sub mul div sqrt of_nat eqb logpxy y classes = Ok per_class /\
    length per_class = length classes.
Proof.
  intros Hlen. induction classes as [|i classes (rest & Hrest & Hl)]; cbn [logpxy_stats].
  - exists []. auto.
  - destruct (0 <? length (where_one one eqb y i)).
    + destruct (take_at_in_range logpxy (where_one one eqb y i)) as [vs ->].
      { rewrite Hlen. apply where_one_in_range. }
      rewrite Hrest. eexists. split; [reflexivity|]. simpl. rewrite Hl. reflexivity.
    + rewrite Hrest. eexists. split; [reflexivity|]. simpl. rewrite Hl. reflexivity.
Qed.

(** What the body computes in a module [np] that does have [logsumexp],
    on arrays [logit] and [y] of the same shape: the six statistics,
    [logpx] the log-sum-exp of each row of [logit] and [logpxy] the row
    sums of [y * logit]. *)
Lemma comp_logp_given_logsumexp (np : list string) (logit y : ndarray2 F) (text : string) :
  "logsumexp" ∈ np ->
  Forall (fun r => length r = shape1 logit) (rows logit) ->
  Forall (fun r => length r = shape1 y) (rows y) ->
  length (rows logit) = length (rows y) -> shape1 logit = shape1 y ->
  exists logpxy_mean logpxy_std : list F,
    length logpxy_mean = shape1 y /\ length logpxy_std = shape1 y /\
    comp_logp_in np logit y text false =
    Ok [PArray (map (logsumexp zero add exp log) (rows logit));
        PFloat (np_mean zero add div of_nat (map (logsumexp zero add exp log) (rows logit)));
        PFloat (sqrt (np_var zero add sub mul div of_nat
                        (map (logsumexp zero add exp log) (rows logit))));
        PArray (map (np_sum zero add) (zip_with (zip_with mul) (rows y) (rows logit)));
        PList logpxy_mean; PList logpxy_std].
Proof.
  intros Hin Hlogit Hy Hrows Hcols. unfold comp_logp, np_getattr.
  rewrite bool_decide_eq_true_2 by exact Hin.
  unfold np_multiply, broadcastable, broadcast_size.
  rewrite <- Hrows, <- Hcols, !Nat.eqb_refl. cbn [orb andb].
  assert (broadcast_size_same : forall m, (if m =? 1 then m else m) = m)
    by (intros m; destruct (m =? 1); reflexivity).
  rewrite !broadcast_size_same.
  assert (broadcast_to y (length (rows logit)) (shape1 logit) = rows y) as ->
    by (rewrite Hrows, Hcols; apply broadcast_to_same, Hy).
  assert (broadcast_to logit (length (rows logit)) (shape1 logit) = rows logit) as ->
    by (apply broadcast_to_same, Hlogit).
  cbn [rows].
  destruct (logpxy_stats_Ok
              (map (np_sum zero add) (zip_with (zip_with mul) (rows y) (rows logit)))
              y (seq 0 (shape1 logit))) as (per_class & -> & Hl).
  { rewrite length_map, length_zip_with. lia. }
  rewrite length_seq in Hl.
  eexists _, _. split; [|split; [|reflexivity]]; rewrite length_map; exact Hl.
Qed.

(** C2 on the code: under NumPy, [np.logsumexp] does not exist, and
    [comp_logp] raises [AttributeError] on its first statement, whatever
    its arguments. *)
Theorem comp_logp_attribute_error (logit y : ndarray2 F) (text : string) (comp_logit_dist : bool) :
  comp_logp_in numpy_dir logit y text comp_logit_dist =
  Raise (AttributeError "module 'numpy' has no attribute 'logsumexp'").
Proof. reflexivity. Qed.

End CompLogpFacts.

(** *** Facts about [comp_detect] *)

Lemma count_true_map_mono {A : Type} (f g : A -> bool) (l : list A) :
  (forall a, f a = true -> g a = true) ->
  count_true (map f l) <= count_true (map g l).
Proof.
  intros Himp. induction l as [|a l IH]; simpl; [lia|].
  specialize (Himp a). destruct (f a), (g a); simpl; lia.
Qed.

Lemma Qltb_true (a b : Q) : Qltb a b = true <-> (a < b)%Q.
Proof.
  unfold Qltb. rewrite negb_true_iff. split.
  - intros H. apply Qnot_le_lt. intros Hle.
    apply Qle_bool_iff in Hle. congruence.
  - intros H. destruct (Qle_bool b a) eqn:E; [|reflexivity].
    apply Qle_bool_iff in E. exfalso. apply (Qlt_not_le _ _ H E).
Qed.

(** The value of [np_mean_bool] on a non-empty array, times 100. *)
Lemma percent_of_nonempty (bs : list bool) :
  bs <> [] ->
  fmul (np_mean_bool bs) 100%Q =
  Num ((Z.of_nat (count_true bs) # Pos.of_nat (length bs)) * 100)%Q.
Proof. destruct bs; [congruence | reflexivity]. Qed.

Lemma percent_le (c1 c2 n : nat) :
  0 < n -> c1 <= c2 ->
  ((Z.of_nat c1 # Pos.of_nat n) * 100 <= (Z.of_nat c2 # Pos.of_nat n) * 100)%Q.
Proof.
  intros Hn Hc. unfold Qle, Qmult; simpl.
  apply Z.mul_le_mono_nonneg_r; [lia|].
  apply Z.mul_le_mono_nonneg_r; lia.
Qed.

Lemma percent_range (c n : nat) :
  0 < n -> c <= n ->
  (0 <= (Z.of_nat c # Pos.of_nat n) * 100)%Q /\
  ((Z.of_nat c # Pos.of_nat n) * 100 <= 100)%Q.
Proof.
  intros Hn Hc. unfold Qle, Qmult; simpl. split; [lia|].
  rewrite Pos.mul_1_r, Z.mul_1_r.
  assert (Z.pos (Pos.of_nat n) = Z.of_nat n) as ->.
  { destruct n; [lia|]. rewrite <- Pos.of_nat_succ. lia. }
  lia.
Qed.

Lemma comp_detect_unfold x x_mean x_std alpha plus :
  comp_detect x x_mean x_std alpha plus =
  fmul (np_mean_bool (map (detected x_mean x_std alpha plus) x)) 100%Q.
Proof. unfold comp_detect, detected. destruct plus; reflexivity. Qed.

Lemma detected_antitone x_mean x_std a1 a2 plus xi :
  (0 <= x_std)%Q -> (a1 <= a2)%Q ->
  detected x_mean x_std a2 plus xi = true ->
  detected x_mean x_std a1 plus xi = true.
Proof.
  intros Hstd Ha. unfold detected.
  assert (a1 * x_std <= a2 * x_std)%Q as Hm by (apply Qmult_le_compat_r; assumption).
  destruct plus; rewrite !Qltb_true; intros H; lra.
Qed.

(** C4, as amended, for [comp_detect] of [detect_attacks_logp_v2.py]: on
    an empty [x] the value is NaN, whatever the other arguments; on a
    non-empty [x] and with [x_std >= 0], the value is 100 times the
    fraction of detected points, lies in [0, 100], and does not increase
    when [alpha] increases. *)
Theorem comp_detect_antitone_bounded
  (x : list Q) (x_mean x_std a1 a2 : Q) (plus : bool) :
  (x = [] -> comp_detect x x_mean x_std a1 plus = NaN) /\
  (x <> [] -> (0 <= x_std)%Q -> (a1 <= a2)%Q ->
   comp_detect x x_mean x_std a1 plus =
     Num ((Z.of_nat (count_true (map (detected x_mean x_std a1 plus) x))
           # Pos.of_nat (length x)) * 100)%Q /\
   fbetween 0 100 (comp_detect x x_mean x_std a1 plus) /\
   fle (comp_detect x x_mean x_std a2 plus) (comp_detect x x_mean x_std a1 plus)).
Proof.
  split; [intros ->; destruct plus; reflexivity|].
  intros Hx Hstd Ha.
  assert (forall a, map (detected x_mean x_std a plus) x <> []) as Hne.
  { intros a. destruct x; [congruence | discriminate]. }
  assert (0 < length x) as Hlen by (destruct x; [congruence | simpl; lia]).
  rewrite !comp_detect_unfold, !percent_of_nonempty by apply Hne.
  rewrite !length_map. split; [reflexivity|]. split; simpl.
  - apply percent_range; [assumption|].
    etransitivity; [apply count_true_le_length|]. rewrite length_map. lia.
  - apply percent_le; [assumption|].
    apply count_true_map_mono. intros xi. apply detected_antitone; assumption.
Qed.

Lemma comp_detect_antitone_bounded_witness :
  comp_detect [] 4 2 1 true = NaN /\
  fbetween 0 100 (comp_detect [1; 5; 9]%Q 4 2 1 true) /\
  fle (comp_detect [1; 5; 9]%Q 4 2 2 true) (comp_detect [1; 5; 9]%Q 4 2 1 true).
Proof.
  split.
  - apply (comp_detect_antitone_bounded [] 4 2 1 2 true). reflexivity.
  - apply (comp_detect_antitone_bounded [1; 5; 9]%Q 4 2 1 2 true).
    + discriminate.
    + vm_compute. discriminate.
    + vm_compute. discriminate.
Defined.

(** C4 as stated fails on the empty array: [np.mean] of an empty array is
    NaN, which is outside [0, 100] and is not ordered with itself. *)
Lemma comp_detect_empty_nan :
  comp_detect [] 0 1 0 true = NaN /\
  ~ fbetween 0 100 (comp_detect [] 0 1 0 true) /\
  ~ fle (comp_detect [] 0 1 1 true) (comp_detect [] 0 1 0 true).
Proof. vm_compute. tauto. Qed.

(** *** Facts about [search_alpha] *)

Section SearchAlphaFacts.
Variables (x : list Q) (x_mean x_std target_rate : Q) (plus : bool).

Abbreviation init := (sa_init x x_mean x_std plus).
Abbreviation cond := (sa_cond target_rate).
Abbreviation body := (sa_body x x_mean x_std target_rate plus).
Abbreviation loop := (sa_loop x x_mean x_std target_rate plus).
Abbreviation reach := (sa_reach x x_mean x_std target_rate plus).

Lemma sa_cond_T (s : sa_state) : cond s = true -> T s < 20.
Proof.
  unfold sa_cond. intros H. apply andb_true_iff in H as [_ H].
  apply Nat.ltb_lt in H. exact H.
Qed.

Lemma iter_body_T (n : nat) (s : sa_state) : T (Nat.iter n body s) = n + T s.
Proof. induction n as [|n IH]; simpl; [reflexivity | rewrite IH; reflexivity]. Qed.

Lemma iter_body_shift (n : nat) (s : sa_state) :
  Nat.iter n body (body s) = Nat.iter (S n) body s.
Proof. induction n as [|n IH]; simpl; [reflexivity | rewrite IH; reflexivity]. Qed.

(** With fuel for the turns that are left, the loop stops, after some
    number [k] of further turns. *)
Lemma sa_loop_stops (fuel : nat) :
  forall s, 20 - T s <= fuel ->
  exists k, loop fuel s = Some (Nat.iter k body s) /\
            (k = 0 \/ k + T s <= 20) /\
            cond (Nat.iter k body s) = false.
Proof.
  induction fuel as [|fuel IH]; intros s Hfuel; simpl.
  - destruct (cond s) eqn:Hc.
    + apply sa_cond_T in Hc. lia.
    + exists 0. simpl. auto.
  - destruct (cond s) eqn:Hc.
    + pose proof (sa_cond_T _ Hc) as HT.
      destruct (IH (body s)) as (k & Hk & Hb & Hstop); [simpl; lia|].
      exists (S k). rewrite <- iter_body_shift. split; [exact Hk|].
      split; [|exact Hstop]. right.
      destruct Hb as [-> | Hb]; simpl in *; lia.
    + exists 0. simpl. auto.
Qed.

Lemma sa_coherent_iter (k : nat) :
  sa_coherent x x_mean x_std plus (Nat.iter k body init).
Proof. destruct k; reflexivity. Qed.

(** [search_alpha] of [detect_attacks_logp_v2.py] terminates: with
    fuel for 20 turns it returns; the state it returns from is the initial
    one after [n <= 20] turns of the loop body, and the returned rate is
    [comp_detect] at the returned alpha. *)
Theorem search_alpha_terminates (fuel : nat) :
  20 <= fuel ->
  exists (n : nat) (alpha : Q) (rate : npfloat),
    n <= 20 /\
    loop fuel init = Some (Nat.iter n body init) /\
    alpha = alpha_now (Nat.iter n body init) /\
    search_alpha x x_mean x_std target_rate plus fuel = Some (alpha, rate) /\
    rate = comp_detect x x_mean x_std alpha plus.
Proof.
  intros Hfuel.
  destruct (sa_loop_stops fuel init) as (k & Hk & Hb & _); [simpl; lia|].
  exists k, (alpha_now (Nat.iter k body init)), (detect_rate (Nat.iter k body init)).
  split; [destruct Hb as [-> | Hb]; simpl in *; lia|].
  split; [exact Hk|]. split; [reflexivity|].
  split; [unfold search_alpha; rewrite Hk; reflexivity|].
  apply sa_coherent_iter.
Qed.

Lemma sa_inv_init : sa_inv init.
Proof. unfold sa_inv; simpl. repeat split; lra. Qed.

Lemma sa_inv_body (s : sa_state) : sa_inv s -> sa_inv (body s).
Proof.
  unfold sa_inv, sa_body. intros (H0 & H1 & H2 & H3).
  destruct (fgt (detect_rate s) target_rate); simpl; repeat split; lra.
Qed.

Lemma sa_reach_inv (s : sa_state) : reach s -> sa_inv s.
Proof.
  induction 1 as [|s s' _ IH Hstep].
  - apply sa_inv_init.
  - destruct Hstep. apply sa_inv_body, IH.
Qed.

Lemma sa_loop_reach (fuel : nat) :
  forall s s', reach s -> loop fuel s = Some s' -> reach s'.
Proof.
  induction fuel as [|fuel IH]; intros s s' Hs; simpl;
    destruct (cond s) eqn:Hc; intros Hl; try congruence.
  eapply IH; [|exact Hl].
  eapply SaReachS; [exact Hs | constructor; exact Hc].
Qed.

(** C5: every state the loop passes through satisfies
    [0 <= alpha_min <= alpha_now <= alpha_max <= 3], and the alpha that
    [search_alpha] returns lies in [0, 3]. *)
Theorem search_alpha_interval (s : sa_state) (fuel : nat) (alpha : Q) (rate : npfloat) :
  reach s ->
  search_alpha x x_mean x_std target_rate plus fuel = Some (alpha, rate) ->
  sa_inv s /\ (0 <= alpha)%Q /\ (alpha <= 3)%Q.
Proof.
  intros Hs Hret. split; [apply sa_reach_inv, Hs|].
  unfold search_alpha in Hret.
  destruct (loop fuel init) as [s'|] eqn:Hl; [|discriminate].
  injection Hret as <- _.
  assert (sa_inv s') as (H0 & H1 & H2 & H3).
  { apply sa_reach_inv. eapply sa_loop_reach; [constructor | exact Hl]. }
  split; lra.
Qed.

End SearchAlphaFacts.

Lemma search_alpha_terminates_witness :
  exists (n : nat) (alpha : Q) (rate : npfloat),
    n <= 20 /\
    sa_loop [1; 5; 9]%Q 4 2 5 false 20 (sa_init [1; 5; 9]%Q 4 2 false) =
      Some (Nat.iter n (sa_body [1; 5; 9]%Q 4 2 5 false) (sa_init [1; 5; 9]%Q 4 2 false)) /\
    alpha = alpha_now (Nat.iter n (sa_body [1; 5; 9]%Q 4 2 5 false) (sa_init [1; 5; 9]%Q 4 2 false)) /\
    search_alpha [1; 5; 9]%Q 4 2 5 false 20 = Some (alpha, rate) /\
    rate = comp_detect [1; 5; 9]%Q 4 2 alpha false.
Proof. apply (search_alpha_terminates [1; 5; 9]%Q 4 2 5 false 20). lia. Defined.

Lemma search_alpha_interval_witness :
  exists (alpha : Q) (rate : npfloat),
    search_alpha [1; 5; 9]%Q 4 2 5 false 20 = Some (alpha, rate) /\
    sa_inv (sa_body [1; 5; 9]%Q 4 2 5 false (sa_init [1; 5; 9]%Q 4 2 false)) /\
    (0 <= alpha)%Q /\ (alpha <= 3)%Q.
Proof.
  destruct (search_alpha [1; 5; 9]%Q 4 2 5 false 20) as [[alpha rate]|] eqn:E;
    [|vm_compute in E; discriminate].
  exists alpha, rate. split; [reflexivity|].
  apply (search_alpha_interval [1; 5; 9]%Q 4 2 5 false _ 20 alpha rate).
  - eapply SaReachS; [constructor | constructor; vm_compute; reflexivity].
  - exact E.
Defined.

(** *** Further properties of [comp_detect] and [search_alpha] *)

Lemma count_true_disjoint {A : Type} (f g : A -> bool) (l : list A) :
  (forall a, f a = true -> g a = true -> False) ->
  count_true (map f l) + count_true (map g l) <= length l.
Proof.
  intros Hex. induction l as [|a l IH]; simpl; [lia|].
  specialize (Hex a). destruct (f a), (g a); simpl; try lia.
Qed.

Lemma percent_add (c1 c2 n : nat) :
  ((Z.of_nat c1 # Pos.of_nat n) * 100 + (Z.of_nat c2 # Pos.of_nat n) * 100 ==
   (Z.of_nat (c1 + c2) # Pos.of_nat n) * 100)%Q.
Proof.
  unfold Qeq, Qplus, Qmult. cbn [Qnum Qden].
  rewrite !Pos2Z.inj_mul, Nat2Z.inj_add. ring.
Qed.

(** With [x_std >= 0] and [alpha >= 0] no point is both above
    [x_mean + alpha * x_std] and below [x_mean - alpha * x_std]: the points
    that the two rates count, of which each rate is the mean times 100, are
    together at most the points of [x]. *)
Theorem comp_detect_two_sided
  (x : list Q) (x_mean x_std alpha : Q) :
  (0 <= x_std)%Q -> (0 <= alpha)%Q ->
  (forall xi, detected x_mean x_std alpha true xi = true ->
              detected x_mean x_std alpha false xi = false) /\
  count_true (map (detected x_mean x_std alpha true) x) +
  count_true (map (detected x_mean x_std alpha false) x) <= length x /\
  comp_detect x x_mean x_std alpha true =
    fmul (np_mean_bool (map (detected x_mean x_std alpha true) x)) 100%Q /\
  comp_detect x x_mean x_std alpha false =
    fmul (np_mean_bool (map (detected x_mean x_std alpha false) x)) 100%Q.
Proof.
  intros Hstd Ha.
  assert (0 <= alpha * x_std)%Q as Hm by (apply Qmult_le_0_compat; assumption).
  assert (forall xi, detected x_mean x_std alpha true xi = true ->
                     detected x_mean x_std alpha false xi = true -> False) as Hex.
  { intros xi. unfold detected. rewrite !Qltb_true. intros H1 H2. lra. }
  split; [|split; [|split; apply comp_detect_unfold]].
  - intros xi H1. destruct (detected x_mean x_std alpha false xi) eqn:H2; [|reflexivity].
    destruct (Hex xi H1 H2).
  - apply count_true_disjoint. exact Hex.
Qed.

Lemma comp_detect_two_sided_witness :
  (forall xi, detected 4 2 1 true xi = true -> detected 4 2 1 false xi = false) /\
  count_true (map (detected 4 2 1 true) [1; 5; 9]%Q) +
  count_true (map (detected 4 2 1 false) [1; 5; 9]%Q) <= length [1; 5; 9]%Q /\
  comp_detect [1; 5; 9]%Q 4 2 1 true =
    fmul (np_mean_bool (map (detected 4 2 1 true) [1; 5; 9]%Q)) 100%Q /\
  comp_detect [1; 5; 9]%Q 4 2 1 false =
    fmul (np_mean_bool (map (detected 4 2 1 false) [1; 5; 9]%Q)) 100%Q.
Proof.
  apply (comp_detect_two_sided [1; 5; 9]%Q 4 2 1).
  - vm_compute. discriminate.
  - vm_compute. discriminate.
Defined.

Section SearchAlphaMore.
Variables (x : list Q) (x_mean x_std target_rate : Q) (plus : bool).

Abbreviation init' := (sa_init x x_mean x_std plus).
Abbreviation body' := (sa_body x x_mean x_std target_rate plus).
Abbreviation loop' := (sa_loop x x_mean x_std target_rate plus).
Abbreviation reach' := (sa_reach x x_mean x_std target_rate plus).

Lemma two_pow_succ (n : nat) :
  (inject_Z (2 ^ Z.of_nat (S n)) == 2 * inject_Z (2 ^ Z.of_nat n))%Q.
Proof.
  rewrite Nat2Z.inj_succ, Z.pow_succ_r by lia.
  unfold Qeq; simpl. destruct (2 ^ Z.of_nat n)%Z; reflexivity.
Qed.

(** The bisection: in every state the loop passes through, [alpha_now]
    is the midpoint of [alpha_min, alpha_max], and after [T] turns the
    width of that interval is [3 / 2^T]. *)
Theorem search_alpha_bracket (s : sa_state) :
  sa_reach x x_mean x_std target_rate plus s ->
  (alpha_now s == (1 # 2) * (alpha_min s + alpha_max s))%Q /\
  ((alpha_max s - alpha_min s) * inject_Z (2 ^ Z.of_nat (T s)) == 3)%Q.
Proof.
  induction 1 as [|s s' _ [IHmid IHwidth] Hstep].
  - simpl. split; reflexivity.
  - destruct Hstep as [s _]. unfold sa_body.
    destruct (fgt (detect_rate s) target_rate); cbn [alpha_min alpha_max alpha_now T];
      (split; [reflexivity|]); rewrite two_pow_succ;
      set (p := inject_Z (2 ^ Z.of_nat (T s))) in *; rewrite IHmid.
    + rewrite <- IHwidth. ring.
    + rewrite <- IHwidth. ring.
Qed.

Lemma sa_loop_exit (fuel : nat) :
  forall s s', loop' fuel s = Some s' -> sa_cond target_rate s' = false.
Proof.
  induction fuel as [|fuel IH]; intros s s'; simpl;
    destruct (sa_cond target_rate s) eqn:Hc; intros H; try discriminate.
  - injection H as <-. exact Hc.
  - eapply IH. exact H.
  - injection H as <-. exact Hc.
Qed.

(** What [search_alpha] hands back: a rate within 0.01 of the target,
    unless the rate is NaN or the loop has used its 20 turns. *)
Theorem search_alpha_exit (fuel : nat) (s : sa_state) :
  sa_loop x x_mean x_std target_rate plus fuel (sa_init x x_mean x_std plus) = Some s ->
  search_alpha x x_mean x_std target_rate plus fuel = Some (alpha_now s, detect_rate s) /\
  (T s = 20 \/
   match detect_rate s with
   | Num rate => (Qabs (rate - target_rate) <= 1 # 100)%Q
   | NaN => True
   end).
Proof.
  intros Hl. split; [unfold search_alpha; rewrite Hl; reflexivity|].
  pose proof (sa_loop_exit _ _ _ Hl) as Hc.
  assert (T s <= 20) as HT.
  { destruct (sa_loop_stops x x_mean x_std target_rate plus (Nat.max fuel 20) init')
      as (k & Hk & Hb & _); [simpl; lia|].
    assert (forall f1 f2 st r, f1 <= f2 -> loop' f1 st = Some r -> loop' f2 st = Some r)
      as Hmono.
    { induction f1 as [|f1 IH]; intros f2 st r Hle; simpl;
        destruct (sa_cond target_rate st) eqn:E; try discriminate.
      - intros H. destruct f2; simpl; rewrite E; exact H.
      - destruct f2 as [|f2]; [lia|]. simpl. rewrite E. apply IH. lia.
      - intros H. destruct f2; simpl; rewrite E; exact H. }
    apply (Hmono fuel (Nat.max fuel 20)) in Hl; [|lia].
    rewrite Hk in Hl. injection Hl as <-. rewrite iter_body_T.
    destruct Hb as [-> | Hb]; simpl in *; lia. }
  unfold sa_cond in Hc. apply andb_false_iff in Hc as [Hc | Hc].
  - right. destruct (detect_rate s) as [rate|]; [|exact I].
    cbn in Hc. unfold Qltb in Hc. apply negb_false_iff in Hc.
    apply Qle_bool_iff in Hc. exact Hc.
  - left. apply Nat.ltb_ge in Hc. lia.
Qed.

End SearchAlphaMore.

Lemma search_alpha_bracket_witness :
  (alpha_now (sa_body [1; 5; 9]%Q 4 2 5 false (sa_init [1; 5; 9]%Q 4 2 false))
   == (1 # 2) * (alpha_min (sa_body [1; 5; 9]%Q 4 2 5 false (sa_init [1; 5; 9]%Q 4 2 false)) +
                 alpha_max (sa_body [1; 5; 9]%Q 4 2 5 false (sa_init [1; 5; 9]%Q 4 2 false))))%Q /\
  ((alpha_max (sa_body [1; 5; 9]%Q 4 2 5 false (sa_init [1; 5; 9]%Q 4 2 false)) -
    alpha_min (sa_body [1; 5; 9]%Q 4 2 5 false (sa_init [1; 5; 9]%Q 4 2 false))) *
   inject_Z (2 ^ Z.of_nat (T (sa_body [1; 5; 9]%Q 4 2 5 false (sa_init [1; 5; 9]%Q 4 2 false))))
   == 3)%Q.
Proof.
  apply (search_alpha_bracket [1; 5; 9]%Q 4 2 5 false).
  eapply SaReachS; [constructor | constructor; vm_compute; reflexivity].
Defined.

Lemma search_alpha_exit_witness :
  exists s : sa_state,
    sa_loop [1; 5; 9]%Q 4 2 5 false 20 (sa_init [1; 5; 9]%Q 4 2 false) = Some s /\
    search_alpha [1; 5; 9]%Q 4 2 5 false 20 = Some (alpha_now s, detect_rate s) /\
    (T s = 20 \/
     match detect_rate s with
     | Num rate => (Qabs (rate - 5) <= 1 # 100)%Q
     | NaN => True
     end).
Proof.
  destruct (sa_loop [1; 5; 9]%Q 4 2 5 false 20 (sa_init [1; 5; 9]%Q 4 2 false))
    as [s|] eqn:E; [|vm_compute in E; discriminate].
  exists s. split; [reflexivity|].
  apply (search_alpha_exit [1; 5; 9]%Q 4 2 5 false 20 s E).
Defined.

(** On an empty array the rate is NaN from the start: [search_alpha]
    returns its initial alpha 1.5 and NaN without a single turn of the
    loop, whatever the target. *)
Theorem search_alpha_empty (x_mean x_std target_rate : Q) (plus : bool) (fuel : nat) :
  search_alpha [] x_mean x_std target_rate plus fuel = Some ((3 # 2)%Q, NaN) /\
  sa_loop [] x_mean x_std target_rate plus fuel (sa_init [] x_mean x_std plus)
  = Some (sa_init [] x_mean x_std plus).
Proof. destruct fuel, plus; split; reflexivity. Qed.

(** *** Facts about [get_logits] *)

Lemma py_range_slices {A : Type} (x : list A) (step : nat) :
  0 < step ->
  forall fuel start, length x - start <= fuel ->
  concat (map (fun i => take step (drop i x)) (py_range_fuel fuel start (length x) step))
  = drop start x.
Proof.
  intros Hstep. induction fuel as [|fuel IH]; intros start Hfuel; simpl.
  - symmetry. apply drop_ge. lia.
  - destruct (start <? length x) eqn:Hlt.
    + apply Nat.ltb_lt in Hlt. cbn [map concat]. rewrite IH by lia.
      rewrite <- drop_drop. apply take_drop.
    + apply Nat.ltb_ge in Hlt. symmetry. apply drop_ge. lia.
Qed.

Lemma map_result_Ok {A B : Type} (f : A -> result B) (g : A -> B) (l : list A) :
  (forall a, a ∈ l -> f a = Ok (g a)) -> map_result f l = Ok (map g l).
Proof.
  induction l as [|a l IH]; intros Hf; cbn [map_result map]; [reflexivity|].
  rewrite (Hf a) by (apply elem_of_cons; auto). cbn.
  rewrite IH by (intros a' Ha'; apply Hf, elem_of_cons; auto). reflexivity.
Qed.

(** Batching is transparent for a model that works row by row: on a
    non-empty input and with a positive batch size, [get_logits] returns
    the logits of every sample, in order. *)
Theorem get_logits_rowwise {F X : Type} (f : X -> list F) (classes : nat)
    (model : list X -> result (ndarray2 F)) (x : list X) (batch_size : Z) :
  (forall batch, model batch = Ok (NdArray2 classes (map f batch))) ->
  x <> [] -> (0 < batch_size)%Z ->
  get_logits model x batch_size = Ok (NdArray2 classes (map f x)).
Proof.
  intros Hmodel Hx Hbs. unfold get_logits.
  replace (batch_size =? 0)%Z with false by (symmetry; apply Z.eqb_neq; lia).
  replace (batch_size <? 0)%Z with false by (symmetry; apply Z.ltb_ge; lia).
  assert (0 < Z.to_nat batch_size) as Hstep by lia.
  rewrite (map_result_Ok _ (fun i => NdArray2 classes
                                       (map f (take (Z.to_nat batch_size) (drop i x)))))
    by (intros i _; apply Hmodel).
  cbn [mbind result_bind].
  assert (concat (map rows
                    (map (fun i => NdArray2 classes
                                     (map f (take (Z.to_nat batch_size) (drop i x))))
                         (py_range 0 (length x) (Z.to_nat batch_size)))) = map f x) as Hcat.
  { rewrite map_map. cbn [rows].
    rewrite <- (map_map (fun i => take (Z.to_nat batch_size) (drop i x)) (map f)).
    rewrite <- concat_map. unfold py_range. rewrite py_range_slices by lia.
    reflexivity. }
  destruct (map _ (py_range 0 (length x) (Z.to_nat batch_size))) as [|a arrays] eqn:Hl.
  - destruct x as [|x0 x]; [congruence|]. discriminate Hl.
  - unfold np_concatenate. rewrite Hcat.
    assert (Forall (fun b : ndarray2 F => shape1 b = classes) (a :: arrays)) as Hshapes.
    { rewrite <- Hl. apply Forall_forall. intros b Hb.
      apply list_elem_of_In, in_map_iff in Hb as (i & <- & _). reflexivity. }
    apply Forall_cons in Hshapes as [Ha Hrest]. rewrite Ha.
    replace (forallb (fun b : ndarray2 F => shape1 b =? classes) arrays) with true;
      [reflexivity|].
    symmetry. apply forallb_forall. intros b Hb. apply Nat.eqb_eq.
    rewrite Forall_forall in Hrest. apply Hrest, list_elem_of_In, Hb.
Qed.

Lemma get_logits_rowwise_witness :
  get_logits (fun batch => Ok (NdArray2 1 (map (fun v => [Z.succ v]) batch)))
    [1; 2; 3; 4; 5]%Z 2
  = Ok (NdArray2 1 (map (fun v => [Z.succ v]) [1; 2; 3; 4; 5]%Z)).
Proof.
  apply (get_logits_rowwise (fun v => [Z.succ v]) 1
           (fun batch => Ok (NdArray2 1 (map (fun v => [Z.succ v]) batch)))
           [1; 2; 3; 4; 5]%Z 2).
  - reflexivity.
  - discriminate.
  - lia.
Defined.

(** On an input without samples there is nothing to concatenate:
    [get_logits] raises [ValueError] without calling the model, whatever
    the batch size. *)
Theorem get_logits_empty {F X : Type} (model : list X -> result (ndarray2 F))
    (batch_size : Z) :
  exists msg, get_logits model [] batch_size = Raise (ValueError msg).
Proof.
  unfold get_logits. destruct (batch_size =? 0)%Z; [eexists; reflexivity|].
  destruct (batch_size <? 0)%Z; eexists; reflexivity.
Qed.

(** *** Facts about [test_attacks] *)

Section TestAttacksFacts.
Context {F X : Type}.
Variables (zero one nan : F) (add sub mul div : F -> F -> F)
          (exp log sqrt : F -> F) (of_nat : nat -> F)
          (eqb : F -> F -> bool).
Variable attack_batches : F -> string -> result unit.
Variable to_device :
  (list X -> result (ndarray2 F)) -> result (list X -> result (ndarray2 F)).
Variable successful : ndarray2 F -> ndarray2 F -> result (list nat).
Variable perturbation : list X -> list X -> list nat -> result unit.
Variable detection :
  nat -> bool -> string -> string -> string -> bool ->
  list (pyobj F) -> ndarray2 F -> ndarray2 F -> ndarray2 F -> list nat ->
  result (list (string * F)).

(** With [all_attack] set, as it is by default, and an epsilon to try,
    [test_attacks] raises [NameError] at [test_loader] before anything
    else is done, in every module that binds [tqdm] and not [test_loader];
    [module_globals] is one. *)
Theorem test_attacks_test_loader_unbound
    (np globals : list string) (model : list X -> result (ndarray2 F))
    (x_train : list X) (y_train : ndarray2 F) (x_clean : list X) (y_clean : ndarray2 F)
    (x_adv : list X) (y_adv : ndarray2 F) (epsilon : F) (epsilons : list F)
    (nb_classes : nat) (save : bool) (guard_name victim_name data_name : string)
    (targeted : bool) :
  "tqdm" ∈ globals -> "test_loader" ∉ globals ->
  ("test_loader" ∉ module_globals) /\
  (test_attacks zero one nan add sub mul div exp log sqrt of_nat eqb np globals
     attack_batches to_device successful perturbation detection
     model x_train y_train x_clean y_clean x_adv y_adv (epsilon :: epsilons) nb_classes
     save guard_name victim_name data_name true targeted
   = Raise (NameError "test_loader")).
Proof.
  intros Htqdm Hloader. split.
  - apply (bool_decide_unpack _). vm_compute. exact I.
  - unfold test_attacks, attack_loop, attack_methods. cbn [for_each].
    unfold py_global. rewrite (bool_decide_eq_true_2 _ Htqdm).
    rewrite (bool_decide_eq_false_2 _ Hloader). reflexivity.
Qed.

(** Under NumPy, a call of [test_attacks] that returns has returned the
    empty dictionary, because no attack was successful: the detection
    statistics come after [comp_logp], which raises. *)
Theorem test_attacks_returns_nothing
    (globals : list string) (model : list X -> result (ndarray2 F))
    (x_train : list X) (y_train : ndarray2 F) (x_clean : list X) (y_clean : ndarray2 F)
    (x_adv : list X) (y_adv : ndarray2 F) (epsilons : list F)
    (nb_classes : nat) (save : bool) (guard_name victim_name data_name : string)
    (all_attack targeted : bool) (results : list (string * F)) :
  test_attacks zero one nan add sub mul div exp log sqrt of_nat eqb numpy_dir globals
    attack_batches to_device successful perturbation detection
    model x_train y_train x_clean y_clean x_adv y_adv epsilons nb_classes
    save guard_name victim_name data_name all_attack targeted
  = Ok results ->
  results = [] /\ successful y_adv y_clean = Ok [].
Proof.
  unfold test_attacks. intros H.
  destruct (if all_attack then _ else _) as [[]|e];
    cbn [mbind result_bind] in H; [|discriminate H].
  destruct (to_device model) as [model'|e];
    cbn [mbind result_bind] in H; [|discriminate H].
  destruct (get_logits model' x_clean 100) as [y_logit_clean|e];
    cbn [mbind result_bind] in H; [|discriminate H].
  destruct (get_logits model' x_adv 100) as [y_logit_adv|e];
    cbn [mbind result_bind] in H; [|discriminate H].
  destruct (successful y_adv y_clean) as [ind_success|e];
    cbn [mbind result_bind] in H; [|discriminate H].
  destruct ind_success as [|i ind_success]; cbn [length Nat.eqb] in H.
  - injection H as <-. auto.
  - destruct (perturbation x_adv x_clean (i :: ind_success)) as [[]|e];
      cbn [mbind result_bind] in H; [|discriminate H].
    destruct (get_logits model' x_train 100) as [y_logit_train|e];
      cbn [mbind result_bind] in H; [|discriminate H].
    discriminate H.
Qed.

(** Under NumPy, with the attack block skipped and at least one
    successful attack, [test_attacks] gets as far as its first call of
    [comp_logp] and raises the [AttributeError] of that call. *)
Theorem test_attacks_attribute_error
    (globals : list string) (model model' : list X -> result (ndarray2 F))
    (x_train : list X) (y_train : ndarray2 F) (x_clean : list X) (y_clean : ndarray2 F)
    (x_adv : list X) (y_adv : ndarray2 F) (epsilons : list F)
    (nb_classes : nat) (save : bool) (guard_name victim_name data_name : string)
    (all_attack targeted : bool)
    (y_logit_train y_logit_clean y_logit_adv : ndarray2 F) (ind_success : list nat) :
  all_attack = false \/ epsilons = [] ->
  to_device model = Ok model' ->
  get_logits model' x_clean 100 = Ok y_logit_clean ->
  get_logits model' x_adv 100 = Ok y_logit_adv ->
  successful y_adv y_clean = Ok ind_success -> ind_success <> [] ->
  perturbation x_adv x_clean ind_success = Ok tt ->
  get_logits model' x_train 100 = Ok y_logit_train ->
  test_attacks zero one nan add sub mul div exp log sqrt of_nat eqb numpy_dir globals
    attack_batches to_device successful perturbation detection
    model x_train y_train x_clean y_clean x_adv y_adv epsilons nb_classes
    save guard_name victim_name data_name all_attack targeted
  = Raise (AttributeError "module 'numpy' has no attribute 'logsumexp'").
Proof.
  intros Hskip Hdev Hclean Hadv Hind Hne Hpert Htrain. unfold test_attacks.
  assert ((if all_attack then attack_loop globals attack_batches epsilons else Ok tt)
          = Ok tt) as ->.
  { destruct Hskip as [-> | ->]; [reflexivity | destruct all_attack; reflexivity]. }
  cbn [mbind result_bind]. rewrite Hdev. cbn [mbind result_bind].
  rewrite Hclean. cbn [mbind result_bind]. rewrite Hadv. cbn [mbind result_bind].
  rewrite Hind. cbn [mbind result_bind].
  destruct ind_success as [|i ind_success]; [congruence|]. cbn [length Nat.eqb].
  rewrite Hpert. cbn [mbind result_bind]. rewrite Htrain. reflexivity.
Qed.

End TestAttacksFacts.

(** A guard that scores a sample by itself, on rationals: one class per
    sample, three samples per set. *)
Lemma test_attacks_test_loader_unbound_witness :
  ("test_loader" ∉ module_globals) /\
  test_attacks 0%Q 1%Q (-1)%Q Qplus Qminus Qmult Qdiv id id id
    (fun n => inject_Z (Z.of_nat n)) Qeq_bool numpy_dir module_globals
    (fun _ _ => Ok tt) Ok (fun _ _ => Ok []) (fun _ _ _ => Ok tt)
    (fun _ _ _ _ _ _ _ _ _ _ _ => Ok [("success_rate", 0%Q)])
    (fun batch => Ok (NdArray2 1 (map (fun v : Q => [v]) batch)))
    [1; 2; 3]%Q (NdArray2 1 [[1]; [1]; [1]]%Q) [4; 5; 6]%Q (NdArray2 1 [[1]; [1]; [1]]%Q)
    [7; 8; 9]%Q (NdArray2 1 [[1]; [1]; [1]]%Q) [(1 # 10)%Q] 1 false "bayes_model" "mlp"
    "mnist" true false
  = Raise (NameError "test_loader").
Proof.
  apply (test_attacks_test_loader_unbound 0%Q 1%Q (-1)%Q Qplus Qminus Qmult Qdiv id id id
           (fun n => inject_Z (Z.of_nat n)) Qeq_bool
           (fun _ _ => Ok tt) Ok (fun _ _ => Ok []) (fun _ _ _ => Ok tt)
           (fun _ _ _ _ _ _ _ _ _ _ _ => Ok [("success_rate", 0%Q)])
           numpy_dir module_globals
           (fun batch => Ok (NdArray2 1 (map (fun v : Q => [v]) batch)))
           [1; 2; 3]%Q (NdArray2 1 [[1]; [1]; [1]]%Q) [4; 5; 6]%Q
           (NdArray2 1 [[1]; [1]; [1]]%Q) [7; 8; 9]%Q (NdArray2 1 [[1]; [1]; [1]]%Q)
           (1 # 10)%Q [] 1 false "bayes_model" "mlp" "mnist" false);
    apply (bool_decide_unpack _); vm_compute; exact I.
Defined.

Lemma test_attacks_returns_nothing_witness :
  test_attacks 0%Q 1%Q (-1)%Q Qplus Qminus Qmult Qdiv id id id
    (fun n => inject_Z (Z.of_nat n)) Qeq_bool numpy_dir module_globals
    (fun _ _ => Ok tt) Ok (fun _ _ => Ok []) (fun _ _ _ => Ok tt)
    (fun _ _ _ _ _ _ _ _ _ _ _ => Ok [("success_rate", 0%Q)])
    (fun batch => Ok (NdArray2 1 (map (fun v : Q => [v]) batch)))
    [1; 2; 3]%Q (NdArray2 1 [[1]; [1]; [1]]%Q) [4; 5; 6]%Q (NdArray2 1 [[1]; [1]; [1]]%Q)
    [7; 8; 9]%Q (NdArray2 1 [[1]; [1]; [1]]%Q) [] 1 false "bayes_model" "mlp" "mnist"
    true false
  = Ok [] /\
  ([] : list (string * Q)) = [] /\
  (fun _ _ : ndarray2 Q => Ok []) (NdArray2 1 [[1]; [1]; [1]]%Q) (NdArray2 1 [[1]; [1]; [1]]%Q)
  = (Ok [] : result (list nat)).
Proof.
  split; [reflexivity|].
  apply (test_attacks_returns_nothing 0%Q 1%Q (-1)%Q Qplus Qminus Qmult Qdiv id id id
           (fun n => inject_Z (Z.of_nat n)) Qeq_bool
           (fun _ _ => Ok tt) Ok (fun _ _ => Ok []) (fun _ _ _ => Ok tt)
           (fun _ _ _ _ _ _ _ _ _ _ _ => Ok [("success_rate", 0%Q)])
           module_globals
           (fun batch => Ok (NdArray2 1 (map (fun v : Q => [v]) batch)))
           [1; 2; 3]%Q (NdArray2 1 [[1]; [1]; [1]]%Q) [4; 5; 6]%Q
           (NdArray2 1 [[1]; [1]; [1]]%Q) [7; 8; 9]%Q (NdArray2 1 [[1]; [1]; [1]]%Q)
           [] 1 false "bayes_model" "mlp" "mnist" true false []).
  reflexivity.
Defined.

Lemma test_attacks_attribute_error_witness :
  test_attacks 0%Q 1%Q (-1)%Q Qplus Qminus Qmult Qdiv id id id
    (fun n => inject_Z (Z.of_nat n)) Qeq_bool numpy_dir module_globals
    (fun _ _ => Ok tt) Ok (fun _ _ => Ok [0; 2]) (fun _ _ _ => Ok tt)
    (fun _ _ _ _ _ _ _ _ _ _ _ => Ok [("success_rate", 0%Q)])
    (fun batch => Ok (NdArray2 1 (map (fun v : Q => [v]) batch)))
    [1; 2; 3]%Q (NdArray2 1 [[1]; [1]; [1]]%Q) [4; 5; 6]%Q (NdArray2 1 [[1]; [1]; [1]]%Q)
    [7; 8; 9]%Q (NdArray2 1 [[1]; [1]; [1]]%Q) [] 1 false "bayes_model" "mlp" "mnist"
    true false
  = Raise (AttributeError "module 'numpy' has no attribute 'logsumexp'").
Proof.
  apply (test_attacks_attribute_error 0%Q 1%Q (-1)%Q Qplus Qminus Qmult Qdiv id id id
           (fun n => inject_Z (Z.of_nat n)) Qeq_bool
           (fun _ _ => Ok tt) Ok (fun _ _ => Ok [0; 2]) (fun _ _ _ => Ok tt)
           (fun _ _ _ _ _ _ _ _ _ _ _ => Ok [("success_rate", 0%Q)])
           module_globals
           (fun batch => Ok (NdArray2 1 (map (fun v : Q => [v]) batch)))
           (fun batch => Ok (NdArray2 1 (map (fun v : Q => [v]) batch)))
           [1; 2; 3]%Q (NdArray2 1 [[1]; [1]; [1]]%Q) [4; 5; 6]%Q
           (NdArray2 1 [[1]; [1]; [1]]%Q) [7; 8; 9]%Q (NdArray2 1 [[1]; [1]; [1]]%Q)
           [] 1 false "bayes_model" "mlp" "mnist" true false
           (NdArray2 1 [[1]; [2]; [3]]%Q) (NdArray2 1 [[4]; [5]; [6]]%Q)
           (NdArray2 1 [[7]; [8]; [9]]%Q) [0; 2]).
  - right. reflexivity.
  - reflexivity.
  - reflexivity.
  - reflexivity.
  - reflexivity.
  - discriminate.
  - reflexivity.
  - reflexivity.
Defined.

End DetectLogp.

(* ===================================================================== *)
(** ** attacks/detect_attacks_logp.py: comp_detect, search_alpha          *)
(* ===================================================================== *)

Module TorchLogp.
Import Py.

(** A one-dimensional tensor with its dtype: floating-point numbers, or
    the booleans that a comparison of tensors gives. *)
Inductive tensor1 : Type :=
| FloatTensor (values : list Q)
| BoolTensor (values : list bool).

(** [torch.mean(t)]: the mean of a floating-point tensor, NaN when it is
    empty; a tensor of booleans is refused (the text is that of current
    torch releases). *)
Definition torch_mean (t : tensor1) : result npfloat :=
  match t with
  | FloatTensor [] => Ok NaN
  | FloatTensor values =>
    Ok (Num (foldr Qplus 0%Q values / inject_Z (Z.of_nat (length values)))%Q)
  | BoolTensor _ =>
    Raise (RuntimeError ("mean(): could not infer output dtype. Input dtype must be " +:+
                         "either a floating point or complex dtype. Got: Bool"))
  end.

(** [x > threshold] and [x < threshold] on the floating-point tensor [x]. *)
Definition torch_gt (x : list Q) (threshold : Q) : tensor1 :=
  BoolTensor (map (fun xi => Qltb threshold xi) x).
Definition torch_lt (x : list Q) (threshold : Q) : tensor1 :=
  BoolTensor (map (fun xi => Qltb xi threshold) x).

(** [comp_detect(x, x_mean, x_std, alpha, plus)] *)
Definition comp_detect (x : list Q) (x_mean x_std alpha : Q) (plus : bool)
  : result npfloat :=
  match (if plus
         then torch_mean (torch_gt x (x_mean + alpha * x_std)%Q)
         else torch_mean (torch_lt x (x_mean - alpha * x_std)%Q)) with
  | Raise e => Raise e
  | Ok detect_rate => Ok (fmul detect_rate 100%Q)
  end.

Section SearchAlpha.
Variables (x : list Q) (x_mean x_std target_rate : Q) (plus : bool).

(** [torch.abs(detect_rate - target_rate) > 0.01 and T < 20] *)
Definition sa_cond (s : DetectLogp.sa_state) : bool :=
  fgt (fabs (fsub (DetectLogp.detect_rate s) target_rate)) (1 # 100)%Q
  && (DetectLogp.T s <? 20).

(** The body of the [while] loop. *)
Definition sa_body (s : DetectLogp.sa_state) : result DetectLogp.sa_state :=
  let amin := if fgt (DetectLogp.detect_rate s) target_rate
              then DetectLogp.alpha_now s else DetectLogp.alpha_min s in
  let amax := if fgt (DetectLogp.detect_rate s) target_rate
              then DetectLogp.alpha_max s else DetectLogp.alpha_now s in
  let anow := ((1 # 2) * (amin + amax))%Q in
  match comp_detect x x_mean x_std anow plus with
  | Raise e => Raise e
  | Ok rate =>
    Ok {| DetectLogp.alpha_min := amin; DetectLogp.alpha_max := amax;
          DetectLogp.alpha_now := anow; DetectLogp.detect_rate := rate;
          DetectLogp.T := S (DetectLogp.T s) |}
  end.

(** The [while] loop; [None] when the fuel runs out before the loop
    ends. *)
Fixpoint sa_loop (fuel : nat) (s : DetectLogp.sa_state)
  : option (result DetectLogp.sa_state) :=
  if sa_cond s
  then match fuel with
       | 0 => None
       | S fuel' =>
         match sa_body s with
         | Raise e => Some (Raise e)
         | Ok s' => sa_loop fuel' s'
         end
       end
  else Some (Ok s).

(** [search_alpha(x, x_mean, x_std, target_rate, plus)] *)
Definition search_alpha (fuel : nat) : option (result (Q * npfloat)) :=
  match comp_detect x x_mean x_std (3 # 2)%Q plus with
  | Raise e => Some (Raise e)
  | Ok rate =>
    match sa_loop fuel {| DetectLogp.alpha_min := 0%Q; DetectLogp.alpha_max := 3%Q;
                          DetectLogp.alpha_now := (3 # 2)%Q;
                          DetectLogp.detect_rate := rate; DetectLogp.T := 0 |} with
    | Some (Ok s) => Some (Ok (DetectLogp.alpha_now s, DetectLogp.detect_rate s))
    | Some (Raise e) => Some (Raise e)
    | None => None
    end
  end.

End SearchAlpha.

(** *** Facts *)

(** [torch.mean] gets the tensor of booleans of the comparison: this
    [comp_detect] raises on every input, empty or not. *)
Lemma comp_detect_raises (x : list Q) (x_mean x_std alpha : Q) (plus : bool) :
  exists msg : string, comp_detect x x_mean x_std alpha plus = Raise (RuntimeError msg).
Proof. destruct plus; eexists; reflexivity. Qed.

(** C3 fails on the code of [detect_attacks_logp.py]: [search_alpha]
    raises at its first call of [comp_detect], before the loop, with any
    fuel: no turn of the loop is made and no pair is returned, whatever
    the arguments. *)
Theorem search_alpha_raises (x : list Q) (x_mean x_std target_rate : Q) (plus : bool)
    (fuel : nat) :
  exists msg : string,
    comp_detect x x_mean x_std (3 # 2)%Q plus = Raise (RuntimeError msg) /\
    search_alpha x x_mean x_std target_rate plus fuel = Some (Raise (RuntimeError msg)).
Proof. destruct plus; eexists; split; reflexivity. Qed.

End TorchLogp.

(* ===================================================================== *)
(** ** models/conv_generator_cifar10_G.py: Generator                      *)
(* ===================================================================== *)

Module GeneratorG.
Import Py.

(** A two-dimensional tensor with its [size(0)], [size(1)] and rows. *)
Record tensor (F : Type) : Type := Tensor {
  size0 : nat;
  size1 : nat;
  entries : list (list F)
}.
Arguments Tensor {F} size0 size1 entries.
Arguments size0 {F} t.
Arguments size1 {F} t.
Arguments entries {F} t.

(** [t] is a tensor of shape [(N, d)]. *)
Definition has_shape {F : Type} (t : tensor F) (N d : nat) : Prop :=
  size0 t = N /\ size1 t = d /\
  length (entries t) = N /\ Forall (fun r => length r = d) (entries t).

(** The arguments [MLPLayer(d_in, d_out, activation, name)] and
    [DeconvLayer(input_shape, output_shape, filter_shape, activation, name)]
    that [__init__] builds its layers from. *)
Record MLPLayer : Type := MkMLPLayer {
  d_in : nat;
  d_out : nat;
  activation : string;
  layer_name : string
}.

Record DeconvLayer : Type := MkDeconvLayer {
  dc_input_shape : nat * nat * nat;
  dc_output_shape : nat * nat * nat;
  dc_filter_shape : nat * nat * nat * nat;
  dc_activation : string;
  dc_name : string
}.

Record Generator : Type := MkGenerator {
  pzy_layers : list MLPLayer;
  mlp_layers_pxz : list MLPLayer;
  conv_layers : list DeconvLayer
}.

(** The loop [for i in range(len(fc_layers) - 1)] that stacks MLP layers;
    [act i] is the activation of layer [i] and [tag] the middle of its
    name. *)
Definition mlp_stack (fc_layers : list nat) (act : nat -> string) (name tag : string)
  : list MLPLayer :=
  omap (fun i =>
          match fc_layers !! i, fc_layers !! (i + 1) with
          | Some a, Some b => Some (MkMLPLayer a b (act i) (name +:+ tag +:+ pretty i))
          | _, _ => None
          end)
       (seq 0 (length fc_layers - 1)).

Definition deconv_stack (decoder_input_shape : list (nat * nat * nat))
    (last_activation name : string) : list DeconvLayer :=
  let filter_width := 5 in
  omap (fun i =>
          match decoder_input_shape !! i, decoder_input_shape !! (i + 1) with
          | Some input_shape, Some output_shape =>
            Some (MkDeconvLayer input_shape output_shape
                    (input_shape.2, output_shape.2, filter_width, filter_width)
                    (if i + 1 =? length decoder_input_shape - 1
                     then last_activation else "relu")
                    (name +:+ "_conv_l" +:+ pretty i))
          | _, _ => None
          end)
       (seq 0 (length decoder_input_shape - 1)).

(** [Generator.__init__]; [input_shape] is [(channels, height, width)].
    This is the object the constructor has built when
    [decoder_input_shape] has a first shape whose product fits NumPy's
    integers ([prod_fits] below): on an empty list the code raises
    [IndexError] at [decoder_input_shape[0]], and a larger product wraps
    around.  The layers of p(z|y) do not depend on either. *)
Definition Generator_init (input_shape : nat * nat * nat) (dimH dimZ dimY n_channel : nat)
    (last_activation name : string)
    (decoder_input_shape : option (list (nat * nat * nat))) : Generator :=
  let fc_layers_pzy := [dimY; dimH; dimZ * 2] in
  let decoder_input_shape :=
    match decoder_input_shape with
    | Some shapes => shapes
    | None => [(4, 4, n_channel * 4); (8, 8, n_channel * 2); (16, 16, n_channel);
               (input_shape.1.2, input_shape.2, input_shape.1.1)]
    end in
  let prod0 :=
    match decoder_input_shape with
    | (h, w, c) :: _ => h * w * c
    | [] => 0
    end in
  let fc_layers_pxz := [dimZ; dimH; prod0] in
  {| pzy_layers :=
       mlp_stack fc_layers_pzy
         (fun i => if i + 1 =? length fc_layers_pzy - 1 then "linear" else "relu")
         name "_pzy_mlp_l";
     mlp_layers_pxz := mlp_stack fc_layers_pxz (fun _ => "relu") name "_pxz_mlp_l";
     conv_layers := deconv_stack decoder_input_shape last_activation name |}.

(** [int(np.prod(decoder_input_shape[0]))] is computed in NumPy's default
    integer, of 32 bits or more: it is the product that [Generator_init]
    takes when that product fits; and the code can build a decoder only
    from a list with a first shape. *)
Definition prod_fits (decoder_input_shape : list (nat * nat * nat)) : Prop :=
  exists s rest, decoder_input_shape = s :: rest /\
                 (Z.of_nat (s.1.1 * s.1.2 * s.2) < 2 ^ 31)%Z.

(** [torch.chunk(t, chunks, dim=1)]: pieces of [ceil(size1 / chunks)]
    columns, the last one shorter; on a tensor with no columns, [chunks]
    empty pieces. *)
Definition torch_chunk_dim1 {F : Type} (t : tensor F) (chunks : nat) : list (tensor F) :=
  let dim_size := size1 t in
  let split_size := (dim_size + chunks - 1) / chunks in
  if (split_size =? 0) && (dim_size =? 0)
  then replicate chunks (Tensor (size0 t) 0 (map (fun _ => []) (entries t)))
  else
    map (fun k =>
           Tensor (size0 t) (Nat.min split_size (dim_size - k * split_size))
                  (map (fun r => take split_size (drop (k * split_size) r)) (entries t)))
        (seq 0 (Nat.max ((dim_size + split_size - 1) / split_size) 1)).

Section Forward.
Context {F : Type}.
(** [layer(out)] for a layer of [mlp.py]. *)
Variable forward : MLPLayer -> tensor F -> result (tensor F).

(** [for layer in layers: out = layer(out)] *)
Fixpoint apply_layers (layers : list MLPLayer) (out : tensor F) : result (tensor F) :=
  match layers with
  | [] => Ok out
  | layer :: layers' =>
    match forward layer out with
    | Ok out' => apply_layers layers' out'
    | Raise e => Raise e
    end
  end.

(** [Generator.pzy_params] *)
Definition pzy_params (self : Generator) (y : tensor F) : result (tensor F * tensor F) :=
  match apply_layers (pzy_layers self) y with
  | Raise e => Raise e
  | Ok out =>
    match torch_chunk_dim1 out 2 with
    | [mu; log_sig] => Ok (mu, log_sig)
    | _ => Raise (ValueError "not enough values to unpack (expected 2)")
    end
  end.

End Forward.

(** A four-dimensional tensor: its sizes [(N, C, H, W)] and its entries,
    flattened. *)
Record tensor4 (F : Type) : Type := Tensor4 {
  dims4 : nat * nat * nat * nat;
  flat : list F
}.
Arguments Tensor4 {F} dims4 flat.
Arguments dims4 {F} t.
Arguments flat {F} t.

Definition has_shape4 {F : Type} (t : tensor4 F) (N C H W : nat) : Prop :=
  dims4 t = (N, C, H, W) /\ length (flat t) = N * C * H * W.

(** [t.view(n, c, h, w)] on a two-dimensional tensor: the same entries
    under the new sizes, when the numbers of entries agree. *)
Definition torch_view4 {F : Type} (t : tensor F) (n c h w : nat) : result (tensor4 F) :=
  if size0 t * size1 t =? n * c * h * w
  then Ok (Tensor4 (n, c, h, w) (concat (entries t)))
  else Raise (RuntimeError "shape is invalid for input of this size").

Section Decoder.
Context {F : Type}.
(** [layer(out)] for a layer of [mlp.py] and for a layer of [deconv.py]. *)
Variable forward : MLPLayer -> tensor F -> result (tensor F).
Variable deconv : DeconvLayer -> tensor4 F -> result (tensor4 F).

Fixpoint apply_deconv (layers : list DeconvLayer) (out : tensor4 F) : result (tensor4 F) :=
  match layers with
  | [] => Ok out
  | layer :: layers' =>
    match deconv layer out with
    | Ok out' => apply_deconv layers' out'
    | Raise e => Raise e
    end
  end.

(** [Generator.pxz_params]; the shapes kept by the layers are
    [(height, width, channels)]. *)
Definition pxz_params (self : Generator) (z : tensor F) : result (tensor4 F) :=
  match apply_layers forward (mlp_layers_pxz self) z with
  | Raise e => Raise e
  | Ok out =>
    match conv_layers self with
    | [] => Raise IndexError
    | first :: _ =>
      let decoder_initial_shape := dc_input_shape first in
      match torch_view4 out (size0 out)
              decoder_initial_shape.2 decoder_initial_shape.1.1 decoder_initial_shape.1.2 with
      | Raise e => Raise e
      | Ok out4 => apply_deconv (conv_layers self) out4
      end
    end
  end.

End Decoder.

(** A transposed convolution that only keeps track of sizes: the output
    of the layer's [output_shape], filled with zeros. *)
Definition zeros_deconv (layer : DeconvLayer) (t : tensor4 Z) : result (tensor4 Z) :=
  let '(n, c, h, w) := dims4 t in
  let '(h_in, w_in, c_in) := dc_input_shape layer in
  let '(h_out, w_out, c_out) := dc_output_shape layer in
  if (c =? c_in) && (h =? h_in) && (w =? w_in)
  then Ok (Tensor4 (n, c_out, h_out, w_out) (replicate (n * c_out * h_out * w_out) 0%Z))
  else Raise (RuntimeError "expected input with other sizes").

(** A fully connected layer over the integers with every weight 1 and no
    bias, used to run [pzy_params] on concrete tensors. *)
Definition ones_forward (layer : MLPLayer) (t : tensor Z) : result (tensor Z) :=
  if size1 t =? d_in layer
  then Ok (Tensor (size0 t) (d_out layer)
             (map (fun r =>
                     let s := foldr Z.add 0%Z r in
                     replicate (d_out layer)
                       (if String.eqb (activation layer) "relu" then Z.max 0 s else s))
                  (entries t)))
  else Raise (RuntimeError "mat1 and mat2 shapes cannot be multiplied").

(** *** Facts about [pzy_params] *)

Lemma pzy_layers_init input_shape dimH dimZ dimY n_channel last_activation name dis :
  pzy_layers (Generator_init input_shape dimH dimZ dimY n_channel last_activation name dis) =
  [MkMLPLayer dimY dimH "relu" (name +:+ "_pzy_mlp_l" +:+ "0");
   MkMLPLayer dimH (dimZ * 2) "linear" (name +:+ "_pzy_mlp_l" +:+ "1")].
Proof. reflexivity. Qed.

Lemma half_of_double (d : nat) : (d * 2 + 2 - 1) / 2 = d.
Proof. symmetry. apply (Nat.div_unique _ 2 d 1); lia. Qed.

Lemma pieces_of_double (d : nat) : 0 < d -> Nat.max ((d * 2 + d - 1) / d) 1 = 2.
Proof.
  intros Hd. assert ((d * 2 + d - 1) / d = 2) as ->; [|reflexivity].
  symmetry. apply (Nat.div_unique _ d 2 (d - 1)); lia.
Qed.

(** [torch.chunk(t, 2, dim=1)] on a tensor with [2 * d] columns: the left
    and the right half of every row. *)
Lemma torch_chunk_halves {F : Type} (t : tensor F) (N d : nat) :
  has_shape t N (d * 2) ->
  exists mu log_sig : tensor F,
    torch_chunk_dim1 t 2 = [mu; log_sig] /\
    has_shape mu N d /\ has_shape log_sig N d /\
    entries mu = map (take d) (entries t) /\
    entries log_sig = map (drop d) (entries t).
Proof.
  intros (H0 & H1 & Hlen & Hrows). unfold torch_chunk_dim1.
  rewrite H1, half_of_double. destruct d as [|d].
  - simpl. eexists _, _. split; [reflexivity|].
    assert (map (fun _ : list F => []) (entries t) = map (drop 0) (entries t)) as Hd.
    { apply map_ext_Forall. eapply Forall_impl; [exact Hrows|].
      intros r Hr. simpl in *. destruct r; [reflexivity | discriminate]. }
    repeat split; simpl; rewrite ?length_map; try assumption.
    all: apply Forall_map, Forall_true; reflexivity.
  - replace (S d * 2 =? 0) with false by (symmetry; apply Nat.eqb_neq; lia).
    rewrite andb_false_r, pieces_of_double by lia.
    cbn [seq map]. eexists _, _. split; [reflexivity|].
    assert (Forall (fun r : list F =>
                      length (take (S d) (drop (0 * S d) r)) = S d /\
                      length (take (S d) (drop (1 * S d) r)) = S d /\
                      take (S d) (drop (0 * S d) r) = take (S d) r /\
                      take (S d) (drop (1 * S d) r) = drop (S d) r) (entries t)) as Hr.
    { eapply Forall_impl; [exact Hrows|]. intros r Hr.
      rewrite Nat.mul_0_l, Nat.mul_1_l, drop_0.
      rewrite !length_take, !length_drop, Hr.
      repeat split; try lia.
      apply take_ge. rewrite length_drop, Hr. lia. }
    repeat split; cbn [size0 size1 entries]; rewrite ?length_map; try assumption; try lia.
    all: first [apply Forall_map | apply map_ext_Forall];
      (eapply Forall_impl; [exact Hr|]); intros r Hx; apply Hx.
Qed.

Section ForwardFacts.
Context {F : Type}.
Variable forward : MLPLayer -> tensor F -> result (tensor F).
(** A layer built with [(d_in, d_out)] maps [(N, d_in)] to [(N, d_out)]. *)
Hypothesis forward_shape :
  forall (layer : MLPLayer) (t : tensor F) (N : nat),
    has_shape t N (d_in layer) ->
    exists t', forward layer t = Ok t' /\ has_shape t' N (d_out layer).

(** C10: on a batch [y] of shape [(N, dimY)], the p(z|y) MLP, whose last
    layer has width [2 * dimZ], gives an output of shape [(N, 2 * dimZ)],
    and [pzy_params] returns its two halves along dimension 1, each of
    shape [(N, dimZ)]. *)
Theorem pzy_params_shape
    input_shape dimH dimZ dimY n_channel last_activation name dis
    (y : tensor F) (N : nat) :
  has_shape y N dimY ->
  d_out <$> last (pzy_layers (Generator_init input_shape dimH dimZ dimY n_channel
                                last_activation name dis)) = Some (2 * dimZ) /\
  exists out mu log_sig : tensor F,
    apply_layers forward
      (pzy_layers (Generator_init input_shape dimH dimZ dimY n_channel
                     last_activation name dis)) y = Ok out /\
    has_shape out N (2 * dimZ) /\
    pzy_params forward
      (Generator_init input_shape dimH dimZ dimY n_channel last_activation name dis) y
      = Ok (mu, log_sig) /\
    has_shape mu N dimZ /\ has_shape log_sig N dimZ /\
    entries mu = map (take dimZ) (entries out) /\
    entries log_sig = map (drop dimZ) (entries out).
Proof.
  intros Hy. unfold pzy_params. rewrite pzy_layers_init.
  split; [simpl; f_equal; lia|].
  destruct (forward_shape (MkMLPLayer dimY dimH "relu" (name +:+ "_pzy_mlp_l" +:+ "0")) y N Hy)
    as (h & Hh & Hhs).
  destruct (forward_shape (MkMLPLayer dimH (dimZ * 2) "linear" (name +:+ "_pzy_mlp_l" +:+ "1")) h N Hhs)
    as (out & Hout & Houts).
  cbn [d_out] in Houts.
  destruct (torch_chunk_halves out N dimZ Houts) as (mu & ls & Hc & Hmu & Hls & Hemu & Hels).
  exists out, mu, ls. cbn [apply_layers]. rewrite Hh, Hout, Hc.
  replace (2 * dimZ) with (dimZ * 2) by lia. auto 10.
Qed.

End ForwardFacts.

Lemma ones_forward_shape (layer : MLPLayer) (t : tensor Z) (N : nat) :
  has_shape t N (d_in layer) ->
  exists t', ones_forward layer t = Ok t' /\ has_shape t' N (d_out layer).
Proof.
  intros (H0 & H1 & Hlen & Hrows). unfold ones_forward.
  rewrite H1, Nat.eqb_refl. eexists. split; [reflexivity|].
  repeat split; simpl; rewrite ?length_map; try assumption.
  apply Forall_map, Forall_true. intros r. apply length_replicate.
Qed.

Lemma pzy_params_shape_witness :
  d_out <$> last (pzy_layers (Generator_init (3, 32, 32) 4 3 2 8 "sigmoid" "gen" None))
    = Some (2 * 3) /\
  exists out mu log_sig : tensor Z,
    apply_layers ones_forward
      (pzy_layers (Generator_init (3, 32, 32) 4 3 2 8 "sigmoid" "gen" None))
      (Tensor 2 2 [[1; 0]; [0; 1]]%Z) = Ok out /\
    has_shape out 2 (2 * 3) /\
    pzy_params ones_forward (Generator_init (3, 32, 32) 4 3 2 8 "sigmoid" "gen" None)
      (Tensor 2 2 [[1; 0]; [0; 1]]%Z) = Ok (mu, log_sig) /\
    has_shape mu 2 3 /\ has_shape log_sig 2 3 /\
    entries mu = map (take 3) (entries out) /\
    entries log_sig = map (drop 3) (entries out).
Proof.
  apply (pzy_params_shape ones_forward ones_forward_shape
           (3, 32, 32) 4 3 2 8 "sigmoid" "gen" None (Tensor 2 2 [[1; 0]; [0; 1]]%Z) 2).
  repeat split; simpl; auto.
Defined.


(** *** The decoder: [__init__] and [pxz_params] *)

Lemma omap_total {A B : Type} (f : A -> option B) (l : list A) :
  Forall (fun a => is_Some (f a)) l ->
  length (omap f l) = length l /\
  forall i a, l !! i = Some a -> omap f l !! i = f a.
Proof.
  induction 1 as [|a l [b Hb] _ [IHlen IHlk]]; [split; [reflexivity | intros i a H; inversion H]|].
  cbn. rewrite Hb. cbn. split; [rewrite IHlen; reflexivity|].
  intros [|i] a' Hlk; cbn in *; [congruence | apply IHlk; exact Hlk].
Qed.

Lemma deconv_stack_lookup (shapes : list (nat * nat * nat)) (last_activation name : string)
    (i : nat) (layer : DeconvLayer) :
  deconv_stack shapes last_activation name !! i = Some layer ->
  i + 1 < length shapes /\
  shapes !! i = Some (dc_input_shape layer) /\
  shapes !! (i + 1) = Some (dc_output_shape layer) /\
  dc_filter_shape layer = ((dc_input_shape layer).2, (dc_output_shape layer).2, 5, 5) /\
  dc_activation layer = (if i + 2 =? length shapes then last_activation else "relu").
Proof.
  unfold deconv_stack. intros Hlk.
  match type of Hlk with omap ?f _ !! _ = _ =>
    assert (Forall (fun k => is_Some (f k)) (seq 0 (length shapes - 1))) as Hall end.
  { apply Forall_forall. intros k Hk. apply elem_of_seq in Hk.
    destruct (lookup_lt_is_Some_2 shapes k) as [s_in ->]; [lia|].
    destruct (lookup_lt_is_Some_2 shapes (k + 1)) as [s_out ->]; [lia|]. eauto. }
  apply omap_total in Hall as [Hlen Hat].
  assert (i < length shapes - 1) as Hi.
  { apply lookup_lt_Some in Hlk. rewrite Hlen, length_seq in Hlk. exact Hlk. }
  rewrite (Hat i i) in Hlk by (apply lookup_seq; simpl; lia).
  destruct (shapes !! i) as [s_in|]; [|discriminate].
  destruct (shapes !! (i + 1)) as [s_out|]; [|discriminate].
  injection Hlk as <-. cbn. split; [lia|]. repeat split.
  destruct (i + 1 =? length shapes - 1) eqn:E1, (i + 2 =? length shapes) eqn:E2;
    try reflexivity;
    [apply Nat.eqb_eq in E1; apply Nat.eqb_neq in E2
    |apply Nat.eqb_neq in E1; apply Nat.eqb_eq in E2];
    lia.
Qed.

Lemma conv_layers_length
    input_shape dimH dimZ dimY n_channel last_activation name
    (shapes : list (nat * nat * nat)) :
  length (conv_layers (Generator_init input_shape dimH dimZ dimY n_channel last_activation
                         name (Some shapes))) = length shapes - 1.
Proof.
  cbn [Generator_init conv_layers]. unfold deconv_stack.
  match goal with |- length (omap ?f _) = _ =>
    assert (Forall (fun k => is_Some (f k)) (seq 0 (length shapes - 1))) as Hall end.
  { apply Forall_forall. intros k Hk. apply elem_of_seq in Hk.
    destruct (lookup_lt_is_Some_2 shapes k) as [s_in ->]; [lia|].
    destruct (lookup_lt_is_Some_2 shapes (k + 1)) as [s_out ->]; [lia|]. eauto. }
  apply omap_total in Hall as [Hlen _]. rewrite Hlen. apply length_seq.
Qed.

(** The transposed convolutions built from a list of shapes form a
    chain: there is one layer per pair of consecutive shapes, the first
    layer starts from the first shape, every layer ends where the next one
    starts, the last layer ends at the last shape, and it alone has
    [last_activation], the others [relu]. *)
Theorem conv_layers_chain
    input_shape dimH dimZ dimY n_channel last_activation name
    (shapes : list (nat * nat * nat)) :
  prod_fits shapes ->
  let layers :=
    conv_layers (Generator_init input_shape dimH dimZ dimY n_channel last_activation name
                   (Some shapes)) in
  length layers = length shapes - 1 /\
  (forall first, head layers = Some first -> head shapes = Some (dc_input_shape first)) /\
  (forall i layer next, layers !! i = Some layer -> layers !! (i + 1) = Some next ->
     dc_output_shape layer = dc_input_shape next /\ dc_activation layer = "relu") /\
  (forall final, last layers = Some final ->
     last shapes = Some (dc_output_shape final) /\ dc_activation final = last_activation) /\
  (forall i layer, layers !! i = Some layer ->
     dc_filter_shape layer = ((dc_input_shape layer).2, (dc_output_shape layer).2, 5, 5)).
Proof.
  intros _ layers.
  pose proof (conv_layers_length input_shape dimH dimZ dimY n_channel last_activation name
                shapes) as Hlen. fold layers in Hlen.
  assert (forall i layer, layers !! i = Some layer ->
            i + 1 < length shapes /\
            shapes !! i = Some (dc_input_shape layer) /\
            shapes !! (i + 1) = Some (dc_output_shape layer) /\
            dc_filter_shape layer = ((dc_input_shape layer).2, (dc_output_shape layer).2, 5, 5) /\
            dc_activation layer = (if i + 2 =? length shapes then last_activation else "relu"))
    as Hat by (intros i layer; apply deconv_stack_lookup).
  split; [exact Hlen|]. split; [|split; [|split]].
  - intros first Hfirst. rewrite head_lookup in Hfirst.
    apply Hat in Hfirst as (_ & Hin & _). rewrite head_lookup. exact Hin.
  - intros i layer next Hl Hn.
    apply Hat in Hl as (_ & _ & Hout & _ & Hact).
    apply Hat in Hn as (Hi & Hin & _).
    split; [congruence|]. rewrite Hact.
    replace (i + 2 =? length shapes) with false; [reflexivity|].
    symmetry. apply Nat.eqb_neq. lia.
  - intros final Hfinal. rewrite last_lookup in Hfinal.
    apply Hat in Hfinal as (Hi & _ & Hout & _ & Hact).
    rewrite Hlen in Hout, Hact. rewrite last_lookup.
    replace (Init.Nat.pred (length shapes)) with (Init.Nat.pred (length shapes - 1) + 1) by lia.
    split; [exact Hout|]. rewrite Hact.
    replace (Init.Nat.pred (length shapes - 1) + 2 =? length shapes) with true; [reflexivity|].
    symmetry. apply Nat.eqb_eq. lia.
  - intros i layer Hl. apply Hat in Hl as (_ & _ & _ & Hf & _). exact Hf.
Qed.

Lemma conv_layers_chain_witness :
  let layers :=
    conv_layers (Generator_init (3, 32, 32) 4 3 2 8 "sigmoid" "gen"
                   (Some [(4, 4, 32); (8, 8, 16); (16, 16, 8); (32, 32, 3)])) in
  length layers = length [(4, 4, 32); (8, 8, 16); (16, 16, 8); (32, 32, 3)] - 1 /\
  (forall first, head layers = Some first ->
     head [(4, 4, 32); (8, 8, 16); (16, 16, 8); (32, 32, 3)] = Some (dc_input_shape first)) /\
  (forall i layer next, layers !! i = Some layer -> layers !! (i + 1) = Some next ->
     dc_output_shape layer = dc_input_shape next /\ dc_activation layer = "relu") /\
  (forall final, last layers = Some final ->
     last [(4, 4, 32); (8, 8, 16); (16, 16, 8); (32, 32, 3)] = Some (dc_output_shape final) /\
     dc_activation final = "sigmoid") /\
  (forall i layer, layers !! i = Some layer ->
     dc_filter_shape layer = ((dc_input_shape layer).2, (dc_output_shape layer).2, 5, 5)).
Proof.
  apply (conv_layers_chain (3, 32, 32) 4 3 2 8 "sigmoid" "gen"
           [(4, 4, 32); (8, 8, 16); (16, 16, 8); (32, 32, 3)]).
  eexists _, _. split; [reflexivity|]. vm_compute. reflexivity.
Defined.

Section DecoderFacts.
Context {F : Type}.
Variable forward : MLPLayer -> tensor F -> result (tensor F).
Variable deconv : DeconvLayer -> tensor4 F -> result (tensor4 F).
(** A fully connected layer maps [(N, d_in)] to [(N, d_out)]; a
    transposed convolution maps a batch of its input shape to a batch of
    its output shape. *)
Hypothesis forward_shape :
  forall (layer : MLPLayer) (t : tensor F) (N : nat),
    has_shape t N (d_in layer) ->
    exists t', forward layer t = Ok t' /\ has_shape t' N (d_out layer).
Hypothesis deconv_shape :
  forall (layer : DeconvLayer) (t : tensor4 F) (N : nat),
    has_shape4 t N (dc_input_shape layer).2 (dc_input_shape layer).1.1
               (dc_input_shape layer).1.2 ->
    exists t', deconv layer t = Ok t' /\
               has_shape4 t' N (dc_output_shape layer).2 (dc_output_shape layer).1.1
                          (dc_output_shape layer).1.2.

Lemma apply_deconv_chain (layers : list DeconvLayer) :
  forall (shapes : list (nat * nat * nat)) (t : tensor4 F) (N : nat),
  length shapes = S (length layers) ->
  (forall i layer, layers !! i = Some layer ->
     shapes !! i = Some (dc_input_shape layer) /\
     shapes !! (S i) = Some (dc_output_shape layer)) ->
  (forall s, shapes !! 0 = Some s -> has_shape4 t N s.2 s.1.1 s.1.2) ->
  exists (out : tensor4 F) (s : nat * nat * nat),
    apply_deconv deconv layers t = Ok out /\
    last shapes = Some s /\ has_shape4 out N s.2 s.1.1 s.1.2.
Proof.
  induction layers as [|layer layers IH]; intros shapes t N Hlen Hchain Ht.
  - destruct shapes as [|s [|? ?]]; try discriminate Hlen.
    exists t, s. split; [reflexivity|]. split; [reflexivity|]. apply Ht. reflexivity.
  - destruct shapes as [|s0 [|s1 shapes]]; [discriminate Hlen | |].
    { destruct (Hchain 0 layer eq_refl) as [_ Hout]. discriminate Hout. }
    destruct (Hchain 0 layer eq_refl) as [Hin Hout].
    injection Hin as ->. injection Hout as ->.
    destruct (deconv_shape layer t N (Ht _ eq_refl)) as (t' & Ht' & Hshape').
    destruct (IH (dc_output_shape layer :: shapes) t' N) as (out & s & Hrun & Hlast & Hshape).
    + simpl in *. lia.
    + intros i l Hl. apply (Hchain (S i) l Hl).
    + intros s Hs. injection Hs as <-. exact Hshape'.
    + exists out, s. cbn [apply_deconv]. rewrite Ht'. auto.
Qed.

Lemma pxz_mlp_shape input_shape dimH dimZ dimY n_channel last_activation name dis
    (z : tensor F) (N : nat) (h w c : nat) (rest : list (nat * nat * nat)) :
  match dis with
  | Some shapes => shapes
  | None => [(4, 4, n_channel * 4); (8, 8, n_channel * 2); (16, 16, n_channel);
             (input_shape.1.2, input_shape.2, input_shape.1.1)]
  end = (h, w, c) :: rest ->
  has_shape z N dimZ ->
  exists out : tensor F,
    apply_layers forward
      (mlp_layers_pxz (Generator_init input_shape dimH dimZ dimY n_channel
                         last_activation name dis)) z = Ok out /\
    has_shape out N (h * w * c).
Proof.
  intros Hshapes Hz.
  assert (mlp_layers_pxz (Generator_init input_shape dimH dimZ dimY n_channel
                            last_activation name dis) =
          [MkMLPLayer dimZ dimH "relu" (name +:+ "_pxz_mlp_l" +:+ "0");
           MkMLPLayer dimH (h * w * c) "relu" (name +:+ "_pxz_mlp_l" +:+ "1")]) as ->.
  { unfold Generator_init. cbn [mlp_layers_pxz]. rewrite Hshapes. reflexivity. }
  destruct (forward_shape (MkMLPLayer dimZ dimH "relu" (name +:+ "_pxz_mlp_l" +:+ "0")) z N Hz)
    as (t1 & H1 & Hs1).
  destruct (forward_shape (MkMLPLayer dimH (h * w * c) "relu" (name +:+ "_pxz_mlp_l" +:+ "1"))
              t1 N Hs1) as (t2 & H2 & Hs2).
  exists t2. cbn [apply_layers]. rewrite H1, H2. auto.
Qed.

Lemma torch_view4_Ok (t : tensor F) (N h w c : nat) :
  has_shape t N (h * w * c) ->
  exists t4, torch_view4 t (size0 t) c h w = Ok t4 /\ has_shape4 t4 N c h w.
Proof.
  intros (H0 & H1 & Hlen & Hrows). unfold torch_view4. rewrite H0, H1.
  replace (N * (h * w * c) =? N * c * h * w) with true by (symmetry; apply Nat.eqb_eq; lia).
  eexists. split; [reflexivity|]. split; [reflexivity|]. cbn [flat].
  rewrite <- Hlen. clear Hlen H0.
  induction Hrows as [|r rows Hr _ IH]; [reflexivity|].
  cbn [concat length]. rewrite length_app, IH, Hr. lia.
Qed.

(** The run of [pxz_params] on given decoder shapes. *)
Lemma pxz_params_runs
    input_shape dimH dimZ dimY n_channel last_activation name
    (shapes : list (nat * nat * nat)) (z : tensor F) (N : nat) :
  2 <= length shapes ->
  has_shape z N dimZ ->
  exists (out : tensor4 F) (s : nat * nat * nat),
    pxz_params forward deconv
      (Generator_init input_shape dimH dimZ dimY n_channel last_activation name
         (Some shapes)) z = Ok out /\
    last shapes = Some s /\ has_shape4 out N s.2 s.1.1 s.1.2.
Proof.
  intros Hlen Hz.
  destruct shapes as [|[[h w] c] rest]; [simpl in Hlen; lia|].
  set (shapes := (h, w, c) :: rest) in *.
  destruct (pxz_mlp_shape input_shape dimH dimZ dimY n_channel last_activation name
              (Some shapes) z N h w c rest) as (mlp & Hmlp & Hmshape);
    [reflexivity | exact Hz |].
  pose proof (conv_layers_length input_shape dimH dimZ dimY n_channel last_activation name
                shapes) as Hcl.
  assert (forall i layer,
            conv_layers (Generator_init input_shape dimH dimZ dimY n_channel last_activation
                           name (Some shapes)) !! i = Some layer ->
            i + 1 < length shapes /\
            shapes !! i = Some (dc_input_shape layer) /\
            shapes !! (i + 1) = Some (dc_output_shape layer)) as Hchain
    by (intros i layer Hl; apply deconv_stack_lookup in Hl as (H1 & H2 & H3 & _); auto).
  unfold pxz_params. rewrite Hmlp.
  destruct (conv_layers _) as [|first layers].
  { unfold shapes in *. simpl in *. lia. }
  destruct (Hchain 0 first eq_refl) as (_ & Hin & _).
  injection Hin as Hin. rewrite <- Hin. cbn [fst snd].
  destruct (torch_view4_Ok mlp N h w c Hmshape) as (t4 & Hview & Hv4).
  rewrite Hview.
  destruct (apply_deconv_chain (first :: layers) shapes t4 N) as (out & s & Hrun & Hlast & Hs).
  - unfold shapes in *. simpl in *. lia.
  - intros i layer Hl. apply Hchain in Hl as (_ & Hi & Ho).
    rewrite Nat.add_1_r in Ho. auto.
  - intros s Hs. injection Hs as <-. exact Hv4.
  - exists out, s. auto.
Qed.

(** [pxz_params] on a batch [z] of shape [(N, dimZ)], for a generator
    built with at least two decoder shapes, given or default, the product
    of the first of which fits NumPy's integers: the MLP output fits the
    first shape, and the result has the last shape, as
    [(N, channels, height, width)]; with the default shapes that is the
    shape of a batch of input images. *)
Theorem pxz_params_shape
    input_shape dimH dimZ dimY n_channel last_activation name
    (decoder_input_shape : option (list (nat * nat * nat))) (z : tensor F) (N : nat) :
  let shapes :=
    match decoder_input_shape with
    | Some shapes => shapes
    | None => [(4, 4, n_channel * 4); (8, 8, n_channel * 2); (16, 16, n_channel);
               (input_shape.1.2, input_shape.2, input_shape.1.1)]
    end in
  2 <= length shapes -> prod_fits shapes ->
  has_shape z N dimZ ->
  exists (out : tensor4 F) (s : nat * nat * nat),
    pxz_params forward deconv
      (Generator_init input_shape dimH dimZ dimY n_channel last_activation name
         decoder_input_shape) z = Ok out /\
    last shapes = Some s /\ has_shape4 out N s.2 s.1.1 s.1.2 /\
    (decoder_input_shape = None ->
     has_shape4 out N input_shape.1.1 input_shape.1.2 input_shape.2).
Proof.
  intros shapes Hlen _ Hz.
  destruct (pxz_params_runs input_shape dimH dimZ dimY n_channel last_activation name
              shapes z N Hlen Hz) as (out & s & Hrun & Hlast & Hs).
  exists out, s. destruct decoder_input_shape as [given|].
  - split; [exact Hrun|]. split; [exact Hlast|]. split; [exact Hs | discriminate].
  - split; [exact Hrun|]. split; [exact Hlast|]. split; [exact Hs|]. intros _.
    cbn in Hlast. injection Hlast as <-. exact Hs.
Qed.

(** A generator built from a single decoder shape has no transposed
    convolution, and [pxz_params] raises [IndexError] at
    [self.conv_layers[0]], after the MLP has run. *)
Theorem pxz_params_single_shape
    input_shape dimH dimZ dimY n_channel last_activation name
    (s : nat * nat * nat) (z : tensor F) (N : nat) :
  has_shape z N dimZ ->
  conv_layers (Generator_init input_shape dimH dimZ dimY n_channel last_activation name
                 (Some [s])) = [] /\
  pxz_params forward deconv
    (Generator_init input_shape dimH dimZ dimY n_channel last_activation name (Some [s])) z
  = Raise IndexError.
Proof.
  intros Hz. split; [reflexivity|]. destruct s as [[h w] c].
  destruct (pxz_mlp_shape input_shape dimH dimZ dimY n_channel last_activation name
              (Some [(h, w, c)]) z N h w c []) as (mlp & Hmlp & _);
    [reflexivity | exact Hz |].
  unfold pxz_params. rewrite Hmlp. reflexivity.
Qed.

End DecoderFacts.

Lemma zeros_deconv_shape (layer : DeconvLayer) (t : tensor4 Z) (N : nat) :
  has_shape4 t N (dc_input_shape layer).2 (dc_input_shape layer).1.1
             (dc_input_shape layer).1.2 ->
  exists t', zeros_deconv layer t = Ok t' /\
             has_shape4 t' N (dc_output_shape layer).2 (dc_output_shape layer).1.1
                        (dc_output_shape layer).1.2.
Proof.
  intros [Hd _]. unfold zeros_deconv. rewrite Hd.
  destruct (dc_input_shape layer) as [[h_in w_in] c_in].
  destruct (dc_output_shape layer) as [[h_out w_out] c_out]. cbn [fst snd].
  rewrite !Nat.eqb_refl. cbn [andb]. eexists. split; [reflexivity|].
  split; [reflexivity|]. cbn [flat]. apply length_replicate.
Qed.

Lemma pxz_params_shape_witness :
  exists (out : tensor4 Z) (s : nat * nat * nat),
    pxz_params ones_forward zeros_deconv
      (Generator_init (3, 32, 32) 4 3 2 2 "sigmoid" "gen" None)
      (Tensor 2 3 [[1; 0; 2]; [0; 1; 1]]%Z) = Ok out /\
    last [(4, 4, 2 * 4); (8, 8, 2 * 2); (16, 16, 2); (32, 32, 3)] = Some s /\
    has_shape4 out 2 s.2 s.1.1 s.1.2 /\
    ((None : option (list (nat * nat * nat))) = None -> has_shape4 out 2 3 32 32).
Proof.
  apply (pxz_params_shape ones_forward zeros_deconv ones_forward_shape zeros_deconv_shape
           (3, 32, 32) 4 3 2 2 "sigmoid" "gen" None
           (Tensor 2 3 [[1; 0; 2]; [0; 1; 1]]%Z) 2).
  - simpl. lia.
  - eexists _, _. split; [reflexivity|]. vm_compute. reflexivity.
  - repeat split; simpl; auto.
Defined.

Lemma pxz_params_single_shape_witness :
  conv_layers (Generator_init (3, 8, 8) 4 3 2 2 "sigmoid" "gen" (Some [(2, 2, 4)])) = [] /\
  pxz_params ones_forward zeros_deconv
    (Generator_init (3, 8, 8) 4 3 2 2 "sigmoid" "gen" (Some [(2, 2, 4)]))
    (Tensor 2 3 [[1; 0; 2]; [0; 1; 1]]%Z) = Raise IndexError.
Proof.
  apply (pxz_params_single_shape ones_forward zeros_deconv ones_forward_shape
           (3, 8, 8) 4 3 2 2 "sigmoid" "gen" (2, 2, 4)
           (Tensor 2 3 [[1; 0; 2]; [0; 1; 1]]%Z) 2).
  repeat split; simpl; auto.
Defined.

End GeneratorG.

(* ===================================================================== *)
(** ** attack_black_box.py: load_model, perform_attacks                   *)
(* ===================================================================== *)

Module BlackBox.
Import Py.

(** *** The world the script acts on *)

(** The file system, by path: a directory, or a file holding the JSON
    dump of an accuracies dictionary.  Paths are compared as written. *)
Inductive node : Type :=
| Dir
| JsonFile (content : gmap string (gmap string (list Q))).

(** What the script does to the outside, in order. *)
Inductive event : Type :=
| Warn (msg : string)
| LoadData (data_name : string)
| LoadModel (data_name vae_type filename : string)
| RunAttack (attack : string) (param : Q) (batch : nat)
| Print (param : Q) (vae_type attack : string) (accuracy : Q).

(** Events before any attack has run or any accuracy is reported. *)
Definition setup_event (ev : event) : bool :=
  match ev with
  | Warn _ | LoadData _ | LoadModel _ _ _ => true
  | RunAttack _ _ _ | Print _ _ _ _ => false
  end.

Record world : Type := World {
  fs : gmap string node;
  trace : list event
}.

(** Computations that act on the world and may raise. *)
Definition M (A : Type) : Type := world -> result A * world.

Definition ret {A : Type} (a : A) : M A := fun w => (Ok a, w).
Definition raise {A : Type} (e : exn) : M A := fun w => (Raise e, w).
Definition lift {A : Type} (r : result A) : M A := fun w => (r, w).
Definition bind {A B : Type} (c : M A) (k : A -> M B) : M B :=
  fun w => match c w with
           | (Ok a, w') => k a w'
           | (Raise e, w') => (Raise e, w')
           end.
Definition emit (e : event) : M unit :=
  fun w => (Ok tt, World (fs w) (trace w ++ [e])).

Declare Scope py_scope.
Delimit Scope py_scope with py.
Notation "'let*' x := c 'in' k" := (bind c (fun x => k))
  (at level 10, x name, c at level 100, k at level 200) : py_scope.
Notation "'let*' ' pat := c 'in' k" := (bind c (fun x => match x with pat => k end))
  (at level 10, pat pattern, c at level 100, k at level 200) : py_scope.
Notation "'do' c 'in' k" := (bind c (fun _ => k))
  (at level 10, c at level 100, k at level 200) : py_scope.
Local Open Scope py_scope.

(** [for a in l: b = f(b, a)] *)
Fixpoint foldM {A B : Type} (f : B -> A -> M B) (l : list A) (b : B) : M B :=
  match l with
  | [] => ret b
  | a :: l' => let* b' := f b a in foldM f l' b'
  end.

(** [os.path.exists], [os.makedirs(path, exist_ok=True)],
    [os.path.join] and [json.dump] into [open(path, "w")]. *)
Definition os_path_exists (path : string) : M bool :=
  fun w => (Ok (bool_decide (is_Some (fs w !! path))), w).

Definition os_makedirs (path : string) : M unit :=
  fun w => match fs w !! path with
           | Some Dir => (Ok tt, w)
           | Some (JsonFile _) => (Raise (FileExistsError path), w)
           | None =>
             if String.eqb path ""
             then (Raise (External "FileNotFoundError"), w)
             else (Ok tt, World (<[path := Dir]> (fs w)) (trace w))
           end.

Fixpoint ends_with_slash (s : string) : bool :=
  match s with
  | EmptyString => false
  | String c EmptyString => Ascii.eqb c "/"%char
  | String _ s' => ends_with_slash s'
  end.

Definition os_path_join (a b : string) : string :=
  match b with
  | String "/"%char _ => b
  | _ => if String.eqb a "" || ends_with_slash a then a +:+ b else a +:+ "/" +:+ b
  end.

Definition json_dump_to (path : string) (content : gmap string (gmap string (list Q))) : M unit :=
  fun w => match fs w !! path with
           | Some Dir => (Raise (External "IsADirectoryError"), w)
           | _ => (Ok tt, World (<[path := JsonFile content]> (fs w)) (trace w))
           end.

(** *** Python and torch helpers *)

Definition py_assert (b : bool) (msg : string) : M unit :=
  if b then ret tt else raise (AssertionError msg).

(** [l[i]] *)
Definition list_get {A : Type} (l : list A) (i : nat) : result A :=
  match l !! i with
  | Some a => Ok a
  | None => Raise IndexError
  end.

(** [correct / total] *)
Definition py_div (correct total : nat) : result Q :=
  match total with
  | 0 => Raise ZeroDivisionError
  | S _ => Ok (Z.of_nat correct # Pos.of_nat total)%Q
  end.

(** [accuracies[vae_type][attack].append(v)] *)
Definition dict_append (accuracies : gmap string (gmap string (list Q)))
    (vae_type attack : string) (v : Q) : result (gmap string (gmap string (list Q))) :=
  match accuracies !! vae_type with
  | None => Raise (KeyError vae_type)
  | Some d =>
    match d !! attack with
    | None => Raise (KeyError attack)
    | Some l => Ok (<[vae_type := <[attack := l ++ [v]]> d]> accuracies)
    end
  end.

(** The index of the first maximum of a row; a row without entries has
    none. *)
Fixpoint argmax_from (best : Q) (best_i i : nat) (row : list Q) : nat :=
  match row with
  | [] => best_i
  | q :: row' =>
    if Qltb best q then argmax_from q i (S i) row'
    else argmax_from best best_i (S i) row'
  end.
Definition argmax (row : list Q) : option nat :=
  match row with
  | [] => None
  | q :: row' => Some (argmax_from q 0 1 row')
  end.

(** [torch.argmax(y_pred, dim=1)] *)
Fixpoint torch_argmax_dim1 (y_pred : list (list Q)) : result (list nat) :=
  match y_pred with
  | [] => Ok []
  | row :: rest =>
    match argmax row, torch_argmax_dim1 rest with
    | Some k, Ok ks => Ok (k :: ks)
    | None, _ => Raise IndexError
    | _, Raise e => Raise e
    end
  end.

(** [a == b] on one-dimensional tensors, with broadcasting of a tensor of
    one element. *)
Definition tensor_eq (a b : list nat) : result (list bool) :=
  if length a =? length b then Ok (zip_with Nat.eqb a b)
  else match a, b with
       | [x], _ => Ok (map (Nat.eqb x) b)
       | _, [y] => Ok (map (fun x => Nat.eqb x y) a)
       | _, _ => Raise (RuntimeError "The size of tensor a must match the size of tensor b")
       end.

(** Consecutive pieces of [n] elements, the last one shorter. *)
Fixpoint chunks_fuel {A : Type} (fuel n : nat) (l : list A) : list (list A) :=
  match fuel, l with
  | 0, _ | _, [] => []
  | S fuel', _ :: _ => take n l :: chunks_fuel fuel' n (drop n l)
  end.
Definition chunks {A : Type} (n : nat) (l : list A) : list (list A) :=
  chunks_fuel (length l) n l.

(** *** load_model *)

Definition vae_types : list string := ["A"; "B"; "C"; "D"; "E"; "F"; "G"].
Definition attack_methods : list string := ["SimBA"; "Gaussian"; "Sticker"].
Definition datasets : list string := ["mnist"; "cifar10"; "gtsrb"].

(** What the first [if]/[elif] cascade of [load_model] settles: the
    modules [Generator] and [Encoder] are imported from, then
    [input_shape], [n_channel], [dimZ], [dimH] and [dimY]. *)
Record arch : Type := Arch {
  generator_module : string;
  encoder_module : string;
  input_shape : nat * nat * nat;
  n_channel : nat;
  dimZ : nat;
  dimH : nat;
  dimY : nat
}.

Definition load_model_arch (data_name vae_type : string) : result arch :=
  if String.eqb data_name "mnist" then
    match
      (if String.eqb vae_type "A" then Ok "models.conv_generator_mnist_A"
       else if String.eqb vae_type "B" then Ok "models.conv_generator_mnist_B"
       else if String.eqb vae_type "C" then Ok "models.conv_generator_mnist_C"
       else if String.eqb vae_type "D" then Ok "models.conv_generator_mnist_D"
       else if String.eqb vae_type "E" then Ok "models.conv_generator_mnist_E"
       else if String.eqb vae_type "F" then Ok "models.conv_generator_mnist_F"
       else if String.eqb vae_type "G" then Ok "models.conv_generator_mnist_G"
       else Raise (ValueError ("Unknown VAE type: " +:+ vae_type)))
    with
    | Raise e => Raise e
    | Ok generator => Ok (Arch generator "models.conv_encoder_mnist" (1, 28, 28) 64 64 500 10)
    end
  else if String.eqb data_name "cifar10" || String.eqb data_name "gtsrb" then
    match
      (if String.eqb vae_type "A" then Ok "models.conv_generator_cifar10_A"
       else if String.eqb vae_type "B" then Ok "models.conv_generator_cifar10_B"
       else if String.eqb vae_type "C" then Ok "models.conv_generator_cifar10_C"
       else if String.eqb vae_type "D" then Ok "models.conv_generator_cifar10_D"
       else if String.eqb vae_type "E" then Ok "models.conv_generator_cifar10_E"
       else if String.eqb vae_type "F" then Ok "models.conv_generator_cifar10_F"
       else if String.eqb vae_type "G" then Ok "models.conv_generator_cifar10_G"
       else Raise (ValueError ("Unknown VAE type: " +:+ vae_type)))
    with
    | Raise e => Raise e
    | Ok generator =>
      Ok (Arch generator "models.conv_encoder_cifar10" (3, 32, 32) 128 128 1000 10)
    end
  else Raise (ValueError ("Unknown dataset: " +:+ data_name)).

(** The [if]/[elif] cascade of [perform_attacks] on [vae_type]: the two
    methods of the generator that make [dec], and the lower bound. *)
Definition select_decoder (vae_type : string) : result (string * string * string) :=
  if String.eqb vae_type "A" then Ok ("pyz_params", "pxzy_params", "lowerbound_A")
  else if String.eqb vae_type "B" then Ok ("pzy_params", "pxzy_params", "lowerbound_B")
  else if String.eqb vae_type "C" then Ok ("pyzx_params", "pxz_params", "lowerbound_C")
  else if String.eqb vae_type "D" then Ok ("pyzx_params", "pzx_params", "lowerbound_D")
  else if String.eqb vae_type "E" then Ok ("pyz_params", "pzx_params", "lowerbound_E")
  else if String.eqb vae_type "F" then Ok ("pyz_params", "pxz_params", "lowerbound_F")
  else if String.eqb vae_type "G" then Ok ("pzy_params", "pxz_params", "lowerbound_G")
  else Raise (ValueError ("Unknown VAE type: " +:+ vae_type)).

(** *** Data loading *)

(** [torch.utils.data.Subset(dataset, indices)] and
    [DataLoader(dataset, batch_size, shuffle=False)]. *)
Record Subset (Img : Type) : Type := MkSubset {
  sub_dataset : list (Img * nat);
  sub_indices : list nat
}.
Arguments MkSubset {Img} sub_dataset sub_indices.
Arguments sub_dataset {Img} s.
Arguments sub_indices {Img} s.

Record DataLoader (Img : Type) : Type := MkDataLoader {
  dl_dataset : Subset Img;
  dl_batch_size : nat
}.
Arguments MkDataLoader {Img} dl_dataset dl_batch_size.
Arguments dl_dataset {Img} d.
Arguments dl_batch_size {Img} d.

Definition new_DataLoader {Img : Type} (dataset : Subset Img) (batch_size : Z)
  : result (DataLoader Img) :=
  if (batch_size <=? 0)%Z
  then Raise (ValueError "batch_size should be a positive integer value")
  else Ok (MkDataLoader dataset (Z.to_nat batch_size)).

(** The positions of the subset that make up each batch. *)
Definition batch_positions {Img : Type} (loader : DataLoader Img) : list (list nat) :=
  chunks (dl_batch_size loader) (seq 0 (length (sub_indices (dl_dataset loader)))).

(** [subset[pos]] *)
Definition subset_getitem {Img : Type} (s : Subset Img) (pos : nat) : result (Img * nat) :=
  match sub_indices s !! pos with
  | None => Raise IndexError
  | Some idx => list_get (sub_dataset s) idx
  end.

(** The samples of one batch, read when the loop reaches the batch. *)
Fixpoint fetch {Img : Type} (s : Subset Img) (positions : list nat)
  : result (list (Img * nat)) :=
  match positions with
  | [] => Ok []
  | pos :: positions' =>
    match subset_getitem s pos with
    | Raise e => Raise e
    | Ok x =>
      match fetch s positions' with
      | Raise e => Raise e
      | Ok xs => Ok (x :: xs)
      end
    end
  end.

(** The dictionary [{attack: [...] for attack in attack_methods}] with the
    three lists spelled out. *)
Definition attack_dict (simba_l gaussian_l sticker_l : list Q) : gmap string (list Q) :=
  <["SimBA" := simba_l]> (<["Gaussian" := gaussian_l]> (<["Sticker" := sticker_l]> ∅)).

(** *** perform_attacks *)

Section Driver.
Context {Img Net : Type}.

(** [utils.utils.load_data(data_name, path="./data", labels=None,
    conv=True)]: the test set, as (image, label) pairs. *)
Variable load_data : string -> result (list (Img * nat)).
(** What [load_model] does after its cascade: import the two modules,
    build [Generator(...)] and [Encoder(...)], [load_params] from
    [filename] at [checkpoint_index], move to [device]. *)
Variable instantiate : arch -> nat -> string -> Z -> option string -> result Net.
(** [alg.vae_new.construct_optimizer(X_ph, Y_ph, enc, dec, ll, K, vae_type)] *)
Variable construct_optimizer :
  nat * nat * nat -> nat -> Net -> string * string -> string -> nat -> string -> result unit.
(** [alg.vae_new.bayes_classifier(x, enc, dec, ll, dimY, lowerbound, K,
    beta)]: one row of class scores per image. *)
Variable bayes_classifier :
  list Img -> Net -> string * string -> string -> nat -> string -> nat -> Q -> list (list Q).
(** [attacks.black_box.sticker_attack(images, size)] and
    [gaussian_perturbation_attack(images, eps, mean, seed)]. *)
Variable sticker_attack : list Img -> Q -> list Img.
Variable gaussian_perturbation_attack : list Img -> Q -> Q -> Z -> list Img.
(** What the global name [simba] is bound to when [perform_attacks] runs:
    [simba(model, images, eps, max_queries, targeted, seed, clip_min,
    clip_max, pixel_attack)], or nothing. *)
Variable simba :
  option ((list Img -> list (list Q)) -> list Img -> Q -> nat -> bool -> Z -> Q -> Q -> bool
          -> list Img).

(** [load_model(data_name, vae_type, checkpoint_index, device)] *)
Definition load_model (data_name vae_type : string) (checkpoint_index : Z)
    (device : option string) : M Net :=
  let* a := lift (load_model_arch data_name vae_type) in
  let dimY := if String.eqb data_name "gtsrb" then 43 else dimY a in
  let path_name :=
    data_name +:+ "_conv_vae_" +:+ vae_type +:+ "_" +:+ pretty (dimZ a) +:+ "/" in
  let filename := "save/" +:+ path_name +:+ "checkpoint" in
  do emit (LoadModel data_name vae_type filename) in
  lift (instantiate a dimY filename checkpoint_index device).

(** The branch on [attack] inside the batch loop. *)
Definition run_attack (model : list Img -> list (list Q)) (attack : string) (epsilon : Q)
    (images : list Img) : M (list Img) :=
  if String.eqb attack "Sticker" then
    do emit (RunAttack attack epsilon (length images)) in
    ret (sticker_attack images epsilon)
  else if String.eqb attack "SimBA" then
    match simba with
    | None => raise (NameError "simba")
    | Some f =>
      do emit (RunAttack attack epsilon (length images)) in
      ret (f model images epsilon 2500 false 29%Z 0%Q 1%Q false)
    end
  else if String.eqb attack "Gaussian" then
    do emit (RunAttack attack epsilon (length images)) in
    ret (gaussian_perturbation_attack images epsilon 0%Q 29%Z)
  else raise (ValueError ("Unsupported attack: " +:+ attack)).

(** The body of [for images, labels in tqdm(test_loader, ...)], on the
    counters [(correct, total)]. *)
Definition batch_step (net : Net) (dec : string * string) (lowerbound : string) (dimY : nat)
    (attack : string) (epsilon : Q) (test_loader : DataLoader Img)
    (counters : nat * nat) (positions : list nat) : M (nat * nat) :=
  let ll := "l2" in
  let model := fun x => bayes_classifier x net dec ll dimY lowerbound 10 1%Q in
  let* samples := lift (fetch (dl_dataset test_loader) positions) in
  let images := map fst samples in
  let labels := map snd samples in
  let* adv_images := run_attack model attack epsilon images in
  let y_pred := bayes_classifier adv_images net dec ll dimY lowerbound 10 1%Q in
  let* predicted := lift (torch_argmax_dim1 y_pred) in
  let* hits := lift (tensor_eq predicted labels) in
  ret (counters.1 + count_true hits, counters.2 + length labels).

(** The body of [for attack in attack_methods], for parameter index [i]. *)
Definition attack_step (net : Net) (dec : string * string) (lowerbound : string) (dimY : nat)
    (vae_type : string) (sticker_sizes epsilons : list Q) (test_loader : DataLoader Img)
    (i : nat) (accuracies : gmap string (gmap string (list Q))) (attack : string)
  : M (gmap string (gmap string (list Q))) :=
  let* epsilon := lift (if String.eqb attack "Sticker"
                        then list_get sticker_sizes i
                        else list_get epsilons i) in
  let* counters := foldM (batch_step net dec lowerbound dimY attack epsilon test_loader)
                         (batch_positions test_loader) (0, 0) in
  let* accuracy := lift (py_div counters.1 counters.2) in
  let* accuracies := lift (dict_append accuracies vae_type attack accuracy) in
  do emit (Print epsilon vae_type attack accuracy) in
  ret accuracies.

(** The body of [for vae_type in vae_types]. *)
Definition variant_step (data_name : string) (sticker_sizes epsilons : list Q)
    (device : option string) (input_shape : nat * nat * nat) (dimY : nat)
    (test_loader : DataLoader Img)
    (accuracies : gmap string (gmap string (list Q))) (vae_type : string)
  : M (gmap string (gmap string (list Q))) :=
  let ll := "l2" in
  let K := 10 in
  let* net := load_model data_name vae_type 0 device in
  let* '(d1, d2, lowerbound) := lift (select_decoder vae_type) in
  let dec := (d1, d2) in
  do lift (construct_optimizer input_shape dimY net dec ll K vae_type) in
  let accuracies :=
    <[vae_type := list_to_map (map (fun attack => (attack, [])) attack_methods)]>
      accuracies in
  foldM (fun accuracies i =>
           foldM (attack_step net dec lowerbound dimY vae_type sticker_sizes epsilons
                    test_loader i)
                 attack_methods accuracies)
        (seq 0 (length sticker_sizes)) accuracies.

(** [perform_attacks(data_name, sticker_sizes, epsilons, batch_size,
    save_dir, device)] *)
Definition perform_attacks (data_name : string) (sticker_sizes epsilons : list Q)
    (batch_size : Z) (save_dir : string) (device : option string)
  : M (gmap string (gmap string (list Q))) :=
  do py_assert (length sticker_sizes =? length epsilons)
       "Length of sticker_sizes and epsilons must be the same." in
  let accuracies : gmap string (gmap string (list Q)) :=
    list_to_map (map (fun vae_type => (vae_type, ∅)) vae_types) in
  let* present := os_path_exists save_dir in
  do (if present
      then emit (Warn ("Results directory " +:+ save_dir +:+
                       " already exists and may be overwritten."))
      else ret tt) in
  do os_makedirs save_dir in
  let input_shape := if String.eqb data_name "mnist" then (1, 28, 28) else (3, 32, 32) in
  let dimY := if negb (String.eqb data_name "gtsrb") then 10 else 43 in
  do emit (LoadData data_name) in
  let* test_dataset := lift (load_data data_name) in
  let test_dataset := MkSubset test_dataset (seq 0 10) in
  let* test_loader := lift (new_DataLoader test_dataset batch_size) in
  let* accuracies :=
    foldM (variant_step data_name sticker_sizes epsilons device input_shape dimY test_loader)
          vae_types accuracies in
  do json_dump_to (os_path_join save_dir (data_name +:+ "_accuracy_vs_sticker_size.json"))
       accuracies in
  ret accuracies.

(** *** What a run that returns has computed *)

(** The images [run_attack] hands back, when it does. *)
Definition adversarial (model : list Img -> list (list Q)) (attack : string) (epsilon : Q)
    (images : list Img) : option (list Img) :=
  if String.eqb attack "Sticker" then Some (sticker_attack images epsilon)
  else if String.eqb attack "SimBA" then
    match simba with
    | Some f => Some (f model images epsilon 2500 false 29%Z 0%Q 1%Q false)
    | None => None
    end
  else if String.eqb attack "Gaussian" then
    Some (gaussian_perturbation_attack images epsilon 0%Q 29%Z)
  else None.

(** The class scores [bayes_classifier] gives the attacked images of a
    batch. *)
Definition adversarial_scores (net : Net) (dec : string * string) (lowerbound : string)
    (dimY : nat) (attack : string) (epsilon : Q) (samples : list (Img * nat))
  : option (list (list Q)) :=
  let model := fun x => bayes_classifier x net dec "l2" dimY lowerbound 10 1%Q in
  match adversarial model attack epsilon (map fst samples) with
  | Some adv_images => Some (bayes_classifier adv_images net dec "l2" dimY lowerbound 10 1%Q)
  | None => None
  end.

(** [(torch.argmax(y_pred, dim=1) == labels).sum().item()] *)
Definition batch_hits (y_pred : list (list Q)) (labels : list nat) : option nat :=
  match torch_argmax_dim1 y_pred with
  | Ok predicted =>
    match tensor_eq predicted labels with
    | Ok hits => Some (count_true hits)
    | Raise _ => None
    end
  | Raise _ => None
  end.

(** The hits of one batch, as [batch_step] counts them. *)
Definition hits_of (net : Net) (dec : string * string) (lowerbound : string) (dimY : nat)
    (attack : string) (epsilon : Q) (b : list (Img * nat)) : option nat :=
  match adversarial_scores net dec lowerbound dimY attack epsilon b with
  | Some y_pred => batch_hits y_pred (map snd b)
  | None => None
  end.

(** A sample is correctly classified: the argmax of its scores is its
    label. *)
Definition is_correct (row : list Q) (label : nat) : bool :=
  match argmax row with
  | Some k => k =? label
  | None => false
  end.

(** The parameter of [attack] at index [i]. *)
Definition attack_param (sticker_sizes epsilons : list Q) (attack : string) (i : nat)
  : option Q :=
  if String.eqb attack "Sticker" then sticker_sizes !! i else epsilons !! i.

(** The accuracy of one (variant, attack, index): over the batches of the
    first ten test samples, the hits over the number of samples. *)
Definition expected_accuracy (net : Net) (dec : string * string) (lowerbound : string)
    (dimY : nat) (test_set : list (Img * nat)) (batch_size : nat)
    (sticker_sizes epsilons : list Q) (attack : string) (i : nat) : option Q :=
  match attack_param sticker_sizes epsilons attack i with
  | None => None
  | Some epsilon =>
    if length test_set <? 10 then None
    else
      match mapM (hits_of net dec lowerbound dimY attack epsilon)
                 (chunks batch_size (take 10 test_set)) with
      | Some hits => Some (Z.of_nat (sum_list hits) # 10)%Q
      | None => None
      end
  end.

(** The network, decoder and lower bound of a variant. *)
Definition variant_model (data_name vae_type : string) (device : option string)
  : option (Net * (string * string) * string) :=
  match load_model_arch data_name vae_type, select_decoder vae_type with
  | Ok a, Ok (d1, d2, lowerbound) =>
    match instantiate a (if String.eqb data_name "gtsrb" then 43 else dimY a)
            ("save/" +:+ (data_name +:+ "_conv_vae_" +:+ vae_type +:+ "_" +:+
                          pretty (dimZ a) +:+ "/") +:+ "checkpoint")
            0%Z device with
    | Ok net => Some (net, (d1, d2), lowerbound)
    | Raise _ => None
    end
  | _, _ => None
  end.

Definition expected_list (data_name : string) (device : option string)
    (test_set : list (Img * nat)) (batch_size : nat) (sticker_sizes epsilons : list Q)
    (vae_type attack : string) : list Q :=
  match variant_model data_name vae_type device with
  | Some (net, dec, lowerbound) =>
    omap (expected_accuracy net dec lowerbound
            (if negb (String.eqb data_name "gtsrb") then 10 else 43)
            test_set batch_size sticker_sizes epsilons attack)
         (seq 0 (length sticker_sizes))
  | None => []
  end.

Definition expected_accuracies (data_name : string) (device : option string)
    (test_set : list (Img * nat)) (batch_size : nat) (sticker_sizes epsilons : list Q)
  : gmap string (gmap string (list Q)) :=
  list_to_map
    (map (fun vae_type =>
            (vae_type,
             list_to_map
               (map (fun attack =>
                       (attack, expected_list data_name device test_set batch_size
                                  sticker_sizes epsilons vae_type attack))
                    attack_methods)))
         vae_types).

End Driver.

(** *** Checkpoints and effects *)

(** The checkpoint file that [load_model] reads for a data set and a
    variant: [f"save/{data_name}_conv_vae_{vae_type}_{dimZ}/checkpoint"]. *)
Definition checkpoint_filename (data_name vae_type : string) (a : arch) : string :=
  "save/" +:+ (data_name +:+ "_conv_vae_" +:+ vae_type +:+ "_" +:+ pretty (dimZ a) +:+ "/")
  +:+ "checkpoint".

(** The checkpoint of a supported (data set, variant) pair, and the check
    that two pairs with the same checkpoint are the same pair. *)
Definition checkpoint_of (pair : string * string) : string :=
  match load_model_arch pair.1 pair.2 with
  | Ok a => checkpoint_filename pair.1 pair.2 a
  | Raise _ => ""
  end.
Definition same_checkpoint_same_pair (p q : string * string) : bool :=
  implb (String.eqb (checkpoint_of p) (checkpoint_of q))
        (String.eqb p.1 q.1 && String.eqb p.2 q.2).

(** [k] is the position of the first maximum of [row]. *)
Definition first_max (row : list Q) (k : nat) : Prop :=
  exists m : Q,
    row !! k = Some m /\
    (forall j v, row !! j = Some v -> (v <= m)%Q) /\
    (forall j v, j < k -> row !! j = Some v -> (v < m)%Q).

(** A [load_data] that hands back the first ten samples only. *)
Definition first_ten_only {Img : Type} (load_data : string -> result (list (Img * nat)))
    (data_name : string) : result (list (Img * nat)) :=
  match load_data data_name with
  | Ok test_dataset => Ok (take 10 test_dataset)
  | Raise e => Raise e
  end.

(** The events of the loop over the variants. *)
Definition loop_event (ev : event) : Prop :=
  match ev with
  | LoadModel _ _ _ | RunAttack _ _ _ | Print _ _ _ _ => True
  | Warn _ | LoadData _ => False
  end.

(** A computation that leaves the file system as it is and logs only
    events in [P], whether it returns or raises. *)
Definition logs_only {A : Type} (P : event -> Prop) (c : M A) : Prop :=
  forall w r w', c w = (r, w') ->
    fs w' = fs w /\ exists events, trace w' = trace w ++ events /\ Forall P events.

(** *** A small framework to run the driver on

    Images are single intensities, a network is the name of its generator
    module, and the class of an image is its intensity modulo 3. *)

Definition demo_test_set : list (nat * nat) := map (fun i => (i, i mod 3)) (seq 0 12).

Definition demo_load_data (data_name : string) : result (list (nat * nat)) :=
  Ok demo_test_set.

Definition demo_instantiate (a : arch) (dimY : nat) (filename : string) (checkpoint : Z)
    (device : option string) : result string :=
  Ok (generator_module a).

Definition demo_construct_optimizer (shape : nat * nat * nat) (dimY : nat) (net : string)
    (dec : string * string) (ll : string) (K : nat) (vae_type : string) : result unit :=
  Ok tt.

Definition demo_bayes_classifier (x : list nat) (net : string) (dec : string * string)
    (ll : string) (dimY : nat) (lowerbound : string) (K : nat) (beta : Q) : list (list Q) :=
  map (fun img => map (fun c => if img mod 3 =? c then 1%Q else 0%Q) (seq 0 dimY)) x.

Definition demo_sticker_attack (images : list nat) (size : Q) : list nat :=
  map (fun img => if Qle_bool size 0 then img else S img) images.

Definition demo_gaussian_perturbation_attack (images : list nat) (eps mean : Q) (seed : Z)
  : list nat := images.

Definition demo_simba (model : list nat -> list (list Q)) (images : list nat) (eps : Q)
    (max_queries : nat) (targeted : bool) (seed : Z) (clip_min clip_max : Q)
    (pixel_attack : bool) : list nat :=
  map (fun img => img + 2) images.

(** The driver over this framework, with the global [simba] bound to
    [binding]. *)
Definition demo_perform_attacks
    (binding : option ((list nat -> list (list Q)) -> list nat -> Q -> nat -> bool -> Z ->
                       Q -> Q -> bool -> list nat)) :=
  perform_attacks demo_load_data demo_instantiate demo_construct_optimizer
    demo_bayes_classifier demo_sticker_attack demo_gaussian_perturbation_attack binding.

Definition demo_world : world := World ∅ [].

(** The same, with the results directory already there. *)
Definition demo_world_existing : world := World {["./results/" := Dir]} [].

(** The loader of [perform_attacks] over the framework's test set, with
    batches of four. *)
Definition demo_loader : DataLoader nat :=
  MkDataLoader (MkSubset demo_test_set (seq 0 10)) 4.

(** The dictionary of variant "G" before its first accuracy. *)
Definition demo_accuracies : gmap string (gmap string (list Q)) :=
  {[ "G" := attack_dict [] [] [] ]}.

(** The batch loop and the turn of the loop over the attacks, for the
    sticker attack of size 0, with the global [simba] not bound. *)
Definition demo_batch_loop : M (nat * nat) :=
  foldM (batch_step demo_bayes_classifier demo_sticker_attack
           demo_gaussian_perturbation_attack None "generator" ("pzy_params", "pxz_params")
           "lowerbound_G" 10 "Sticker" 0%Q demo_loader)
        (batch_positions demo_loader) (0, 0).

Definition demo_attack_step : M (gmap string (gmap string (list Q))) :=
  attack_step demo_bayes_classifier demo_sticker_attack demo_gaussian_perturbation_attack
    None "generator" ("pzy_params", "pxz_params") "lowerbound_G" 10 "G"
    [0]%Q [1 # 100]%Q demo_loader 0 demo_accuracies "Sticker".

(** The run returned. *)
Definition is_ok {A : Type} (r : result A * world) : bool :=
  match r with
  | (Ok _, _) => true
  | (Raise _, _) => false
  end.

(** *** Facts about the monad *)

Lemma bind_Ok {A B : Type} (c : M A) (k : A -> M B) (w w' : world) (b : B) :
  bind c k w = (Ok b, w') ->
  exists a w1, c w = (Ok a, w1) /\ k a w1 = (Ok b, w').
Proof.
  unfold bind. destruct (c w) as [[a|e] w1]; intros H; [|discriminate].
  exists a, w1. auto.
Qed.

Lemma lift_Ok {A : Type} (r : result A) (w w' : world) (a : A) :
  lift r w = (Ok a, w') -> r = Ok a /\ w' = w.
Proof. unfold lift. intros H. injection H as -> ->. auto. Qed.

Lemma ret_Ok {A : Type} (a a' : A) (w w' : world) :
  ret a w = (Ok a', w') -> a' = a /\ w' = w.
Proof. unfold ret. intros H. injection H as -> ->. auto. Qed.

Lemma emit_Ok (e : event) (w w' : world) (u : unit) :
  emit e w = (Ok u, w') -> fs w' = fs w /\ trace w' = trace w ++ [e].
Proof. unfold emit. intros H. injection H as _ <-. auto. Qed.

(** Invert a successful run, one statement at a time. *)
Ltac inv_run H :=
  let a := fresh "a" in
  let w1 := fresh "w" in
  let H1 := fresh "Hrun" in
  apply bind_Ok in H as (a & w1 & H1 & H).

Tactic Notation "inv_bind" hyp(H) "as" ident(a) :=
  let w1 := fresh "w" in
  let H1 := fresh "Hrun" in
  apply bind_Ok in H as (a & w1 & H1 & H).

Tactic Notation "inv_bind" hyp(H) "as" ident(a) ident(w1) ident(H1) :=
  apply bind_Ok in H as (a & w1 & H1 & H).

Ltac inv_lift H :=
  let E := fresh "E" in
  apply lift_Ok in H as [E ->].

(** *** load_model: the error branches *)

Lemma eqb_false_of_ne (a b : string) : a <> b -> String.eqb a b = false.
Proof. intros H. apply String.eqb_neq. exact H. Qed.

Lemma not_in_vae_types (vae_type : string) :
  vae_type ∉ vae_types ->
  String.eqb vae_type "A" = false /\ String.eqb vae_type "B" = false /\
  String.eqb vae_type "C" = false /\ String.eqb vae_type "D" = false /\
  String.eqb vae_type "E" = false /\ String.eqb vae_type "F" = false /\
  String.eqb vae_type "G" = false.
Proof.
  intros H. unfold vae_types in H.
  repeat split; apply eqb_false_of_ne; intros ->; apply H; set_solver.
Qed.

Lemma not_in_datasets (data_name : string) :
  data_name ∉ datasets ->
  String.eqb data_name "mnist" = false /\ String.eqb data_name "cifar10" = false /\
  String.eqb data_name "gtsrb" = false.
Proof.
  intros H. unfold datasets in H.
  repeat split; apply eqb_false_of_ne; intros ->; apply H; set_solver.
Qed.

Lemma load_model_arch_unknown_type (data_name vae_type : string) :
  data_name ∈ datasets -> vae_type ∉ vae_types ->
  load_model_arch data_name vae_type = Raise (ValueError ("Unknown VAE type: " +:+ vae_type)).
Proof.
  intros Hd Hv. apply not_in_vae_types in Hv as (HA & HB & HC & HD & HE & HF & HG).
  unfold load_model_arch. rewrite HA, HB, HC, HD, HE, HF, HG.
  unfold datasets in Hd. repeat (apply elem_of_cons in Hd as [-> | Hd]); try reflexivity.
  inversion Hd.
Qed.

Lemma load_model_arch_unknown_dataset (data_name vae_type : string) :
  data_name ∉ datasets ->
  load_model_arch data_name vae_type = Raise (ValueError ("Unknown dataset: " +:+ data_name)).
Proof.
  intros Hd. apply not_in_datasets in Hd as (H1 & H2 & H3).
  unfold load_model_arch. rewrite H1, H2, H3. reflexivity.
Qed.

Lemma load_model_arch_known (data_name vae_type : string) :
  data_name ∈ datasets -> vae_type ∈ vae_types ->
  exists a : arch,
    load_model_arch data_name vae_type = Ok a /\
    generator_module a =
      "models.conv_generator_" +:+
      (if String.eqb data_name "mnist" then "mnist" else "cifar10") +:+ "_" +:+ vae_type /\
    dimZ a = (if String.eqb data_name "mnist" then 64 else 128).
Proof.
  intros Hd Hv. unfold datasets in Hd. unfold vae_types in Hv.
  repeat (apply elem_of_cons in Hd as [-> | Hd]);
    repeat (apply elem_of_cons in Hv as [-> | Hv]);
    try (eexists; split; [reflexivity | split; reflexivity]);
    try (inversion Hv); inversion Hd.
Qed.

Lemma select_decoder_known (vae_type : string) :
  vae_type ∈ vae_types -> exists dec, select_decoder vae_type = Ok dec.
Proof.
  intros Hv. unfold vae_types in Hv.
  repeat (apply elem_of_cons in Hv as [-> | Hv]); try (eexists; reflexivity).
  inversion Hv.
Qed.

(** *** Batches *)

Lemma chunks_fuel_enough {A : Type} (n : nat) :
  0 < n -> forall (fuel : nat) (l : list A),
  length l <= fuel -> chunks_fuel fuel n l = chunks n l.
Proof.
  intros Hn. unfold chunks.
  assert (forall f1 f2 (l : list A), length l <= f1 -> length l <= f2 ->
            chunks_fuel f1 n l = chunks_fuel f2 n l) as H.
  { induction f1 as [|f1 IH]; intros f2 l H1 H2.
    - destruct l; [|simpl in H1; lia]. destruct f2; reflexivity.
    - destruct l as [|a l]; [destruct f2; reflexivity|].
      destruct f2 as [|f2]; [simpl in H2; lia|].
      cbn [chunks_fuel]. f_equal. apply IH; rewrite length_drop; simpl in *; lia. }
  intros fuel l Hl. apply H; lia.
Qed.

Lemma chunks_cons {A : Type} (n : nat) (a : A) (l : list A) :
  0 < n -> chunks n (a :: l) = take n (a :: l) :: chunks n (drop n (a :: l)).
Proof.
  intros Hn. unfold chunks at 1. cbn [length chunks_fuel]. f_equal.
  apply chunks_fuel_enough; [assumption|]. rewrite length_drop. simpl. lia.
Qed.

Lemma chunks_nil {A : Type} (n : nat) : chunks n (@nil A) = [].
Proof. reflexivity. Qed.

(** Induction along the batches of a list. *)
Lemma chunks_ind {A : Type} (n : nat) (P : list A -> Prop) :
  0 < n -> P [] ->
  (forall a l, P (drop n (a :: l)) -> P (a :: l)) ->
  forall l, P l.
Proof.
  intros Hn Hnil Hcons l.
  remember (length l) as k eqn:Hk. revert l Hk.
  induction k as [k IH] using lt_wf_ind. intros l Hk.
  destruct l as [|a l]; [exact Hnil|].
  apply Hcons. eapply IH; [|reflexivity].
  rewrite length_drop. simpl in *. lia.
Qed.

Lemma concat_chunks {A : Type} (n : nat) (l : list A) :
  0 < n -> concat (chunks n l) = l.
Proof.
  intros Hn. revert l.
  apply (chunks_ind n (fun l => concat (chunks n l) = l) Hn); [reflexivity|].
  intros a l IH.
  rewrite chunks_cons by assumption. cbn [concat]. rewrite IH. apply take_drop.
Qed.

Lemma chunks_Forall2 {A B : Type} (R : A -> B -> Prop) (n : nat) (l : list A) :
  0 < n -> forall l', Forall2 R l l' ->
  Forall2 (Forall2 R) (chunks n l) (chunks n l').
Proof.
  intros Hn. revert l.
  apply (chunks_ind n (fun l => forall l', Forall2 R l l' ->
                                 Forall2 (Forall2 R) (chunks n l) (chunks n l')) Hn).
  - intros l' HR. inversion HR; subst. constructor.
  - intros a l IH l' HR. destruct l' as [|b l']; [inversion HR|].
    rewrite !chunks_cons by assumption. constructor.
    + apply Forall2_take. exact HR.
    + apply IH. apply Forall2_drop. exact HR.
Qed.

Lemma Forall2_concat {A B : Type} (R : A -> B -> Prop) (ls : list (list A))
    (ks : list (list B)) :
  Forall2 (Forall2 R) ls ks -> Forall2 R (concat ls) (concat ks).
Proof.
  induction 1 as [|l k ls ks H _ IH]; simpl; [constructor|].
  apply Forall2_app; assumption.
Qed.

Lemma Forall2_functional {A B : Type} (R : A -> B -> Prop) :
  (forall a b b', R a b -> R a b' -> b = b') ->
  forall l k k', Forall2 R l k -> Forall2 R l k' -> k = k'.
Proof.
  intros Hf l k k' H. revert k'. induction H as [|a b l k HR _ IH]; intros k' H'.
  - inversion H'. reflexivity.
  - inversion H' as [|a' b' l' k'' HR' Hrest]; subst.
    f_equal; [eapply Hf; eassumption | apply IH; assumption].
Qed.

Lemma Forall2_lookup_take {A : Type} (ds xs : list A) (n : nat) :
  Forall2 (fun p x => ds !! p = Some x) (seq 0 n) xs ->
  xs = take n ds /\ n <= length ds.
Proof.
  intros H.
  assert (length xs = n) as Hlen.
  { apply Forall2_length in H. rewrite length_seq in H. lia. }
  assert (forall i, i < n -> ds !! i = xs !! i) as Hlk.
  { intros i Hi.
    destruct (Forall2_lookup_l _ _ _ i i H) as (x & Hx & HR).
    - apply lookup_seq. lia.
    - rewrite Hx. exact HR. }
  assert (n <= length ds) as Hn.
  { destruct n as [|n]; [lia|].
    assert (is_Some (ds !! n)) as Hs.
    { rewrite Hlk by lia. apply lookup_lt_is_Some. lia. }
    apply lookup_lt_is_Some in Hs. lia. }
  split; [|exact Hn].
  apply list_eq. intros i. destruct (decide (i < n)) as [Hi|Hi].
  - rewrite lookup_take_lt by lia. symmetry. apply Hlk, Hi.
  - rewrite lookup_take_ge by lia. apply lookup_ge_None. lia.
Qed.

Lemma Forall2_lookup_seq {A : Type} (ds : list A) (n : nat) :
  n <= length ds ->
  Forall2 (fun p x => ds !! p = Some x) (seq 0 n) (take n ds).
Proof.
  intros Hn. apply Forall2_same_length_lookup. split.
  - rewrite length_seq, length_take. lia.
  - intros i p x Hp Hx. apply lookup_seq in Hp. destruct Hp as [Hidx Hi].
    simpl in Hidx. subst p.
    rewrite lookup_take_lt in Hx by lia. exact Hx.
Qed.

Lemma fetch_Ok {Img : Type} (s : Subset Img) (positions : list nat) (b : list (Img * nat)) :
  fetch s positions = Ok b ->
  Forall2 (fun p x => subset_getitem s p = Ok x) positions b.
Proof.
  revert b. induction positions as [|p ps IH]; intros b; simpl.
  - intros H. injection H as <-. constructor.
  - destruct (subset_getitem s p) as [x|] eqn:Hx; [|discriminate].
    destruct (fetch s ps) as [xs|]; [|discriminate].
    intros H. injection H as <-. constructor; [exact Hx | apply IH; reflexivity].
Qed.

Lemma fetch_of_Forall2 {Img : Type} (s : Subset Img) (positions : list nat)
    (b : list (Img * nat)) :
  Forall2 (fun p x => subset_getitem s p = Ok x) positions b ->
  fetch s positions = Ok b.
Proof.
  induction 1 as [|p x ps xs Hx _ IH]; simpl; [reflexivity|].
  rewrite Hx, IH. reflexivity.
Qed.

Lemma subset_getitem_first {Img : Type} (ds : list (Img * nat)) (n p : nat) (x : Img * nat) :
  subset_getitem (MkSubset ds (seq 0 n)) p = Ok x <-> p < n /\ ds !! p = Some x.
Proof.
  unfold subset_getitem, list_get. cbn [sub_indices sub_dataset]. split.
  - destruct (seq 0 n !! p) as [idx|] eqn:Hp; [|discriminate].
    apply lookup_seq in Hp. destruct Hp as [Hidx Hp]. simpl in Hidx. subst idx.
    destruct (ds !! p) as [y|]; [|discriminate].
    intros H. injection H as <-. auto.
  - intros [Hp Hx].
    assert (seq 0 n !! p = Some p) as -> by (apply lookup_seq; lia).
    cbn. rewrite Hx. reflexivity.
Qed.

(** The batches a loader over the first [n] samples yields: when every
    batch can be read, the data set has [n] samples and the batches are
    the consecutive pieces of its first [n]. *)
Lemma fetch_first_batches {Img : Type} (ds : list (Img * nat)) (n size : nat)
    (batches : list (list (Img * nat))) :
  0 < size ->
  Forall2 (fun pos b => fetch (MkSubset ds (seq 0 n)) pos = Ok b)
          (chunks size (seq 0 n)) batches ->
  n <= length ds /\ batches = chunks size (take n ds).
Proof.
  intros Hsize H.
  assert (Forall2 (Forall2 (fun p x => ds !! p = Some x)) (chunks size (seq 0 n)) batches)
    as H2.
  { eapply Forall2_impl; [exact H|]. intros pos b Hb. apply fetch_Ok in Hb.
    eapply Forall2_impl; [exact Hb|]. intros p x Hx.
    apply subset_getitem_first in Hx. apply Hx. }
  assert (Forall2 (fun p x => ds !! p = Some x) (seq 0 n) (concat batches)) as H3.
  { rewrite <- (concat_chunks size (seq 0 n)) by assumption.
    apply Forall2_concat. exact H2. }
  apply Forall2_lookup_take in H3 as [Hc Hn]. split; [exact Hn|].
  eapply (Forall2_functional (Forall2 (fun p x => ds !! p = Some x))); [|exact H2|].
  - apply Forall2_functional. congruence.
  - apply chunks_Forall2; [assumption|]. apply Forall2_lookup_seq, Hn.
Qed.

(** *** The accuracies dictionary *)

Lemma attack_dict_lookup (ls lg lk : list Q) :
  attack_dict ls lg lk !! "SimBA" = Some ls /\
  attack_dict ls lg lk !! "Gaussian" = Some lg /\
  attack_dict ls lg lk !! "Sticker" = Some lk.
Proof. unfold attack_dict. repeat split; rewrite !lookup_insert; reflexivity. Qed.

Lemma attack_dict_insert_simba (ls lg lk l : list Q) :
  <["SimBA" := l]> (attack_dict ls lg lk) = attack_dict l lg lk.
Proof. apply insert_insert_eq. Qed.

Lemma attack_dict_insert_gaussian (ls lg lk l : list Q) :
  <["Gaussian" := l]> (attack_dict ls lg lk) = attack_dict ls l lk.
Proof.
  apply map_eq. intros k. unfold attack_dict. rewrite !lookup_insert.
  repeat case_decide; congruence.
Qed.

Lemma attack_dict_insert_sticker (ls lg lk l : list Q) :
  <["Sticker" := l]> (attack_dict ls lg lk) = attack_dict ls lg l.
Proof.
  apply map_eq. intros k. unfold attack_dict. rewrite !lookup_insert.
  repeat case_decide; congruence.
Qed.

Lemma lookup_foldl_insert {V : Type} (f : string -> V) (ks : list string) :
  forall (m : gmap string V) (k : string),
  foldl (fun m k => <[k := f k]> m) m ks !! k =
  if decide (k ∈ ks) then Some (f k) else m !! k.
Proof.
  induction ks as [|k0 ks IH]; intros m k; cbn [foldl].
  - case_decide as H; [inversion H | reflexivity].
  - rewrite IH. destruct (decide (k ∈ ks)) as [Hin|Hnin].
    + rewrite decide_True by (apply elem_of_cons; auto). reflexivity.
    + rewrite lookup_insert. destruct (decide (k0 = k)) as [->|Hne].
      * rewrite decide_True by (apply elem_of_cons; auto). reflexivity.
      * rewrite decide_False; [reflexivity|].
        rewrite elem_of_cons. intros [->|H]; [apply Hne; reflexivity | exact (Hnin H)].
Qed.

Lemma lookup_list_to_map_keys {V : Type} (f : string -> V) (ks : list string) (k : string) :
  (list_to_map (map (fun k => (k, f k)) ks) : gmap string V) !! k =
  if decide (k ∈ ks) then Some (f k) else None.
Proof.
  induction ks as [|k0 ks IH]; cbn [map list_to_map foldr].
  - rewrite lookup_empty. case_decide as H; [inversion H | reflexivity].
  - cbn. rewrite lookup_insert, IH. destruct (decide (k0 = k)) as [->|Hne].
    + rewrite decide_True by (apply elem_of_cons; auto). reflexivity.
    + destruct (decide (k ∈ ks)) as [Hin|Hnin].
      * rewrite decide_True by (apply elem_of_cons; auto). reflexivity.
      * rewrite decide_False; [reflexivity|].
        rewrite elem_of_cons. intros [->|H]; [apply Hne; reflexivity | exact (Hnin H)].
Qed.

Lemma Forall2_omap {A B : Type} (f : A -> option B) (l : list A) (k : list B) :
  Forall2 (fun a b => f a = Some b) l k -> omap f l = k /\ length k = length l.
Proof.
  induction 1 as [|a b l k H _ [IH1 IH2]]; [auto|].
  cbn. rewrite H. cbn. rewrite IH1, IH2. auto.
Qed.

(** *** Hits and correctly classified samples *)

Lemma torch_argmax_dim1_Ok (y_pred : list (list Q)) (predicted : list nat) :
  torch_argmax_dim1 y_pred = Ok predicted ->
  Forall2 (fun row k => argmax row = Some k) y_pred predicted.
Proof.
  revert predicted. induction y_pred as [|row rest IH]; intros predicted; simpl.
  - intros H. injection H as <-. constructor.
  - destruct (argmax row) as [k|] eqn:Hk; [|discriminate].
    destruct (torch_argmax_dim1 rest) as [ks|]; [|discriminate].
    intros H. injection H as <-. constructor; [exact Hk | apply IH; reflexivity].
Qed.

Lemma count_true_app (a b : list bool) :
  count_true (a ++ b) = count_true a + count_true b.
Proof. induction a as [|x a IH]; simpl; [reflexivity | rewrite IH; lia]. Qed.

Lemma count_true_zip_le {A B : Type} (f : A -> B -> bool) (l : list A) (k : list B) :
  count_true (zip_with f l k) <= length k.
Proof.
  etransitivity; [apply count_true_le_length|].
  rewrite length_zip_with. lia.
Qed.

Lemma Qltb_lt (a b : Q) : Qltb a b = true <-> (a < b)%Q.
Proof.
  unfold Qltb. rewrite negb_true_iff. split.
  - intros H. apply Qnot_le_lt. intros Hle. apply Qle_bool_iff in Hle. congruence.
  - intros H. destruct (Qle_bool b a) eqn:E; [|reflexivity].
    apply Qle_bool_iff in E. exfalso. apply (Qlt_not_le _ _ H E).
Qed.

Lemma Qltb_ge (a b : Q) : Qltb a b = false <-> (b <= a)%Q.
Proof.
  unfold Qltb. rewrite negb_false_iff. apply Qle_bool_iff.
Qed.

(** [argmax_from] keeps the best position so far unless a later entry is
    strictly greater. *)
Lemma argmax_from_spec (row : list Q) :
  forall (best : Q) (best_i i : nat),
  (argmax_from best best_i i row = best_i /\
   forall j v, row !! j = Some v -> (v <= best)%Q) \/
  (exists (j : nat) (m : Q),
     argmax_from best best_i i row = i + j /\ row !! j = Some m /\ (best < m)%Q /\
     (forall j' v, row !! j' = Some v -> (v <= m)%Q) /\
     (forall j' v, j' < j -> row !! j' = Some v -> (v < m)%Q)).
Proof.
  induction row as [|q row IH]; intros best best_i i; cbn [argmax_from].
  - left. split; [reflexivity|]. intros j v H. rewrite lookup_nil in H. discriminate.
  - destruct (Qltb best q) eqn:E.
    + apply Qltb_lt in E. right.
      destruct (IH q i (S i)) as [[Hk Hall] | (j & m & Hk & Hj & Hlt & Hall & Hbefore)].
      * exists 0, q. rewrite Hk. split; [lia|]. split; [reflexivity|]. split; [exact E|].
        split.
        -- intros [|j'] v Hv; cbn in Hv;
             [injection Hv as <-; apply Qle_refl | eapply Hall; exact Hv].
        -- intros j' v Hj'. lia.
      * exists (S j), m. rewrite Hk. split; [lia|]. split; [exact Hj|].
        split; [eapply Qlt_trans; eassumption|]. split.
        -- intros [|j'] v Hv; cbn in Hv;
             [injection Hv as <-; apply Qlt_le_weak, Hlt | eapply Hall; exact Hv].
        -- intros [|j'] v Hlt' Hv; cbn in Hv;
             [injection Hv as <-; exact Hlt | eapply Hbefore; [|exact Hv]; lia].
    + apply Qltb_ge in E.
      destruct (IH best best_i (S i))
        as [[Hk Hall] | (j & m & Hk & Hj & Hlt & Hall & Hbefore)].
      * left. split; [exact Hk|].
        intros [|j'] v Hv; cbn in Hv; [injection Hv as <-; exact E | eapply Hall; exact Hv].
      * right. exists (S j), m. rewrite Hk. split; [lia|]. split; [exact Hj|].
        split; [exact Hlt|]. split.
        -- intros [|j'] v Hv; cbn in Hv;
             [injection Hv as <-; apply Qlt_le_weak; eapply Qle_lt_trans; eassumption
             |eapply Hall; exact Hv].
        -- intros [|j'] v Hlt' Hv; cbn in Hv;
             [injection Hv as <-; eapply Qle_lt_trans; eassumption
             |eapply Hbefore; [|exact Hv]; lia].
Qed.

Lemma argmax_first_max (row : list Q) (k : nat) :
  argmax row = Some k -> first_max row k.
Proof.
  destruct row as [|q row]; [discriminate|]. cbn [argmax]. intros H. injection H as <-.
  destruct (argmax_from_spec row q 0 1)
    as [[-> Hall] | (j & m & -> & Hj & Hlt & Hall & Hbefore)].
  - exists q. split; [reflexivity|]. split.
    + intros [|j] v Hv; cbn in Hv;
        [injection Hv as <-; apply Qle_refl | eapply Hall; exact Hv].
    + intros j v Hj. lia.
  - exists m. split; [exact Hj|]. split.
    + intros [|j'] v Hv; cbn in Hv;
        [injection Hv as <-; apply Qlt_le_weak, Hlt | eapply Hall; exact Hv].
    + intros [|j'] v Hlt' Hv; cbn in Hv;
        [injection Hv as <-; exact Hlt | eapply Hbefore; [|exact Hv]; lia].
Qed.

Lemma first_max_unique (row : list Q) (k k' : nat) :
  first_max row k -> first_max row k' -> k = k'.
Proof.
  intros (m & Hk & Hmax & Hbefore) (m' & Hk' & Hmax' & Hbefore').
  destruct (Nat.lt_trichotomy k k') as [Hlt | [Heq | Hgt]]; [exfalso|exact Heq|exfalso].
  - apply (Qlt_not_le m m'); [eapply Hbefore'; eassumption | eapply Hmax; eassumption].
  - apply (Qlt_not_le m' m); [eapply Hbefore; eassumption | eapply Hmax'; eassumption].
Qed.

(** A sample is correct exactly when its label is the position of the
    first maximum of its scores. *)
Lemma is_correct_first_max (row : list Q) (label : nat) :
  is_correct row label = true <-> first_max row label.
Proof.
  unfold is_correct. split.
  - destruct (argmax row) as [k|] eqn:Hk; [|discriminate].
    intros H. apply Nat.eqb_eq in H. subst k. apply argmax_first_max, Hk.
  - intros Hmax. destruct (argmax row) as [k|] eqn:Hk.
    + apply Nat.eqb_eq. apply (first_max_unique row); [apply argmax_first_max, Hk | exact Hmax].
    + destruct row as [|q row]; [|discriminate Hk].
      destruct Hmax as (m & Hm & _). rewrite lookup_nil in Hm. discriminate.
Qed.

(** With one row of scores per label, the hits of a batch are its
    correctly classified samples. *)
Lemma batch_hits_correct (y_pred : list (list Q)) (labels : list nat) (k : nat) :
  length y_pred = length labels ->
  batch_hits y_pred labels = Some k ->
  k = count_true (zip_with is_correct y_pred labels).
Proof.
  intros Hlen. unfold batch_hits.
  destruct (torch_argmax_dim1 y_pred) as [predicted|] eqn:Hp; [|discriminate].
  apply torch_argmax_dim1_Ok in Hp.
  pose proof (Forall2_length _ _ _ Hp) as Hlp.
  unfold tensor_eq. replace (length predicted =? length labels) with true
    by (symmetry; apply Nat.eqb_eq; lia).
  intros H. injection H as <-. clear Hlen Hlp. revert labels.
  induction Hp as [|row p rows ps Hrow _ IH]; intros labels; [reflexivity|].
  destruct labels as [|label labels]; [reflexivity|].
  cbn [zip_with count_true]. f_equal; [|apply IH].
  unfold is_correct. rewrite Hrow. reflexivity.
Qed.

Lemma accuracy_in_unit_interval (c n : nat) :
  0 < n -> c <= n ->
  (0 <= Z.of_nat c # Pos.of_nat n)%Q /\ (Z.of_nat c # Pos.of_nat n <= 1)%Q.
Proof.
  intros Hn Hc. unfold Qle; simpl. split; [lia|].
  rewrite Z.mul_1_r.
  assert (Z.pos (Pos.of_nat n) = Z.of_nat n) as ->.
  { destruct n; [lia|]. rewrite <- Pos.of_nat_succ. lia. }
  lia.
Qed.

Lemma omap_full_length {A B : Type} (f : A -> option B) (l : list A) :
  length (omap f l) = length l -> Forall2 (fun a b => f a = Some b) l (omap f l).
Proof.
  assert (forall l : list A, length (omap f l) <= length l) as Hle.
  { induction l0 as [|a l0 IH]; [reflexivity|]. cbn. destruct (f a); simpl; lia. }
  induction l as [|a l IH]; intros H; [constructor|].
  cbn in *. destruct (f a) as [b|] eqn:Hfa; simpl in *.
  - constructor; [exact Hfa | apply IH; lia].
  - specialize (Hle l). lia.
Qed.

Section DriverFacts.
Context {Img Net : Type}.
Variable load_data : string -> result (list (Img * nat)).
Variable instantiate : arch -> nat -> string -> Z -> option string -> result Net.
Variable construct_optimizer :
  nat * nat * nat -> nat -> Net -> string * string -> string -> nat -> string -> result unit.
Variable bayes_classifier :
  list Img -> Net -> string * string -> string -> nat -> string -> nat -> Q -> list (list Q).
Variable sticker_attack : list Img -> Q -> list Img.
Variable gaussian_perturbation_attack : list Img -> Q -> Q -> Z -> list Img.
Variable simba :
  option ((list Img -> list (list Q)) -> list Img -> Q -> nat -> bool -> Z -> Q -> Q -> bool
          -> list Img).

Abbreviation run_load_model := (load_model instantiate).
Abbreviation run_perform_attacks :=
  (perform_attacks load_data instantiate construct_optimizer bayes_classifier
     sticker_attack gaussian_perturbation_attack simba).

(** C7: [load_model] raises [ValueError] naming the unknown VAE type for
    a [vae_type] outside "A".."G" on a supported dataset, and [ValueError]
    for a [data_name] outside mnist, cifar10, gtsrb, in both cases before
    it touches anything.  On the seven variants and a supported dataset
    neither error branch is taken: [load_model] goes on to build the model
    from the variant's generator module, and the cascade of
    [perform_attacks] on [vae_type] finds a decoder as well. *)
Theorem load_model_value_errors
    (data_name vae_type : string) (checkpoint_index : Z) (device : option string) (w : world) :
  (data_name ∈ datasets -> vae_type ∉ vae_types ->
   load_model instantiate data_name vae_type checkpoint_index device w =
   (Raise (ValueError ("Unknown VAE type: " +:+ vae_type)), w)) /\
  (data_name ∉ datasets ->
   load_model instantiate data_name vae_type checkpoint_index device w =
   (Raise (ValueError ("Unknown dataset: " +:+ data_name)), w)) /\
  (data_name ∈ datasets -> vae_type ∈ vae_types ->
   exists (a : arch) (filename : string) (dec : string * string * string),
     load_model_arch data_name vae_type = Ok a /\
     select_decoder vae_type = Ok dec /\
     filename = "save/" +:+ (data_name +:+ "_conv_vae_" +:+ vae_type +:+ "_" +:+
                             pretty (dimZ a) +:+ "/") +:+ "checkpoint" /\
     load_model instantiate data_name vae_type checkpoint_index device w =
     (instantiate a (if String.eqb data_name "gtsrb" then 43 else dimY a)
        filename checkpoint_index device,
      World (fs w) (trace w ++ [LoadModel data_name vae_type filename]))).
Proof.
  split; [|split].
  - intros Hd Hv. unfold load_model, bind, lift.
    rewrite load_model_arch_unknown_type by assumption. reflexivity.
  - intros Hd. unfold load_model, bind, lift.
    rewrite load_model_arch_unknown_dataset by assumption. reflexivity.
  - intros Hd Hv.
    destruct (load_model_arch_known data_name vae_type Hd Hv) as (a & Ha & _).
    destruct (select_decoder_known vae_type Hv) as (dec & Hdec).
    exists a. eexists. exists dec. split; [exact Ha|]. split; [exact Hdec|].
    split; [reflexivity|].
    unfold load_model, bind, lift, emit. rewrite Ha. cbn.
    destruct (instantiate _ _ _ _ _); reflexivity.
Qed.

(** C9: with lists of different lengths, [perform_attacks] raises
    [AssertionError] and the world is as it was: no warning, no directory,
    no data or model loaded, no attack run, no file written. *)
Theorem perform_attacks_length_mismatch
    (data_name : string) (sticker_sizes epsilons : list Q) (batch_size : Z)
    (save_dir : string) (device : option string) (w : world) :
  length sticker_sizes <> length epsilons ->
  perform_attacks load_data instantiate construct_optimizer bayes_classifier
      sticker_attack gaussian_perturbation_attack simba
      data_name sticker_sizes epsilons batch_size save_dir device w =
  (Raise (AssertionError "Length of sticker_sizes and epsilons must be the same."), w).
Proof.
  intros Hlen. unfold perform_attacks, bind, py_assert.
  apply Nat.eqb_neq in Hlen. rewrite Hlen. reflexivity.
Qed.

(** *** One attack on the test loader *)

Abbreviation run_run_attack :=
  (run_attack sticker_attack gaussian_perturbation_attack simba).
Abbreviation run_batch_step :=
  (batch_step bayes_classifier sticker_attack gaussian_perturbation_attack simba).
Abbreviation run_attack_step :=
  (attack_step bayes_classifier sticker_attack gaussian_perturbation_attack simba).
Abbreviation run_variant_step :=
  (variant_step instantiate construct_optimizer bayes_classifier
     sticker_attack gaussian_perturbation_attack simba).
Abbreviation spec_adversarial :=
  (adversarial sticker_attack gaussian_perturbation_attack simba).
Abbreviation spec_scores :=
  (adversarial_scores bayes_classifier sticker_attack gaussian_perturbation_attack simba).
Abbreviation spec_hits :=
  (hits_of bayes_classifier sticker_attack gaussian_perturbation_attack simba).
Abbreviation spec_accuracy :=
  (expected_accuracy bayes_classifier sticker_attack gaussian_perturbation_attack simba).
Abbreviation spec_list :=
  (expected_list instantiate bayes_classifier sticker_attack
     gaussian_perturbation_attack simba).
Abbreviation spec_accuracies :=
  (expected_accuracies instantiate bayes_classifier sticker_attack
     gaussian_perturbation_attack simba).

Lemma run_attack_Ok model attack epsilon images w adv w' :
  run_run_attack model attack epsilon images w = (Ok adv, w') ->
  spec_adversarial model attack epsilon images = Some adv /\ fs w' = fs w.
Proof.
  unfold run_attack, adversarial.
  destruct (String.eqb attack "Sticker"); [|destruct (String.eqb attack "SimBA");
    [destruct simba | destruct (String.eqb attack "Gaussian")]];
    unfold bind, emit, ret, raise; cbn; intros H; try discriminate;
    injection H as <- <-; auto.
Qed.

Lemma batch_step_Ok net dec lowerbound dimY attack epsilon loader counters positions w
    counters' w' :
  run_batch_step net dec lowerbound dimY attack epsilon loader counters positions w
    = (Ok counters', w') ->
  exists (samples : list (Img * nat)) (k : nat),
    fetch (dl_dataset loader) positions = Ok samples /\
    spec_hits net dec lowerbound dimY attack epsilon samples = Some k /\
    counters' = (counters.1 + k, counters.2 + length samples) /\
    fs w' = fs w.
Proof.
  unfold batch_step. intros H.
  inv_run H. inv_lift Hrun. rename a into samples.
  inv_run H. apply run_attack_Ok in Hrun as [Hadv Hfs]. rename a into adv.
  inv_run H. inv_lift Hrun. rename a into predicted.
  inv_run H. inv_lift Hrun. rename a into hits.
  apply ret_Ok in H as [-> ->].
  exists samples, (count_true hits). split; [exact E|].
  split; [|split; [rewrite length_map; reflexivity | exact Hfs]].
  unfold hits_of, adversarial_scores, batch_hits. rewrite Hadv, E0, E1. reflexivity.
Qed.

Lemma batch_loop_Ok net dec lowerbound dimY attack epsilon loader :
  forall positions counters w counters' w',
  foldM (run_batch_step net dec lowerbound dimY attack epsilon loader) positions counters w
    = (Ok counters', w') ->
  exists (batches : list (list (Img * nat))) (ks : list nat),
    Forall2 (fun pos b => fetch (dl_dataset loader) pos = Ok b) positions batches /\
    Forall2 (fun b k => spec_hits net dec lowerbound dimY attack epsilon b = Some k)
            batches ks /\
    counters' = (counters.1 + sum_list ks, counters.2 + length (concat batches)) /\
    fs w' = fs w.
Proof.
  induction positions as [|pos positions IH]; intros counters w counters' w' H.
  - apply ret_Ok in H as [-> ->]. exists [], []. simpl.
    repeat split; try constructor. destruct counters; simpl; f_equal; lia.
  - cbn [foldM] in H. inv_run H.
    apply batch_step_Ok in Hrun as (samples & k & Hf & Hk & -> & Hfs).
    apply IH in H as (batches & ks & Hb & Hks & -> & Hfs').
    exists (samples :: batches), (k :: ks).
    split; [constructor; assumption|]. split; [constructor; assumption|].
    split; [|congruence].
    cbn [fst snd concat sum_list sum_list_with id]. rewrite length_app.
    unfold id. f_equal; lia.
Qed.

Lemma attack_step_Ok net dec lowerbound dimY vae_type sticker_sizes epsilons
    (ds : list (Img * nat)) (size : nat) i accuracies attack w accuracies' w' :
  0 < size ->
  run_attack_step net dec lowerbound dimY vae_type sticker_sizes epsilons
    (MkDataLoader (MkSubset ds (seq 0 10)) size) i accuracies attack w
    = (Ok accuracies', w') ->
  exists (v : Q) (d : gmap string (list Q)) (l : list Q),
    spec_accuracy net dec lowerbound dimY ds size sticker_sizes epsilons attack i = Some v /\
    accuracies !! vae_type = Some d /\ d !! attack = Some l /\
    accuracies' = <[vae_type := <[attack := l ++ [v]]> d]> accuracies /\
    fs w' = fs w.
Proof.
  intros Hsize H. unfold attack_step in H.
  inv_run H. inv_lift Hrun. rename a into epsilon.
  inv_run H. rename a into counters.
  apply batch_loop_Ok in Hrun as (batches & ks & Hb & Hks & -> & Hfs).
  unfold batch_positions in Hb. cbn [dl_dataset dl_batch_size sub_indices] in Hb.
  rewrite length_seq in Hb.
  apply fetch_first_batches in Hb as [Hlen ->]; [|assumption].
  rewrite concat_chunks in H by assumption.
  rewrite length_take, Nat.min_l in H by assumption.
  cbn [fst snd Nat.add py_div] in H.
  inv_run H. inv_lift Hrun. injection E0 as <-.
  inv_run H. inv_lift Hrun. rename a into acc2.
  inv_run H. apply emit_Ok in Hrun as [Hfs' _].
  apply ret_Ok in H as [-> ->].
  unfold dict_append in E0.
  destruct (accuracies !! vae_type) as [d|] eqn:Hd; [|discriminate].
  destruct (d !! attack) as [l|] eqn:Hl; [|discriminate].
  injection E0 as <-.
  eexists _, d, l. split; [|split; [reflexivity|split; [exact Hl|split; [reflexivity|congruence]]]].
  unfold expected_accuracy, attack_param.
  assert ((if String.eqb attack "Sticker" then sticker_sizes !! i else epsilons !! i)
          = Some epsilon) as ->.
  { unfold list_get in E. destruct (String.eqb attack "Sticker");
      [destruct (sticker_sizes !! i) | destruct (epsilons !! i)]; congruence. }
  replace (length ds <? 10) with false by (symmetry; apply Nat.ltb_ge; lia).
  apply mapM_Some in Hks. rewrite Hks. reflexivity.
Qed.

(** *** The sweep over the parameters for one variant *)

Lemma attacks_Ok net dec lowerbound dimY vae_type sticker_sizes epsilons
    (ds : list (Img * nat)) (size : nat) i accuracies ls lg lk w accuracies' w' :
  0 < size ->
  accuracies !! vae_type = Some (attack_dict ls lg lk) ->
  foldM (run_attack_step net dec lowerbound dimY vae_type sticker_sizes epsilons
           (MkDataLoader (MkSubset ds (seq 0 10)) size) i)
        attack_methods accuracies w = (Ok accuracies', w') ->
  exists v1 v2 v3 : Q,
    spec_accuracy net dec lowerbound dimY ds size sticker_sizes epsilons "SimBA" i = Some v1 /\
    spec_accuracy net dec lowerbound dimY ds size sticker_sizes epsilons "Gaussian" i = Some v2 /\
    spec_accuracy net dec lowerbound dimY ds size sticker_sizes epsilons "Sticker" i = Some v3 /\
    accuracies' =
      <[vae_type := attack_dict (ls ++ [v1]) (lg ++ [v2]) (lk ++ [v3])]> accuracies /\
    fs w' = fs w.
Proof.
  intros Hsize Hacc H. unfold attack_methods in H. cbn [foldM] in H.
  destruct (attack_dict_lookup ls lg lk) as (Hs & Hg & Hk).
  inv_run H. apply attack_step_Ok in Hrun as (v1 & d & l & Hv1 & Hd & Hl & -> & Hfs1);
    [|assumption].
  rewrite Hacc in Hd. injection Hd as <-. rewrite Hs in Hl. injection Hl as <-.
  rewrite attack_dict_insert_simba in H.
  destruct (attack_dict_lookup (ls ++ [v1]) lg lk) as (_ & Hg' & _).
  inv_run H. apply attack_step_Ok in Hrun as (v2 & d & l & Hv2 & Hd & Hl & -> & Hfs2);
    [|assumption].
  rewrite lookup_insert_eq in Hd. injection Hd as <-. rewrite Hg' in Hl. injection Hl as <-.
  rewrite attack_dict_insert_gaussian, insert_insert_eq in H.
  destruct (attack_dict_lookup (ls ++ [v1]) (lg ++ [v2]) lk) as (_ & _ & Hk').
  inv_run H. apply attack_step_Ok in Hrun as (v3 & d & l & Hv3 & Hd & Hl & -> & Hfs3);
    [|assumption].
  rewrite lookup_insert_eq in Hd. injection Hd as <-. rewrite Hk' in Hl. injection Hl as <-.
  rewrite attack_dict_insert_sticker, insert_insert_eq in H.
  apply ret_Ok in H as [-> ->].
  exists v1, v2, v3. repeat split; try assumption. congruence.
Qed.

Lemma sweep_Ok net dec lowerbound dimY vae_type sticker_sizes epsilons
    (ds : list (Img * nat)) (size : nat) :
  0 < size ->
  forall (indices : list nat) accuracies ls lg lk w accuracies' w',
  accuracies !! vae_type = Some (attack_dict ls lg lk) ->
  foldM (fun accuracies i =>
           foldM (run_attack_step net dec lowerbound dimY vae_type sticker_sizes epsilons
                    (MkDataLoader (MkSubset ds (seq 0 10)) size) i)
                 attack_methods accuracies)
        indices accuracies w = (Ok accuracies', w') ->
  exists vs vg vk : list Q,
    Forall2 (fun i v => spec_accuracy net dec lowerbound dimY ds size sticker_sizes epsilons
                          "SimBA" i = Some v) indices vs /\
    Forall2 (fun i v => spec_accuracy net dec lowerbound dimY ds size sticker_sizes epsilons
                          "Gaussian" i = Some v) indices vg /\
    Forall2 (fun i v => spec_accuracy net dec lowerbound dimY ds size sticker_sizes epsilons
                          "Sticker" i = Some v) indices vk /\
    accuracies' = <[vae_type := attack_dict (ls ++ vs) (lg ++ vg) (lk ++ vk)]> accuracies /\
    fs w' = fs w.
Proof.
  intros Hsize. induction indices as [|i indices IH];
    intros accuracies ls lg lk w accuracies' w' Hacc H.
  - apply ret_Ok in H as [-> ->]. exists [], [], [].
    rewrite !app_nil_r. repeat split; try constructor.
    symmetry. apply insert_id. exact Hacc.
  - cbn [foldM] in H. inv_run H.
    eapply attacks_Ok in Hrun; [|assumption|exact Hacc].
    destruct Hrun as (v1 & v2 & v3 & H1 & H2 & H3 & -> & Hfs).
    eapply IH in H; [|apply lookup_insert_eq].
    destruct H as (vs & vg & vk & Hs & Hg & Hk & -> & Hfs').
    exists (v1 :: vs), (v2 :: vg), (v3 :: vk).
    repeat split; try (constructor; assumption); [|congruence].
    rewrite insert_insert_eq, <- !app_assoc. reflexivity.
Qed.

(** The dictionary of one variant, from the expected lists. *)
Lemma variant_step_Ok data_name sticker_sizes epsilons device shape
    (ds : list (Img * nat)) (size : nat) accuracies vae_type w accuracies' w' :
  0 < size ->
  run_variant_step data_name sticker_sizes epsilons device shape
    (if negb (String.eqb data_name "gtsrb") then 10 else 43)
    (MkDataLoader (MkSubset ds (seq 0 10)) size) accuracies vae_type w
    = (Ok accuracies', w') ->
  accuracies' =
    <[vae_type :=
        list_to_map
          (map (fun attack =>
                  (attack, spec_list data_name device ds size sticker_sizes epsilons
                             vae_type attack))
               attack_methods)]> accuracies /\
  (forall attack, attack ∈ attack_methods ->
     length (spec_list data_name device ds size sticker_sizes epsilons vae_type attack)
     = length sticker_sizes) /\
  fs w' = fs w.
Proof.
  intros Hsize H. unfold variant_step in H.
  inv_bind H as net. unfold load_model in Hrun.
  inv_bind Hrun as arc. inv_lift Hrun0.
  inv_bind Hrun as u. apply emit_Ok in Hrun0 as [Hfs0 _]. inv_lift Hrun.
  inv_bind H as triple. inv_lift Hrun. destruct triple as [[d1 d2] lowerbound].
  inv_bind H as u'. inv_lift Hrun.
  apply sweep_Ok with (ls := []) (lg := []) (lk := []) in H;
    [|assumption|apply lookup_insert_eq].
  destruct H as (vs & vg & vk & Hs & Hg & Hk & -> & Hfs).
  apply Forall2_omap in Hs as [Hs Hls], Hg as [Hg Hlg], Hk as [Hk Hlk].
  rewrite length_seq in Hls, Hlg, Hlk.
  assert (forall attack,
            spec_list data_name device ds size sticker_sizes epsilons vae_type attack =
            omap (spec_accuracy net (d1, d2) lowerbound
                    (if negb (String.eqb data_name "gtsrb") then 10 else 43)
                    ds size sticker_sizes epsilons attack)
                 (seq 0 (length sticker_sizes))) as Hspec.
  { intros attack. unfold expected_list, variant_model. rewrite E, E1, E0. reflexivity. }
  split; [|split; [|congruence]].
  - rewrite insert_insert_eq. f_equal.
    unfold attack_methods. cbn [map list_to_map foldr].
    rewrite !Hspec, Hs, Hg, Hk. reflexivity.
  - intros attack Hin. rewrite Hspec. unfold attack_methods in Hin.
    repeat (apply elem_of_cons in Hin as [-> | Hin]); [congruence..|inversion Hin].
Qed.

(** *** The whole run *)

Lemma variants_Ok data_name sticker_sizes epsilons device shape
    (ds : list (Img * nat)) (size : nat) :
  0 < size ->
  forall (variants : list string) accuracies w accuracies' w',
  foldM (run_variant_step data_name sticker_sizes epsilons device shape
           (if negb (String.eqb data_name "gtsrb") then 10 else 43)
           (MkDataLoader (MkSubset ds (seq 0 10)) size))
        variants accuracies w = (Ok accuracies', w') ->
  accuracies' =
    foldl (fun m vae_type =>
             <[vae_type :=
                 list_to_map
                   (map (fun attack =>
                           (attack, spec_list data_name device ds size sticker_sizes
                                      epsilons vae_type attack))
                        attack_methods)]> m)
          accuracies variants /\
  (forall vae_type attack, vae_type ∈ variants -> attack ∈ attack_methods ->
     length (spec_list data_name device ds size sticker_sizes epsilons vae_type attack)
     = length sticker_sizes) /\
  fs w' = fs w.
Proof.
  intros Hsize. induction variants as [|vae_type variants IH];
    intros accuracies w accuracies' w' H.
  - apply ret_Ok in H as [-> ->]. repeat split. intros ? ? Hin. inversion Hin.
  - cbn [foldM] in H. inv_bind H as acc1.
    apply variant_step_Ok in Hrun as (-> & Hlen & Hfs); [|assumption].
    apply IH in H as (-> & Hlen' & Hfs').
    split; [reflexivity|]. split; [|congruence].
    intros vt attack Hin Ha. apply elem_of_cons in Hin as [-> | Hin]; auto.
Qed.

Lemma py_assert_Ok (b : bool) (msg : string) (w w' : world) (u : unit) :
  py_assert b msg w = (Ok u, w') -> b = true /\ w' = w.
Proof.
  unfold py_assert. destruct b; [|discriminate].
  intros H. apply ret_Ok in H as [_ ->]. auto.
Qed.

Lemma os_makedirs_Ok (path : string) (w w' : world) (u : unit) :
  os_makedirs path w = (Ok u, w') ->
  fs w' = <[path := Dir]> (fs w) /\ trace w' = trace w.
Proof.
  unfold os_makedirs. destruct (fs w !! path) as [[|c]|] eqn:Hp.
  - intros H. injection H as _ <-. split; [|reflexivity].
    symmetry. apply insert_id. exact Hp.
  - discriminate.
  - destruct (String.eqb path ""); [discriminate|].
    intros H. injection H as _ <-. auto.
Qed.

Lemma json_dump_to_Ok (path : string) (content : gmap string (gmap string (list Q)))
    (w w' : world) (u : unit) :
  json_dump_to path content w = (Ok u, w') ->
  fs w' = <[path := JsonFile content]> (fs w) /\ trace w' = trace w.
Proof.
  unfold json_dump_to. destruct (fs w !! path) as [[|c]|]; try discriminate;
    intros H; injection H as _ <-; auto.
Qed.

(** A run of [perform_attacks] that returns has returned the expected
    accuracies, one per (variant, attack, index), and has written them to
    the JSON file in [save_dir]. *)
Lemma perform_attacks_Ok data_name sticker_sizes epsilons batch_size save_dir device
    w accuracies w' :
  run_perform_attacks data_name sticker_sizes epsilons batch_size save_dir device w
    = (Ok accuracies, w') ->
  length sticker_sizes = length epsilons /\ (0 < batch_size)%Z /\
  exists ds : list (Img * nat),
    load_data data_name = Ok ds /\
    accuracies = spec_accuracies data_name device ds (Z.to_nat batch_size)
                   sticker_sizes epsilons /\
    (forall vae_type attack, vae_type ∈ vae_types -> attack ∈ attack_methods ->
       length (spec_list data_name device ds (Z.to_nat batch_size) sticker_sizes epsilons
                 vae_type attack) = length sticker_sizes) /\
    fs w' = <[os_path_join save_dir (data_name +:+ "_accuracy_vs_sticker_size.json")
              := JsonFile accuracies]> (<[save_dir := Dir]> (fs w)).
Proof.
  intros H. unfold perform_attacks in H.
  inv_bind H as u0 w0 H0. apply py_assert_Ok in H0 as [Hlen ->].
  apply Nat.eqb_eq in Hlen.
  inv_bind H as present w1 H1. unfold os_path_exists in H1. injection H1 as _ <-.
  inv_bind H as u2 w2 H2.
  assert (fs w2 = fs w) as Hfs2.
  { destruct present; [apply emit_Ok in H2 as [? _] | apply ret_Ok in H2 as [_ ->]];
      congruence. }
  inv_bind H as u3 w3 H3. apply os_makedirs_Ok in H3 as [Hfs3 _].
  inv_bind H as u4 w4 H4. apply emit_Ok in H4 as [Hfs4 _].
  inv_bind H as ds w5 H5. apply lift_Ok in H5 as [Hds ->].
  inv_bind H as loader w6 H6. apply lift_Ok in H6 as [Hloader ->].
  unfold new_DataLoader in Hloader.
  destruct (batch_size <=? 0)%Z eqn:Hbs; [discriminate|]. injection Hloader as <-.
  apply Z.leb_gt in Hbs.
  inv_bind H as acc1 w7 H7.
  apply variants_Ok in H7 as (-> & Hlens & Hfs7); [|lia].
  inv_bind H as u8 w8 H8. apply json_dump_to_Ok in H8 as [Hfs8 _].
  apply ret_Ok in H as [-> ->].
  assert (foldl
            (fun m vae_type =>
               <[vae_type :=
                   list_to_map
                     (map (fun attack =>
                             (attack, spec_list data_name device ds (Z.to_nat batch_size)
                                        sticker_sizes epsilons vae_type attack))
                          attack_methods)]> m)
            (list_to_map (map (fun vae_type => (vae_type, ∅)) vae_types)) vae_types
          = spec_accuracies data_name device ds (Z.to_nat batch_size) sticker_sizes epsilons)
    as Heq.
  { apply map_eq. intros k. unfold expected_accuracies.
    rewrite lookup_foldl_insert, !lookup_list_to_map_keys.
    case_decide; reflexivity. }
  rewrite Heq in *.
  split; [exact Hlen|]. split; [exact Hbs|]. exists ds.
  split; [exact Hds|]. split; [reflexivity|]. split; [exact Hlens|].
  rewrite Hfs8, Hfs7, Hfs4, Hfs3, Hfs2. reflexivity.
Qed.

(** *** Reading the expected accuracies *)

Lemma spec_accuracy_Some net dec lowerbound dimY (ds : list (Img * nat)) size
    sticker_sizes epsilons attack i v :
  spec_accuracy net dec lowerbound dimY ds size sticker_sizes epsilons attack i = Some v ->
  exists (epsilon : Q) (ks : list nat),
    attack_param sticker_sizes epsilons attack i = Some epsilon /\
    10 <= length ds /\
    Forall2 (fun b k => spec_hits net dec lowerbound dimY attack epsilon b = Some k)
            (chunks size (take 10 ds)) ks /\
    v = (Z.of_nat (sum_list ks) # 10)%Q.
Proof.
  unfold expected_accuracy.
  destruct (attack_param sticker_sizes epsilons attack i) as [epsilon|]; [|discriminate].
  destruct (length ds <? 10) eqn:Hlen; [discriminate|]. apply Nat.ltb_ge in Hlen.
  destruct (mapM _ _) as [ks|] eqn:Hks; [|discriminate].
  intros H. injection H as <-. apply mapM_Some in Hks.
  exists epsilon, ks. auto.
Qed.

Lemma spec_accuracies_lookup data_name device (ds : list (Img * nat)) size
    sticker_sizes epsilons vae_type d attack l :
  spec_accuracies data_name device ds size sticker_sizes epsilons !! vae_type = Some d ->
  d !! attack = Some l ->
  vae_type ∈ vae_types /\ attack ∈ attack_methods /\
  l = spec_list data_name device ds size sticker_sizes epsilons vae_type attack.
Proof.
  unfold expected_accuracies. rewrite lookup_list_to_map_keys.
  case_decide as Hv; [|discriminate]. intros Hd. injection Hd as <-.
  rewrite !lookup_insert, lookup_empty. unfold attack_methods.
  repeat case_decide; subst; intros Hl; try discriminate; injection Hl as <-;
    (split; [exact Hv | split; [apply (bool_decide_unpack _); reflexivity | reflexivity]]).
Qed.

Lemma spec_list_lookup data_name device (ds : list (Img * nat)) size
    sticker_sizes epsilons vae_type attack i :
  length (spec_list data_name device ds size sticker_sizes epsilons vae_type attack)
    = length sticker_sizes ->
  i < length sticker_sizes ->
  exists net dec lowerbound v,
    variant_model instantiate data_name vae_type device = Some (net, dec, lowerbound) /\
    spec_list data_name device ds size sticker_sizes epsilons vae_type attack !! i = Some v /\
    spec_accuracy net dec lowerbound (if negb (String.eqb data_name "gtsrb") then 10 else 43)
      ds size sticker_sizes epsilons attack i = Some v.
Proof.
  unfold expected_list.
  destruct (variant_model instantiate data_name vae_type device)
    as [[[net dec] lowerbound]|]; [|simpl; lia].
  intros Hlen Hi.
  assert (length (seq 0 (length sticker_sizes)) = length sticker_sizes) as Hseq
    by apply length_seq.
  rewrite <- Hseq in Hlen at 2. apply omap_full_length in Hlen as Hall.
  destruct (Forall2_lookup_l _ _ _ i i Hall) as (v & Hv & Hspec).
  { apply lookup_seq. lia. }
  exists net, dec, lowerbound, v. auto.
Qed.

(** *** Accuracy as the fraction of correctly classified samples *)

Section Shapes.
(** The attacks return one image per image, and the classifier one row of
    scores per image. *)
Hypothesis sticker_attack_length :
  forall images size, length (sticker_attack images size) = length images.
Hypothesis gaussian_perturbation_attack_length :
  forall images eps mean seed,
    length (gaussian_perturbation_attack images eps mean seed) = length images.
Hypothesis simba_length :
  forall f, simba = Some f ->
  forall model images eps queries targeted seed lo hi pixel,
    length (f model images eps queries targeted seed lo hi pixel) = length images.
Hypothesis bayes_classifier_length :
  forall x net dec ll dimY lowerbound K beta,
    length (bayes_classifier x net dec ll dimY lowerbound K beta) = length x.

Lemma spec_scores_length net dec lowerbound dimY attack epsilon
    (b : list (Img * nat)) (y_pred : list (list Q)) :
  spec_scores net dec lowerbound dimY attack epsilon b = Some y_pred ->
  length y_pred = length b.
Proof.
  unfold adversarial_scores, adversarial.
  destruct (String.eqb attack "Sticker"); [|destruct (String.eqb attack "SimBA");
    [destruct simba as [f|] eqn:Hf | destruct (String.eqb attack "Gaussian")]];
    intros H; try discriminate; injection H as <-;
    rewrite bayes_classifier_length.
  - rewrite sticker_attack_length. apply length_map.
  - rewrite (simba_length f eq_refl). apply length_map.
  - rewrite gaussian_perturbation_attack_length. apply length_map.
Qed.

Lemma hits_scores net dec lowerbound dimY attack epsilon
    (batches : list (list (Img * nat))) (ks : list nat) :
  Forall2 (fun b k => spec_hits net dec lowerbound dimY attack epsilon b = Some k) batches ks ->
  exists scores : list (list (list Q)),
    Forall2 (fun b y => spec_scores net dec lowerbound dimY attack epsilon b = Some y)
            batches scores /\
    sum_list ks =
    count_true (zip_with is_correct (concat scores) (map snd (concat batches))).
Proof.
  induction 1 as [|b k batches ks Hk _ (scores & Hs & Hsum)].
  - exists []. split; [constructor | reflexivity].
  - unfold hits_of in Hk.
    destruct (spec_scores net dec lowerbound dimY attack epsilon b) as [y|] eqn:Hy;
      [|discriminate].
    pose proof (spec_scores_length _ _ _ _ _ _ _ _ Hy) as Hlen.
    apply batch_hits_correct in Hk; [|rewrite length_map; exact Hlen].
    exists (y :: scores). split; [constructor; assumption|].
    cbn [concat sum_list sum_list_with id]. unfold id. rewrite map_app.
    rewrite zip_with_app by (rewrite length_map; exact Hlen).
    rewrite count_true_app. change (sum_list_with (fun x : nat => x) ks) with (sum_list ks).
    rewrite Hsum, Hk. reflexivity.
Qed.

(** C6: what one turn of the loop over the attacks appends.  When
    [attack_step] returns, for a variant, an attack and an index [i], it
    has appended [correct / total] to the list of that variant and attack,
    where over the batches of the loader [total] is the number of samples
    and [correct] the number of those whose label is the argmax, the
    position of the first maximum, of the scores that [bayes_classifier]
    gives the attacked image; the value lies in [0, 1]. *)
Theorem attack_step_accuracy
    net dec lowerbound dimY vae_type sticker_sizes epsilons (test_loader : DataLoader Img)
    i accuracies attack w accuracies' w' :
  attack_step bayes_classifier sticker_attack gaussian_perturbation_attack simba
    net dec lowerbound dimY vae_type sticker_sizes epsilons test_loader i accuracies attack w
    = (Ok accuracies', w') ->
  exists (epsilon : Q) (batches : list (list (Img * nat))) (scores : list (list (list Q)))
         (d : gmap string (list Q)) (l : list Q) (v : Q),
    attack_param sticker_sizes epsilons attack i = Some epsilon /\
    Forall2 (fun positions b => fetch (dl_dataset test_loader) positions = Ok b)
            (batch_positions test_loader) batches /\
    Forall2 (fun b y_pred =>
               adversarial_scores bayes_classifier sticker_attack
                 gaussian_perturbation_attack simba net dec lowerbound dimY attack epsilon b
               = Some y_pred) batches scores /\
    accuracies !! vae_type = Some d /\ d !! attack = Some l /\
    accuracies' = <[vae_type := <[attack := l ++ [v]]> d]> accuracies /\
    v = (Z.of_nat (count_true (zip_with is_correct (concat scores)
                                 (map snd (concat batches))))
         # Pos.of_nat (length (concat batches)))%Q /\
    (forall row label, is_correct row label = true <-> first_max row label) /\
    0 < length (concat batches) /\ (0 <= v)%Q /\ (v <= 1)%Q.
Proof.
  intros H. unfold attack_step in H.
  inv_run H. inv_lift Hrun. rename a into epsilon.
  inv_run H. rename a into counters.
  apply batch_loop_Ok in Hrun as (batches & ks & Hb & Hks & -> & _).
  cbn [fst snd Nat.add] in H.
  inv_run H. inv_lift Hrun. rename a into accuracy.
  unfold py_div in E0.
  destruct (length (concat batches)) as [|n] eqn:Hn; [discriminate|].
  injection E0 as <-.
  inv_run H. inv_lift Hrun. rename a into appended.
  inv_run H. apply ret_Ok in H as [-> _].
  unfold dict_append in E0.
  destruct (accuracies !! vae_type) as [d|] eqn:Hd; [|discriminate].
  destruct (d !! attack) as [l|] eqn:Hl; [|discriminate].
  injection E0 as <-.
  apply hits_scores in Hks as (scores & Hscores & Hsum).
  exists epsilon, batches, scores, d, l. eexists.
  split.
  { unfold attack_param. unfold list_get in E.
    destruct (String.eqb attack "Sticker");
      [destruct (sticker_sizes !! i) | destruct (epsilons !! i)]; congruence. }
  split; [exact Hb|]. split; [exact Hscores|]. split; [reflexivity|].
  split; [exact Hl|]. split; [reflexivity|]. rewrite Hsum, Hn.
  split; [reflexivity|]. split; [exact is_correct_first_max|]. split; [lia|].
  apply (accuracy_in_unit_interval _ (S n)); [lia|].
  etransitivity; [apply count_true_zip_le|]. rewrite length_map. lia.
Qed.

End Shapes.

End DriverFacts.

(** *** Only the first ten samples are read *)

Lemma bind_ext {A B : Type} (c : M A) (k k' : A -> M B) (w : world) :
  (forall a w1, k a w1 = k' a w1) -> bind c k w = bind c k' w.
Proof.
  intros H. unfold bind. destruct (c w) as [[a|e] w1]; [apply H | reflexivity].
Qed.

Lemma foldM_ext {A B : Type} (f f' : B -> A -> M B) (l : list A) :
  (forall b a w, f b a w = f' b a w) ->
  forall b w, foldM f l b w = foldM f' l b w.
Proof.
  intros H. induction l as [|a l IH]; intros b w; cbn [foldM]; [reflexivity|].
  unfold bind. rewrite H. destruct (f' b a w) as [[b'|e] w1]; [apply IH | reflexivity].
Qed.

Lemma subset_getitem_first_ten {Img : Type} (ds : list (Img * nat)) (pos : nat) :
  subset_getitem (MkSubset (take 10 ds) (seq 0 10)) pos =
  subset_getitem (MkSubset ds (seq 0 10)) pos.
Proof.
  unfold subset_getitem, list_get. cbn [sub_indices sub_dataset].
  destruct (seq 0 10 !! pos) as [idx|] eqn:Hp; [|reflexivity].
  apply lookup_seq in Hp as [Hidx Hp]. simpl in Hidx. subst idx.
  rewrite lookup_take_lt by lia. reflexivity.
Qed.

Lemma fetch_first_ten {Img : Type} (ds : list (Img * nat)) (positions : list nat) :
  fetch (MkSubset (take 10 ds) (seq 0 10)) positions =
  fetch (MkSubset ds (seq 0 10)) positions.
Proof.
  induction positions as [|pos positions IH]; cbn [fetch]; [reflexivity|].
  rewrite subset_getitem_first_ten, IH. reflexivity.
Qed.

Section FirstTen.
Context {Img Net : Type}.
Variable load_data : string -> result (list (Img * nat)).
Variable instantiate : arch -> nat -> string -> Z -> option string -> result Net.
Variable construct_optimizer :
  nat * nat * nat -> nat -> Net -> string * string -> string -> nat -> string -> result unit.
Variable bayes_classifier :
  list Img -> Net -> string * string -> string -> nat -> string -> nat -> Q -> list (list Q).
Variable sticker_attack : list Img -> Q -> list Img.
Variable gaussian_perturbation_attack : list Img -> Q -> Q -> Z -> list Img.
Variable simba :
  option ((list Img -> list (list Q)) -> list Img -> Q -> nat -> bool -> Z -> Q -> Q -> bool
          -> list Img).

Lemma batch_step_first_ten (net : Net) dec lowerbound dimY attack epsilon
    (ds : list (Img * nat)) (size : nat) counters positions w :
  batch_step bayes_classifier sticker_attack gaussian_perturbation_attack simba
    net dec lowerbound dimY attack epsilon
    (MkDataLoader (MkSubset ds (seq 0 10)) size) counters positions w =
  batch_step bayes_classifier sticker_attack gaussian_perturbation_attack simba
    net dec lowerbound dimY attack epsilon
    (MkDataLoader (MkSubset (take 10 ds) (seq 0 10)) size) counters positions w.
Proof.
  unfold batch_step. cbn [dl_dataset]. rewrite fetch_first_ten. reflexivity.
Qed.

Lemma attack_step_first_ten (net : Net) dec lowerbound dimY vae_type sticker_sizes epsilons
    (ds : list (Img * nat)) (size : nat) i accuracies attack w :
  attack_step bayes_classifier sticker_attack gaussian_perturbation_attack simba
    net dec lowerbound dimY vae_type sticker_sizes epsilons
    (MkDataLoader (MkSubset ds (seq 0 10)) size) i accuracies attack w =
  attack_step bayes_classifier sticker_attack gaussian_perturbation_attack simba
    net dec lowerbound dimY vae_type sticker_sizes epsilons
    (MkDataLoader (MkSubset (take 10 ds) (seq 0 10)) size) i accuracies attack w.
Proof.
  unfold attack_step. apply bind_ext. intros epsilon w1.
  unfold batch_positions. cbn [dl_dataset dl_batch_size sub_indices].
  unfold bind at 1 3.
  rewrite (foldM_ext _ _ _ (batch_step_first_ten net dec lowerbound dimY attack epsilon
                              ds size)).
  reflexivity.
Qed.

Lemma variant_step_first_ten data_name sticker_sizes epsilons device input_shape dimY
    (ds : list (Img * nat)) (size : nat) accuracies vae_type w :
  variant_step instantiate construct_optimizer bayes_classifier sticker_attack
    gaussian_perturbation_attack simba data_name sticker_sizes epsilons device input_shape
    dimY (MkDataLoader (MkSubset ds (seq 0 10)) size) accuracies vae_type w =
  variant_step instantiate construct_optimizer bayes_classifier sticker_attack
    gaussian_perturbation_attack simba data_name sticker_sizes epsilons device input_shape
    dimY (MkDataLoader (MkSubset (take 10 ds) (seq 0 10)) size) accuracies vae_type w.
Proof.
  unfold variant_step. apply bind_ext. intros net w1.
  apply bind_ext. intros [[d1 d2] lowerbound] w2.
  apply bind_ext. intros _ w3.
  apply foldM_ext. intros acc i w4.
  apply foldM_ext. intros acc' attack w5.
  apply attack_step_first_ten.
Qed.

(** C8: [perform_attacks] reads the first ten samples of the test set
    only.  A run on a test set and the run on its first ten samples are
    the same run, result and world alike, for every argument; and over
    the loader built from [Subset(test_dataset, range(10))], for every
    positive [batch_size] and every size of the test set, a batch loop
    that returns has read exactly the first ten samples, so that its
    [total] is 10. *)
Theorem perform_attacks_first_ten :
  (forall data_name sticker_sizes epsilons batch_size save_dir device w,
     perform_attacks load_data instantiate construct_optimizer bayes_classifier
       sticker_attack gaussian_perturbation_attack simba
       data_name sticker_sizes epsilons batch_size save_dir device w =
     perform_attacks (first_ten_only load_data) instantiate construct_optimizer
       bayes_classifier sticker_attack gaussian_perturbation_attack simba
       data_name sticker_sizes epsilons batch_size save_dir device w) /\
  (forall (test_dataset : list (Img * nat)) (batch_size : Z) (test_loader : DataLoader Img)
          (net : Net) dec lowerbound dimY attack epsilon w0 counters w1,
     new_DataLoader (MkSubset test_dataset (seq 0 10)) batch_size = Ok test_loader ->
     foldM (batch_step bayes_classifier sticker_attack gaussian_perturbation_attack simba
              net dec lowerbound dimY attack epsilon test_loader)
           (batch_positions test_loader) (0, 0) w0 = (Ok counters, w1) ->
     exists batches : list (list (Img * nat)),
       Forall2 (fun positions b => fetch (dl_dataset test_loader) positions = Ok b)
               (batch_positions test_loader) batches /\
       concat batches = take 10 test_dataset /\
       counters.2 = length (concat batches) /\ counters.2 = 10 /\ counters.2 <= 10).
Proof.
  split.
  - intros data_name sticker_sizes epsilons batch_size save_dir device w.
    unfold perform_attacks.
    apply bind_ext. intros _ w1. apply bind_ext. intros present w2.
    apply bind_ext. intros _ w3. apply bind_ext. intros _ w4.
    apply bind_ext. intros _ w5.
    unfold bind at 1 4. unfold lift at 1 3. unfold first_ten_only.
    destruct (load_data data_name) as [test_dataset|e]; [|reflexivity].
    unfold bind at 1 3. unfold lift at 1 2. unfold new_DataLoader.
    destruct (batch_size <=? 0)%Z; [reflexivity|].
    unfold bind at 1 3.
    rewrite (foldM_ext _ _ _
               (fun accuracies vae_type w' =>
                  variant_step_first_ten data_name sticker_sizes epsilons device _ _
                    test_dataset (Z.to_nat batch_size) accuracies vae_type w')).
    reflexivity.
  - intros test_dataset batch_size test_loader net dec lowerbound dimY attack epsilon
           w0 counters w1 Hloader Hloop.
    unfold new_DataLoader in Hloader.
    destruct (batch_size <=? 0)%Z eqn:Hsize; [discriminate|].
    injection Hloader as <-. apply Z.leb_gt in Hsize.
    apply batch_loop_Ok in Hloop as (batches & ks & Hb & _ & -> & _).
    exists batches. split; [exact Hb|].
    change (Forall2 (fun pos b => fetch (MkSubset test_dataset (seq 0 10)) pos = Ok b)
                    (chunks (Z.to_nat batch_size) (seq 0 10)) batches) in Hb.
    apply fetch_first_batches in Hb as [Hlen ->]; [|lia].
    rewrite concat_chunks by lia. cbn [snd]. rewrite length_take.
    repeat split; lia.
Qed.

End FirstTen.

(** *** The module as written: [simba] is not bound *)

Lemma bind_ok_eq {A B : Type} (c : M A) (k : A -> M B) (w w1 : world) (a : A) :
  c w = (Ok a, w1) -> bind c k w = k a w1.
Proof. unfold bind. intros ->. reflexivity. Qed.

Lemma bind_raise_eq {A B : Type} (c : M A) (k : A -> M B) (w w1 : world) (e : exn) :
  c w = (Raise e, w1) -> bind c k w = (Raise e, w1).
Proof. unfold bind. intros ->. reflexivity. Qed.

Lemma foldM_raise_head {A B : Type} (f : B -> A -> M B) (a : A) (l : list A) (b : B)
    (w w1 : world) (e : exn) :
  f b a w = (Raise e, w1) -> foldM f (a :: l) b w = (Raise e, w1).
Proof. intros H. cbn [foldM]. apply bind_raise_eq, H. Qed.

Lemma fetch_first_batch {Img : Type} (ds : list (Img * nat)) (size : nat) :
  10 <= length ds ->
  fetch (MkSubset ds (seq 0 10)) (take size (seq 0 10)) = Ok (take size (take 10 ds)).
Proof.
  intros Hlen. apply fetch_of_Forall2, Forall2_take.
  apply Forall2_same_length_lookup. split.
  - rewrite length_seq, length_take. lia.
  - intros i p x Hp Hx. apply subset_getitem_first.
    apply lookup_seq in Hp. destruct Hp as [Hidx Hi]. simpl in Hidx. subst p.
    split; [exact Hi|]. rewrite lookup_take_lt in Hx by lia. exact Hx.
Qed.

Lemma os_makedirs_run (path : string) (w : world) :
  fs w !! path = Some Dir \/ (fs w !! path = None /\ path <> "") ->
  exists w1, os_makedirs path w = (Ok tt, w1) /\
             fs w1 = <[path := Dir]> (fs w) /\ trace w1 = trace w.
Proof.
  unfold os_makedirs. intros [H | [H Hne]]; rewrite H.
  - exists w. split; [reflexivity|]. split; [|reflexivity].
    symmetry. apply insert_id, H.
  - apply String.eqb_neq in Hne. rewrite Hne. eexists. auto.
Qed.

Section SimbaUnbound.
Context {Img Net : Type}.
Variable load_data : string -> result (list (Img * nat)).
Variable instantiate : arch -> nat -> string -> Z -> option string -> result Net.
Variable construct_optimizer :
  nat * nat * nat -> nat -> Net -> string * string -> string -> nat -> string -> result unit.
Variable bayes_classifier :
  list Img -> Net -> string * string -> string -> nat -> string -> nat -> Q -> list (list Q).
Variable sticker_attack : list Img -> Q -> list Img.
Variable gaussian_perturbation_attack : list Img -> Q -> Q -> Z -> list Img.

Lemma attack_step_simba_unbound net dec lowerbound dimY vae_type sticker_sizes epsilons
    (ds : list (Img * nat)) (size : nat) accuracies (w : world) :
  0 < size -> 10 <= length ds -> epsilons <> [] ->
  attack_step bayes_classifier sticker_attack gaussian_perturbation_attack None
    net dec lowerbound dimY vae_type sticker_sizes epsilons
    (MkDataLoader (MkSubset ds (seq 0 10)) size) 0 accuracies "SimBA" w
  = (Raise (NameError "simba"), w).
Proof.
  intros Hsize Hlen Heps. unfold attack_step.
  destruct epsilons as [|e epsilons']; [congruence|].
  erewrite bind_ok_eq by reflexivity.
  apply bind_raise_eq.
  unfold batch_positions. cbn [dl_dataset dl_batch_size sub_indices].
  change (length (seq 0 10)) with 10. change (seq 0 10) with (0 :: seq 1 9) at 2.
  rewrite chunks_cons by assumption.
  apply foldM_raise_head. unfold batch_step.
  erewrite bind_ok_eq.
  2:{ unfold lift. cbn [dl_dataset]. change (0 :: seq 1 9) with (seq 0 10).
      rewrite fetch_first_batch by assumption. reflexivity. }
  reflexivity.
Qed.

(** C1 on the code: the module neither imports nor defines [simba].  On a
    call that gets as far as the first batch (equal, non-empty lists, a
    positive batch size, a usable [save_dir], a test set of at least ten
    samples, variant "A" loaded), [perform_attacks] raises [NameError] at
    the first SimBA call: no attack has run, no accuracy is appended or
    reported and no JSON file is written; the file system has only gained
    the directory. *)
Theorem perform_attacks_simba_unbound
    (data_name : string) (sticker_sizes epsilons : list Q) (batch_size : Z)
    (save_dir : string) (device : option string) (w : world)
    (ds : list (Img * nat)) (net : Net) (dec : string * string) (lowerbound : string) :
  length sticker_sizes = length epsilons -> sticker_sizes <> [] ->
  (0 < batch_size)%Z ->
  fs w !! save_dir = Some Dir \/ (fs w !! save_dir = None /\ save_dir <> "") ->
  load_data data_name = Ok ds -> 10 <= length ds ->
  variant_model instantiate data_name "A" device = Some (net, dec, lowerbound) ->
  construct_optimizer
    (if String.eqb data_name "mnist" then (1, 28, 28) else (3, 32, 32))
    (if negb (String.eqb data_name "gtsrb") then 10 else 43)
    net dec "l2" 10 "A" = Ok tt ->
  exists w' : world,
    perform_attacks load_data instantiate construct_optimizer bayes_classifier
      sticker_attack gaussian_perturbation_attack None
      data_name sticker_sizes epsilons batch_size save_dir device w
    = (Raise (NameError "simba"), w') /\
    fs w' = <[save_dir := Dir]> (fs w) /\
    exists events : list event,
      trace w' = trace w ++ events /\ forallb setup_event events = true.
Proof.
  intros Hlen Hne Hbs Hdir Hds Hten Hmodel Hopt.
  unfold variant_model in Hmodel.
  destruct (load_model_arch data_name "A") as [a|] eqn:Ha; [|discriminate].
  destruct (select_decoder "A") as [[[d1 d2] lb]|] eqn:Hdec; [|discriminate].
  destruct (instantiate a _ _ 0%Z device) as [net'|] eqn:Hnet; [|discriminate].
  injection Hmodel as -> <- ->.
  assert (forall W : world, fs W = fs w ->
            exists w1, os_makedirs save_dir W = (Ok tt, w1) /\
                       fs w1 = <[save_dir := Dir]> (fs w) /\ trace w1 = trace W) as Hmk.
  { intros W HW. destruct (os_makedirs_run save_dir W) as (w1 & H1 & H2 & H3);
      [rewrite HW; exact Hdir|].
    exists w1. rewrite <- HW. auto. }
  assert (epsilons <> []) as Heps.
  { destruct sticker_sizes, epsilons; try discriminate; congruence. }
  assert (forall W : world,
            foldM (variant_step instantiate construct_optimizer bayes_classifier
                     sticker_attack gaussian_perturbation_attack None
                     data_name sticker_sizes epsilons device
                     (if String.eqb data_name "mnist" then (1, 28, 28) else (3, 32, 32))
                     (if negb (String.eqb data_name "gtsrb") then 10 else 43)
                     (MkDataLoader (MkSubset ds (seq 0 10)) (Z.to_nat batch_size)))
                  vae_types
                  (list_to_map (map (fun vae_type => (vae_type, ∅)) vae_types)) W
            = (Raise (NameError "simba"),
               World (fs W)
                 (trace W ++
                  [LoadModel data_name "A"
                     ("save/" +:+ (data_name +:+ "_conv_vae_" +:+ "A" +:+ "_" +:+
                                   pretty (dimZ a) +:+ "/") +:+ "checkpoint")])))
    as Hloop.
  { intros W. unfold vae_types. apply foldM_raise_head. unfold variant_step.
    erewrite bind_ok_eq.
    2:{ unfold load_model. erewrite bind_ok_eq by (unfold lift; rewrite Ha; reflexivity).
        erewrite bind_ok_eq by reflexivity. unfold lift. rewrite Hnet. reflexivity. }
    erewrite bind_ok_eq by (unfold lift; rewrite Hdec; reflexivity).
    cbv beta iota.
    erewrite bind_ok_eq by (unfold lift; rewrite Hopt; reflexivity).
    destruct sticker_sizes as [|s0 sticker_sizes']; [congruence|].
    cbn [length seq]. apply foldM_raise_head. unfold attack_methods.
    apply foldM_raise_head. apply attack_step_simba_unbound; [lia | exact Hten | exact Heps]. }
  destruct (bool_decide (is_Some (fs w !! save_dir))) eqn:Hex;
    [destruct (Hmk (World (fs w) (trace w ++
                      [Warn ("Results directory " +:+ save_dir +:+
                             " already exists and may be overwritten.")])) eq_refl)
       as (w1 & Hmk1 & Hfs1 & Htr1)
    |destruct (Hmk w eq_refl) as (w1 & Hmk1 & Hfs1 & Htr1)].
  all: eexists; split; [|split].
  all: try (unfold perform_attacks;
            erewrite bind_ok_eq
              by (unfold py_assert; rewrite (proj2 (Nat.eqb_eq _ _) Hlen); reflexivity);
            erewrite bind_ok_eq by (unfold os_path_exists; rewrite Hex; reflexivity);
            erewrite bind_ok_eq by reflexivity;
            erewrite bind_ok_eq by exact Hmk1;
            erewrite bind_ok_eq by reflexivity;
            erewrite bind_ok_eq by (unfold lift; rewrite Hds; reflexivity);
            erewrite bind_ok_eq
              by (unfold lift, new_DataLoader;
                  rewrite (proj2 (Z.leb_gt _ _) Hbs); reflexivity);
            apply bind_raise_eq; apply Hloop).
  all: try (cbn [fs]; exact Hfs1).
  all: cbn [trace fs]; rewrite Htr1; cbn [trace]; rewrite <- ?app_assoc;
    eexists; split; reflexivity.
Qed.

End SimbaUnbound.

(** *** The driver on the small framework *)

Lemma demo_batch_loop_is_ok : is_ok (demo_batch_loop demo_world) = true.
Proof. vm_compute. reflexivity. Qed.

Lemma demo_attack_step_is_ok : is_ok (demo_attack_step demo_world) = true.
Proof. vm_compute. reflexivity. Qed.

Lemma demo_run_is_ok :
  is_ok (demo_perform_attacks (Some demo_simba) "mnist" [1 # 10; 1 # 5]%Q
           [1 # 100; 1 # 50]%Q 4 "./results/" None demo_world) = true.
Proof. vm_compute. reflexivity. Qed.

Lemma demo_run_returns :
  exists accuracies w',
    demo_perform_attacks (Some demo_simba) "mnist" [1 # 10; 1 # 5]%Q [1 # 100; 1 # 50]%Q 4
      "./results/" None demo_world = (Ok accuracies, w').
Proof.
  pose proof demo_run_is_ok as Hok.
  destruct (demo_perform_attacks (Some demo_simba) "mnist" [1 # 10; 1 # 5]%Q
              [1 # 100; 1 # 50]%Q 4 "./results/" None demo_world)
    as [[accuracies|e] w']; [eauto | discriminate Hok].
Qed.

Lemma load_model_value_errors_witness :
  load_model demo_instantiate "mnist" "H" 0 None demo_world =
    (Raise (ValueError "Unknown VAE type: H"), demo_world) /\
  load_model demo_instantiate "imagenet" "A" 0 None demo_world =
    (Raise (ValueError "Unknown dataset: imagenet"), demo_world) /\
  exists (a : arch) (filename : string) (dec : string * string * string),
    load_model_arch "gtsrb" "G" = Ok a /\
    select_decoder "G" = Ok dec /\
    filename = "save/" +:+ ("gtsrb" +:+ "_conv_vae_" +:+ "G" +:+ "_" +:+
                            pretty (dimZ a) +:+ "/") +:+ "checkpoint" /\
    load_model demo_instantiate "gtsrb" "G" 0 None demo_world =
    (demo_instantiate a (if String.eqb "gtsrb" "gtsrb" then 43 else dimY a)
       filename 0 None,
     World (fs demo_world) (trace demo_world ++ [LoadModel "gtsrb" "G" filename])).
Proof.
  split; [|split].
  - apply (load_model_value_errors demo_instantiate "mnist" "H" 0 None demo_world);
      apply (bool_decide_unpack _); vm_compute; exact I.
  - apply (load_model_value_errors demo_instantiate "imagenet" "A" 0 None demo_world).
    apply (bool_decide_unpack _); vm_compute; exact I.
  - apply (load_model_value_errors demo_instantiate "gtsrb" "G" 0 None demo_world);
      apply (bool_decide_unpack _); vm_compute; exact I.
Defined.

Lemma perform_attacks_length_mismatch_witness :
  demo_perform_attacks (Some demo_simba) "mnist" [1 # 10]%Q [] 4 "./results/" None demo_world
  = (Raise (AssertionError "Length of sticker_sizes and epsilons must be the same."),
     demo_world).
Proof.
  apply (perform_attacks_length_mismatch demo_load_data demo_instantiate
           demo_construct_optimizer demo_bayes_classifier demo_sticker_attack
           demo_gaussian_perturbation_attack (Some demo_simba)
           "mnist" [1 # 10]%Q [] 4 "./results/" None demo_world).
  simpl. lia.
Defined.

Lemma perform_attacks_first_ten_witness :
  demo_perform_attacks None "mnist" [0]%Q [1 # 100]%Q 4 "./results/" None demo_world =
  perform_attacks (first_ten_only demo_load_data) demo_instantiate demo_construct_optimizer
    demo_bayes_classifier demo_sticker_attack demo_gaussian_perturbation_attack None
    "mnist" [0]%Q [1 # 100]%Q 4 "./results/" None demo_world /\
  exists (counters : nat * nat) (w1 : world) (batches : list (list (nat * nat))),
    demo_batch_loop demo_world = (Ok counters, w1) /\
    Forall2 (fun positions b => fetch (dl_dataset demo_loader) positions = Ok b)
            (batch_positions demo_loader) batches /\
    concat batches = take 10 demo_test_set /\
    counters.2 = length (concat batches) /\ counters.2 = 10 /\ counters.2 <= 10.
Proof.
  pose proof (perform_attacks_first_ten demo_load_data demo_instantiate
                demo_construct_optimizer demo_bayes_classifier demo_sticker_attack
                demo_gaussian_perturbation_attack None) as [T1 T2].
  split; [apply T1|].
  pose proof demo_batch_loop_is_ok as Hok.
  destruct (demo_batch_loop demo_world) as [[counters|e] w1] eqn:E; [|discriminate Hok].
  destruct (T2 demo_test_set 4%Z demo_loader "generator" ("pzy_params", "pxz_params")
              "lowerbound_G" 10 "Sticker" 0%Q demo_world counters w1 eq_refl E)
    as (batches & H).
  exists counters, w1, batches. split; [reflexivity | exact H].
Defined.

Lemma attack_step_accuracy_witness :
  exists (accuracies' : gmap string (gmap string (list Q))) (w' : world)
         (epsilon : Q) (batches : list (list (nat * nat))) (scores : list (list (list Q)))
         (d : gmap string (list Q)) (l : list Q) (v : Q),
    demo_attack_step demo_world = (Ok accuracies', w') /\
    attack_param [0]%Q [1 # 100]%Q "Sticker" 0 = Some epsilon /\
    Forall2 (fun positions b => fetch (dl_dataset demo_loader) positions = Ok b)
            (batch_positions demo_loader) batches /\
    Forall2 (fun b y_pred =>
               adversarial_scores demo_bayes_classifier demo_sticker_attack
                 demo_gaussian_perturbation_attack None "generator"
                 ("pzy_params", "pxz_params") "lowerbound_G" 10 "Sticker" epsilon b
               = Some y_pred) batches scores /\
    demo_accuracies !! "G" = Some d /\ d !! "Sticker" = Some l /\
    accuracies' = <["G" := <["Sticker" := l ++ [v]]> d]> demo_accuracies /\
    v = (Z.of_nat (count_true (zip_with is_correct (concat scores)
                                 (map snd (concat batches))))
         # Pos.of_nat (length (concat batches)))%Q /\
    (forall row label, is_correct row label = true <-> first_max row label) /\
    0 < length (concat batches) /\ (0 <= v)%Q /\ (v <= 1)%Q.
Proof.
  pose proof demo_attack_step_is_ok as Hok.
  destruct (demo_attack_step demo_world) as [[accuracies'|e] w'] eqn:E; [|discriminate Hok].
  pose proof (attack_step_accuracy demo_bayes_classifier demo_sticker_attack
                demo_gaussian_perturbation_attack None) as T.
  specialize (T ltac:(intros images size; apply length_map)).
  specialize (T ltac:(reflexivity)).
  specialize (T ltac:(intros f Hf; discriminate Hf)).
  specialize (T ltac:(intros; apply length_map)).
  destruct (T "generator" ("pzy_params", "pxz_params") "lowerbound_G" 10 "G"
              [0]%Q [1 # 100]%Q demo_loader 0 demo_accuracies "Sticker" demo_world
              accuracies' w' E)
    as (epsilon & batches & scores & d & l & v & H).
  exists accuracies', w', epsilon, batches, scores, d, l, v.
  split; [reflexivity | exact H].
Defined.

Lemma perform_attacks_simba_unbound_witness :
  exists w' : world,
    demo_perform_attacks None "mnist" [1 # 20]%Q [1 # 100]%Q 100 "./results/" None demo_world
      = (Raise (NameError "simba"), w') /\
    fs w' = <["./results/" := Dir]> (fs demo_world) /\
    exists events : list event,
      trace w' = trace demo_world ++ events /\ forallb setup_event events = true.
Proof.
  apply (perform_attacks_simba_unbound demo_load_data demo_instantiate
           demo_construct_optimizer demo_bayes_classifier demo_sticker_attack
           demo_gaussian_perturbation_attack
           "mnist" [1 # 20]%Q [1 # 100]%Q 100 "./results/" None demo_world
           demo_test_set "models.conv_generator_mnist_A" ("pyz_params", "pxzy_params")
           "lowerbound_A").
  - reflexivity.
  - discriminate.
  - lia.
  - right. split; [reflexivity | discriminate].
  - reflexivity.
  - vm_compute. lia.
  - reflexivity.
  - reflexivity.
Defined.

(** *** Effects of the driver, whatever its outcome *)

Lemma bind_inv {A B : Type} (c : M A) (k : A -> M B) (w w' : world) (r : result B) :
  bind c k w = (r, w') ->
  (exists e, c w = (Raise e, w') /\ r = Raise e) \/
  (exists a w1, c w = (Ok a, w1) /\ k a w1 = (r, w')).
Proof.
  unfold bind. destruct (c w) as [[a|e] w1]; intros H.
  - right. eauto.
  - left. injection H as <- <-. eauto.
Qed.

Lemma logs_only_ret {A : Type} (P : event -> Prop) (a : A) : logs_only P (ret a).
Proof.
  intros w r w' H. injection H as <- <-. split; [reflexivity|].
  exists []. rewrite app_nil_r. auto.
Qed.

Lemma logs_only_raise {A : Type} (P : event -> Prop) (e : exn) : logs_only P (@raise A e).
Proof.
  intros w r w' H. injection H as <- <-. split; [reflexivity|].
  exists []. rewrite app_nil_r. auto.
Qed.

Lemma logs_only_lift {A : Type} (P : event -> Prop) (r : result A) : logs_only P (lift r).
Proof.
  intros w r' w' H. injection H as <- <-. split; [reflexivity|].
  exists []. rewrite app_nil_r. auto.
Qed.

Lemma logs_only_emit (P : event -> Prop) (ev : event) : P ev -> logs_only P (emit ev).
Proof.
  intros HP w r w' H. injection H as <- <-. split; [reflexivity|].
  exists [ev]. auto.
Qed.

Lemma logs_only_bind {A B : Type} (P : event -> Prop) (c : M A) (k : A -> M B) :
  logs_only P c -> (forall a, logs_only P (k a)) -> logs_only P (bind c k).
Proof.
  intros Hc Hk w r w' H.
  apply bind_inv in H as [(e & H & ->) | (a & w1 & H1 & H)].
  - apply Hc in H. exact H.
  - apply Hc in H1 as (Hfs1 & ev1 & Htr1 & HP1).
    apply Hk in H as (Hfs & ev & Htr & HP).
    split; [congruence|]. exists (ev1 ++ ev).
    rewrite Htr, Htr1, app_assoc. split; [reflexivity|]. apply Forall_app. auto.
Qed.

Lemma logs_only_foldM {A B : Type} (P : event -> Prop) (f : B -> A -> M B) (l : list A) :
  (forall b a, logs_only P (f b a)) -> forall b, logs_only P (foldM f l b).
Proof.
  intros Hf. induction l as [|a l IH]; intros b; cbn [foldM].
  - apply logs_only_ret.
  - apply logs_only_bind; [apply Hf | exact IH].
Qed.

Lemma os_makedirs_any (path : string) (w w1 : world) (r : result unit) :
  os_makedirs path w = (r, w1) ->
  trace w1 = trace w /\
  match r with
  | Ok _ => fs w1 = <[path := Dir]> (fs w)
  | Raise _ => fs w1 = fs w
  end.
Proof.
  unfold os_makedirs. destruct (fs w !! path) as [[|c]|] eqn:Hp.
  - intros H. injection H as <- <-. split; [reflexivity|].
    symmetry. apply insert_id. exact Hp.
  - intros H. injection H as <- <-. auto.
  - destruct (String.eqb path ""); intros H; injection H as <- <-; auto.
Qed.

(** Whether [os.makedirs] raises depends on the file system only. *)
Lemma os_makedirs_fs (path : string) (w w1 : world) :
  fs w = fs w1 -> (os_makedirs path w).1 = (os_makedirs path w1).1.
Proof.
  unfold os_makedirs. intros <-.
  destruct (fs w !! path) as [[|c]|]; [reflexivity..|].
  destruct (String.eqb path ""); reflexivity.
Qed.

Lemma json_dump_to_any (path : string) (content : gmap string (gmap string (list Q)))
    (w w1 : world) (r : result unit) :
  json_dump_to path content w = (r, w1) ->
  trace w1 = trace w /\
  match r with
  | Ok _ => fs w1 = <[path := JsonFile content]> (fs w)
  | Raise _ => fs w1 = fs w
  end.
Proof.
  unfold json_dump_to. destruct (fs w !! path) as [[|c]|];
    intros H; injection H as <- <-; auto.
Qed.

Section Effects.
Context {Img Net : Type}.
Variable load_data : string -> result (list (Img * nat)).
Variable instantiate : arch -> nat -> string -> Z -> option string -> result Net.
Variable construct_optimizer :
  nat * nat * nat -> nat -> Net -> string * string -> string -> nat -> string -> result unit.
Variable bayes_classifier :
  list Img -> Net -> string * string -> string -> nat -> string -> nat -> Q -> list (list Q).
Variable sticker_attack : list Img -> Q -> list Img.
Variable gaussian_perturbation_attack : list Img -> Q -> Q -> Z -> list Img.
Variable simba :
  option ((list Img -> list (list Q)) -> list Img -> Q -> nat -> bool -> Z -> Q -> Q -> bool
          -> list Img).

Lemma load_model_logs_only data_name vae_type checkpoint_index device :
  logs_only loop_event (load_model instantiate data_name vae_type checkpoint_index device).
Proof.
  unfold load_model. apply logs_only_bind; [apply logs_only_lift|]. intros a.
  apply logs_only_bind; [apply logs_only_emit; exact I|]. intros _. apply logs_only_lift.
Qed.

Lemma run_attack_logs_only model attack epsilon images :
  logs_only loop_event
    (run_attack sticker_attack gaussian_perturbation_attack simba model attack epsilon images).
Proof.
  unfold run_attack.
  destruct (String.eqb attack "Sticker");
    [|destruct (String.eqb attack "SimBA");
      [destruct simba|destruct (String.eqb attack "Gaussian")]].
  all: try apply logs_only_raise.
  all: apply logs_only_bind; [apply logs_only_emit; exact I|]; intros _; apply logs_only_ret.
Qed.

Lemma batch_step_logs_only net dec lowerbound dimY attack epsilon loader counters positions :
  logs_only loop_event
    (batch_step bayes_classifier sticker_attack gaussian_perturbation_attack simba
       net dec lowerbound dimY attack epsilon loader counters positions).
Proof.
  unfold batch_step. apply logs_only_bind; [apply logs_only_lift|]. intros samples.
  apply logs_only_bind; [apply run_attack_logs_only|]. intros adv_images.
  apply logs_only_bind; [apply logs_only_lift|]. intros predicted.
  apply logs_only_bind; [apply logs_only_lift|]. intros hits. apply logs_only_ret.
Qed.

Lemma attack_step_logs_only net dec lowerbound dimY vae_type sticker_sizes epsilons loader
    i accuracies attack :
  logs_only loop_event
    (attack_step bayes_classifier sticker_attack gaussian_perturbation_attack simba
       net dec lowerbound dimY vae_type sticker_sizes epsilons loader i accuracies attack).
Proof.
  unfold attack_step. apply logs_only_bind; [apply logs_only_lift|]. intros epsilon.
  apply logs_only_bind.
  { apply logs_only_foldM. intros counters positions. apply batch_step_logs_only. }
  intros counters. apply logs_only_bind; [apply logs_only_lift|]. intros accuracy.
  apply logs_only_bind; [apply logs_only_lift|]. intros accuracies'.
  apply logs_only_bind; [apply logs_only_emit; exact I|]. intros _. apply logs_only_ret.
Qed.

Lemma variant_step_logs_only data_name sticker_sizes epsilons device shape dimY loader
    accuracies vae_type :
  logs_only loop_event
    (variant_step instantiate construct_optimizer bayes_classifier sticker_attack
       gaussian_perturbation_attack simba data_name sticker_sizes epsilons device shape dimY
       loader accuracies vae_type).
Proof.
  unfold variant_step. apply logs_only_bind; [apply load_model_logs_only|]. intros net.
  apply logs_only_bind; [apply logs_only_lift|]. intros [[d1 d2] lowerbound].
  apply logs_only_bind; [apply logs_only_lift|]. intros _.
  apply logs_only_foldM. intros acc i. apply logs_only_foldM. intros acc' attack.
  apply attack_step_logs_only.
Qed.

(** What a call of [perform_attacks] has done to the world, whatever its
    outcome. *)
Lemma perform_attacks_effects data_name sticker_sizes epsilons batch_size save_dir device
    (w w' : world) (r : result (gmap string (gmap string (list Q)))) :
  perform_attacks load_data instantiate construct_optimizer bayes_classifier
      sticker_attack gaussian_perturbation_attack simba
      data_name sticker_sizes epsilons batch_size save_dir device w
    = (r, w') ->
  (length sticker_sizes <> length epsilons /\ w' = w /\
   r = Raise (AssertionError "Length of sticker_sizes and epsilons must be the same.")) \/
  (length sticker_sizes = length epsilons /\
   (exists rest : list event,
      trace w' =
        trace w ++
        (if bool_decide (is_Some (fs w !! save_dir))
         then [Warn ("Results directory " +:+ save_dir +:+
                     " already exists and may be overwritten.")]
         else []) ++ rest /\
      match (os_makedirs save_dir w).1 with
      | Ok _ =>
        exists loop : list event,
          rest = LoadData data_name :: loop /\ Forall loop_event loop
      | Raise e => rest = [] /\ r = Raise e
      end) /\
   match r with
   | Ok accuracies =>
     fs w' = <[os_path_join save_dir (data_name +:+ "_accuracy_vs_sticker_size.json")
               := JsonFile accuracies]> (<[save_dir := Dir]> (fs w))
   | Raise _ => fs w' = fs w \/ fs w' = <[save_dir := Dir]> (fs w)
   end).
Proof.
  intros H. unfold perform_attacks in H.
  apply bind_inv in H as [(e & H0 & ->) | (u0 & w0 & H0 & H)].
  { left. unfold py_assert in H0.
    destruct (length sticker_sizes =? length epsilons) eqn:E; [discriminate H0|].
    injection H0 as <- <-. apply Nat.eqb_neq in E. auto. }
  right. apply py_assert_Ok in H0 as [Hlen ->]. apply Nat.eqb_eq in Hlen.
  split; [exact Hlen|].
  apply bind_inv in H as [(e & H1 & ->) | (present & w1 & H1 & H)];
    [discriminate H1|].
  unfold os_path_exists in H1. injection H1 as <- <-.
  set (warning := if bool_decide (is_Some (fs w !! save_dir))
                  then [Warn ("Results directory " +:+ save_dir +:+
                              " already exists and may be overwritten.")]
                  else []).
  apply bind_inv in H as [(e & H2 & ->) | (u2 & w2 & H2 & H)].
  { destruct (bool_decide (is_Some (fs w !! save_dir))); discriminate H2. }
  assert (fs w2 = fs w /\ trace w2 = trace w ++ warning) as [Hfs2 Htr2].
  { unfold warning. destruct (bool_decide (is_Some (fs w !! save_dir))).
    - apply emit_Ok in H2. exact H2.
    - apply ret_Ok in H2 as [_ ->]. rewrite app_nil_r. auto. }
  apply bind_inv in H as [(e & H3 & ->) | (u3 & w3 & H3 & H)].
  { assert ((os_makedirs save_dir w).1 = Raise e) as Hmk.
    { rewrite (os_makedirs_fs save_dir w w2) by congruence. rewrite H3. reflexivity. }
    rewrite Hmk.
    apply os_makedirs_any in H3 as [Htr3 Hfs3]. split.
    - exists []. rewrite app_nil_r. split; [congruence | auto].
    - left. congruence. }
  assert ((os_makedirs save_dir w).1 = Ok u3) as Hmk.
  { rewrite (os_makedirs_fs save_dir w w2) by congruence. rewrite H3. reflexivity. }
  rewrite Hmk. clear Hmk.
  apply os_makedirs_any in H3 as [Htr3 Hfs3]. rewrite Hfs2 in Hfs3.
  apply bind_inv in H as [(e & H4 & ->) | (u4 & w4 & H4 & H)]; [discriminate H4|].
  apply emit_Ok in H4 as [Hfs4 Htr4].
  assert (forall W : world,
            (exists loop, trace W = trace w4 ++ loop /\ Forall loop_event loop) ->
            exists rest : list event,
              trace W = trace w ++ warning ++ rest /\
              exists loop : list event,
                rest = LoadData data_name :: loop /\ Forall loop_event loop) as Hrest.
  { intros W (loop & HW & Hloop). exists (LoadData data_name :: loop). split.
    - rewrite HW, Htr4, Htr3, Htr2, <- !app_assoc. reflexivity.
    - eauto. }
  assert (exists loop, trace w4 = trace w4 ++ loop /\ Forall loop_event loop) as Hnil.
  { exists []. rewrite app_nil_r. auto. }
  apply bind_inv in H as [(e & H5 & ->) | (ds & w5 & H5 & H)].
  { injection H5 as _ <-. split; [apply Hrest; assumption|]. right. congruence. }
  apply lift_Ok in H5 as [Hds ->].
  apply bind_inv in H as [(e & H6 & ->) | (loader & w6 & H6 & H)].
  { injection H6 as _ <-. split; [apply Hrest; assumption|]. right. congruence. }
  apply lift_Ok in H6 as [Hloader ->].
  apply bind_inv in H as [(e & H7 & ->) | (acc & w7 & H7 & H)].
  { apply (logs_only_foldM loop_event) in H7 as (Hfs7 & Hloop);
      [|intros; apply variant_step_logs_only].
    split; [apply Hrest; assumption|]. right. congruence. }
  apply (logs_only_foldM loop_event) in H7 as (Hfs7 & Hloop);
    [|intros; apply variant_step_logs_only].
  apply bind_inv in H as [(e & H8 & ->) | (u8 & w8 & H8 & H)].
  { apply json_dump_to_any in H8 as [Htr8 Hfs8].
    split; [apply Hrest; rewrite Htr8; exact Hloop|]. right. congruence. }
  apply json_dump_to_any in H8 as [Htr8 Hfs8].
  injection H as <- <-.
  split; [apply Hrest; rewrite Htr8; exact Hloop|].
  rewrite Hfs8, Hfs7, Hfs4, Hfs3. reflexivity.
Qed.

(** The results file is written last and only by a run that returns: a
    call that raises has left the file system as it was, or has only
    created [save_dir]. *)
Theorem perform_attacks_files data_name sticker_sizes epsilons batch_size save_dir device
    (w w' : world) (r : result (gmap string (gmap string (list Q)))) :
  perform_attacks load_data instantiate construct_optimizer bayes_classifier
      sticker_attack gaussian_perturbation_attack simba
      data_name sticker_sizes epsilons batch_size save_dir device w
    = (r, w') ->
  match r with
  | Ok accuracies =>
    fs w' = <[os_path_join save_dir (data_name +:+ "_accuracy_vs_sticker_size.json")
              := JsonFile accuracies]> (<[save_dir := Dir]> (fs w))
  | Raise _ => fs w' = fs w \/ fs w' = <[save_dir := Dir]> (fs w)
  end.
Proof.
  intros H. apply perform_attacks_effects in H as [(_ & -> & ->) | (_ & _ & H)].
  - left. reflexivity.
  - exact H.
Qed.

(** With lists of equal length, what [perform_attacks] logs is, in order:
    the warning exactly when [save_dir] existed, and then: when
    [os.makedirs(save_dir)] raises, nothing, and the call raises the same
    exception; when it does not, one load of the data followed by model
    loads, attacks and reports only. *)
Theorem perform_attacks_trace data_name sticker_sizes epsilons batch_size save_dir device
    (w w' : world) (r : result (gmap string (gmap string (list Q)))) :
  length sticker_sizes = length epsilons ->
  perform_attacks load_data instantiate construct_optimizer bayes_classifier
      sticker_attack gaussian_perturbation_attack simba
      data_name sticker_sizes epsilons batch_size save_dir device w
    = (r, w') ->
  exists rest : list event,
    trace w' =
      trace w ++
      (if bool_decide (is_Some (fs w !! save_dir))
       then [Warn ("Results directory " +:+ save_dir +:+
                   " already exists and may be overwritten.")]
       else []) ++ rest /\
    match (os_makedirs save_dir w).1 with
    | Ok _ =>
      exists loop : list event, rest = LoadData data_name :: loop /\ Forall loop_event loop
    | Raise e => rest = [] /\ r = Raise e
    end.
Proof.
  intros Hlen H. apply perform_attacks_effects in H as [(Hne & _) | (_ & H & _)].
  - contradiction.
  - exact H.
Qed.

End Effects.

(** *** What a run that returns hands back *)

Lemma is_Some_list_to_map_keys {V : Type} (f : string -> V) (ks : list string) (k : string) :
  is_Some ((list_to_map (map (fun k => (k, f k)) ks) : gmap string V) !! k) <-> k ∈ ks.
Proof.
  rewrite lookup_list_to_map_keys. case_decide as H; split; intros H'.
  - exact H.
  - eauto.
  - destruct H' as [v Hv]. discriminate Hv.
  - contradiction.
Qed.

Lemma json_dump_to_run (path : string) (content : gmap string (gmap string (list Q)))
    (w : world) :
  fs w !! path <> Some Dir ->
  json_dump_to path content w =
  (Ok tt, World (<[path := JsonFile content]> (fs w)) (trace w)).
Proof.
  unfold json_dump_to. intros H. destruct (fs w !! path) as [[|c]|]; congruence.
Qed.

Lemma foldM_all_Ok {A B : Type} (f : B -> A -> M B) (g : B -> A -> B) (l : list A) :
  (forall a, a ∈ l -> forall b W, exists W' events,
      f b a W = (Ok (g b a), W') /\ fs W' = fs W /\
      trace W' = trace W ++ events /\ forallb setup_event events = true) ->
  forall b W, exists W' events,
    foldM f l b W = (Ok (foldl g b l), W') /\ fs W' = fs W /\
    trace W' = trace W ++ events /\ forallb setup_event events = true.
Proof.
  induction l as [|a l IH]; intros Hf b W; cbn [foldM foldl].
  - exists W, []. rewrite app_nil_r. auto.
  - destruct (Hf a ltac:(apply elem_of_cons; auto) b W) as (W1 & ev1 & H1 & Hfs1 & Htr1 & Hs1).
    destruct (IH ltac:(intros a' Ha'; apply Hf, elem_of_cons; auto) (g b a) W1)
      as (W2 & ev2 & H2 & Hfs2 & Htr2 & Hs2).
    exists W2, (ev1 ++ ev2). split; [|split; [|split]].
    + rewrite (bind_ok_eq _ _ _ _ _ H1). exact H2.
    + congruence.
    + rewrite Htr2, Htr1, app_assoc. reflexivity.
    + rewrite forallb_app, Hs1, Hs2. reflexivity.
Qed.

(** The shape and the number of classes that [perform_attacks] gives its
    placeholders are those [load_model] built the model with. *)
Theorem load_model_arch_matches_driver (data_name vae_type : string) (a : arch) :
  load_model_arch data_name vae_type = Ok a ->
  input_shape a = (if String.eqb data_name "mnist" then (1, 28, 28) else (3, 32, 32)) /\
  (if String.eqb data_name "gtsrb" then 43 else dimY a) =
  (if negb (String.eqb data_name "gtsrb") then 10 else 43).
Proof.
  unfold load_model_arch. destruct (String.eqb data_name "mnist") eqn:Hm.
  - apply String.eqb_eq in Hm. subst data_name.
    destruct (if String.eqb vae_type "A" then _ else _) as [g|e]; [|discriminate].
    intros H. injection H as <-. split; reflexivity.
  - destruct (String.eqb data_name "cifar10" || String.eqb data_name "gtsrb"); [|discriminate].
    destruct (if String.eqb vae_type "A" then _ else _) as [g|e]; [|discriminate].
    intros H. injection H as <-. split; [reflexivity|].
    destruct (String.eqb data_name "gtsrb"); reflexivity.
Qed.

Section Returns.
Context {Img Net : Type}.
Variable load_data : string -> result (list (Img * nat)).
Variable instantiate : arch -> nat -> string -> Z -> option string -> result Net.
Variable construct_optimizer :
  nat * nat * nat -> nat -> Net -> string * string -> string -> nat -> string -> result unit.
Variable bayes_classifier :
  list Img -> Net -> string * string -> string -> nat -> string -> nat -> Q -> list (list Q).
Variable sticker_attack : list Img -> Q -> list Img.
Variable gaussian_perturbation_attack : list Img -> Q -> Q -> Z -> list Img.
Variable simba :
  option ((list Img -> list (list Q)) -> list Img -> Q -> nat -> bool -> Z -> Q -> Q -> bool
          -> list Img).

Lemma checkpoint_table :
  forallb (fun p => forallb (same_checkpoint_same_pair p) (list_prod datasets vae_types))
          (list_prod datasets vae_types) = true.
Proof. vm_compute. reflexivity. Qed.

Lemma load_model_trace (data_name vae_type : string) (checkpoint_index : Z)
    (device : option string) (w : world) (a : arch) :
  load_model_arch data_name vae_type = Ok a ->
  trace (load_model instantiate data_name vae_type checkpoint_index device w).2 =
  trace w ++ [LoadModel data_name vae_type (checkpoint_filename data_name vae_type a)].
Proof. intros Ha. unfold load_model, bind, lift. rewrite Ha. reflexivity. Qed.

(** On the supported data sets and variants, [load_model] reads its
    parameters from [checkpoint_filename], and no two (data set, variant)
    pairs share a checkpoint. *)
Theorem load_model_checkpoints_distinct
    (d1 v1 d2 v2 : string) (checkpoint_index : Z) (device : option string) (w : world) :
  d1 ∈ datasets -> v1 ∈ vae_types -> d2 ∈ datasets -> v2 ∈ vae_types ->
  exists a1 a2 : arch,
    load_model_arch d1 v1 = Ok a1 /\ load_model_arch d2 v2 = Ok a2 /\
    trace (load_model instantiate d1 v1 checkpoint_index device w).2 =
      trace w ++ [LoadModel d1 v1 (checkpoint_filename d1 v1 a1)] /\
    (checkpoint_filename d1 v1 a1 = checkpoint_filename d2 v2 a2 -> d1 = d2 /\ v1 = v2).
Proof.
  intros Hd1 Hv1 Hd2 Hv2.
  destruct (load_model_arch_known d1 v1 Hd1 Hv1) as (a1 & Ha1 & _).
  destruct (load_model_arch_known d2 v2 Hd2 Hv2) as (a2 & Ha2 & _).
  exists a1, a2. split; [exact Ha1|]. split; [exact Ha2|].
  split; [apply load_model_trace; exact Ha1|]. intros Heq.
  pose proof checkpoint_table as Htab.
  rewrite forallb_forall in Htab.
  specialize (Htab (d1, v1)
                ltac:(apply in_prod; apply list_elem_of_In; assumption)).
  rewrite forallb_forall in Htab.
  specialize (Htab (d2, v2)
                ltac:(apply in_prod; apply list_elem_of_In; assumption)).
  unfold same_checkpoint_same_pair, checkpoint_of in Htab. cbn [fst snd] in Htab.
  rewrite Ha1, Ha2, Heq, String.eqb_refl in Htab. cbn [implb] in Htab.
  apply andb_true_iff in Htab as [H1 H2].
  apply String.eqb_eq in H1, H2. auto.
Qed.

(** The dictionary a run returns has exactly the seven variants as keys,
    under each exactly the three attacks, with one accuracy per parameter
    index; and the results file holds that same dictionary. *)
Theorem perform_attacks_result_layout
    data_name sticker_sizes epsilons batch_size save_dir device w accuracies w' :
  perform_attacks load_data instantiate construct_optimizer bayes_classifier
      sticker_attack gaussian_perturbation_attack simba
      data_name sticker_sizes epsilons batch_size save_dir device w
    = (Ok accuracies, w') ->
  (forall vae_type, is_Some (accuracies !! vae_type) <-> vae_type ∈ vae_types) /\
  (forall vae_type d, accuracies !! vae_type = Some d ->
     (forall attack, is_Some (d !! attack) <-> attack ∈ attack_methods) /\
     (forall attack l, d !! attack = Some l ->
        length l = length sticker_sizes /\ length l = length epsilons)) /\
  fs w' !! os_path_join save_dir (data_name +:+ "_accuracy_vs_sticker_size.json")
    = Some (JsonFile accuracies).
Proof.
  intros H. apply perform_attacks_Ok in H as (Hlen & Hbs & ds & Hds & -> & Hlens & Hfs).
  split; [|split].
  - intros vae_type. unfold expected_accuracies. apply is_Some_list_to_map_keys.
  - intros vae_type d Hd. split.
    + unfold expected_accuracies in Hd. rewrite lookup_list_to_map_keys in Hd.
      case_decide as Hv; [|discriminate]. injection Hd as <-.
      intros attack.
      exact (is_Some_list_to_map_keys
               (fun attack => expected_list instantiate bayes_classifier sticker_attack
                                gaussian_perturbation_attack simba data_name device ds
                                (Z.to_nat batch_size) sticker_sizes epsilons vae_type attack)
               attack_methods attack).
    + intros attack l Hl.
      eapply spec_accuracies_lookup in Hd as (Hv & Ha & ->); [|exact Hl].
      rewrite <- Hlen. split; apply Hlens; assumption.
  - rewrite Hfs. apply lookup_insert_eq.
Qed.

(** A test set of fewer than ten samples: with a parameter to try,
    [perform_attacks] does not return. *)
Theorem perform_attacks_needs_ten_samples
    data_name sticker_sizes epsilons batch_size save_dir device w (ds : list (Img * nat)) :
  load_data data_name = Ok ds -> length ds < 10 -> sticker_sizes <> [] ->
  is_ok (perform_attacks load_data instantiate construct_optimizer bayes_classifier
           sticker_attack gaussian_perturbation_attack simba
           data_name sticker_sizes epsilons batch_size save_dir device w) = false.
Proof.
  intros Hds Hshort Hne.
  destruct (perform_attacks _ _ _ _ _ _ _ _ _ _ _ _ _ w) as [[accuracies|e] w'] eqn:H;
    [exfalso | reflexivity].
  apply perform_attacks_Ok in H as (Hlen & Hbs & ds' & Hds' & -> & Hlens & _).
  rewrite Hds in Hds'. injection Hds' as <-.
  assert ("A" ∈ vae_types) as HA by (apply (bool_decide_unpack _); reflexivity).
  assert ("Sticker" ∈ attack_methods) as HS by (apply (bool_decide_unpack _); reflexivity).
  pose proof (Hlens "A" "Sticker" HA HS) as Hl.
  apply spec_list_lookup with (i := 0) in Hl as (net & dec & lb & v & _ & _ & Hv).
  - apply spec_accuracy_Some in Hv as (_ & _ & _ & Hten & _). lia.
  - destruct sticker_sizes; [congruence | simpl; lia].
Qed.

(** With no parameter to try, [perform_attacks] runs no attack and needs
    neither a sample nor [simba]: when the seven variants load, it returns
    the dictionary of empty lists and writes it to the results file. *)
Theorem perform_attacks_empty_lists
    data_name batch_size save_dir device w (ds : list (Img * nat)) :
  (0 < batch_size)%Z ->
  fs w !! save_dir = Some Dir \/ (fs w !! save_dir = None /\ save_dir <> "") ->
  os_path_join save_dir (data_name +:+ "_accuracy_vs_sticker_size.json") <> save_dir ->
  fs w !! os_path_join save_dir (data_name +:+ "_accuracy_vs_sticker_size.json")
    <> Some Dir ->
  load_data data_name = Ok ds ->
  (forall vae_type, vae_type ∈ vae_types ->
     exists net dec lowerbound,
       variant_model instantiate data_name vae_type device = Some (net, dec, lowerbound) /\
       construct_optimizer
         (if String.eqb data_name "mnist" then (1, 28, 28) else (3, 32, 32))
         (if negb (String.eqb data_name "gtsrb") then 10 else 43)
         net dec "l2" 10 vae_type = Ok tt) ->
  exists (w' : world) (events : list event),
    perform_attacks load_data instantiate construct_optimizer bayes_classifier
      sticker_attack gaussian_perturbation_attack simba
      data_name [] [] batch_size save_dir device w
    = (Ok (list_to_map (map (fun vae_type => (vae_type, attack_dict [] [] [])) vae_types)),
       w') /\
    fs w' = <[os_path_join save_dir (data_name +:+ "_accuracy_vs_sticker_size.json")
              := JsonFile
                   (list_to_map
                      (map (fun vae_type => (vae_type, attack_dict [] [] [])) vae_types))]>
              (<[save_dir := Dir]> (fs w)) /\
    trace w' = trace w ++ events /\ forallb setup_event events = true.
Proof.
  intros Hbs Hdir Hpath Hfile Hds Hmodels.
  set (result := list_to_map (map (fun vae_type => (vae_type, attack_dict [] [] []))
                                  vae_types) : gmap string (gmap string (list Q))).
  set (path := os_path_join save_dir (data_name +:+ "_accuracy_vs_sticker_size.json")) in *.
  set (shape := if String.eqb data_name "mnist" then (1, 28, 28) else (3, 32, 32)) in *.
  set (classes := if negb (String.eqb data_name "gtsrb") then 10 else 43) in *.
  assert (forall vae_type, vae_type ∈ vae_types ->
          forall acc W, exists W' events,
            variant_step instantiate construct_optimizer bayes_classifier sticker_attack
              gaussian_perturbation_attack simba data_name [] [] device shape classes
              (MkDataLoader (MkSubset ds (seq 0 10)) (Z.to_nat batch_size)) acc vae_type W
            = (Ok (<[vae_type := attack_dict [] [] []]> acc), W') /\
            fs W' = fs W /\ trace W' = trace W ++ events /\
            forallb setup_event events = true) as Hstep.
  { intros vae_type Hin acc W.
    destruct (Hmodels vae_type Hin) as (net & dec & lb & Hm & Hopt).
    unfold variant_model in Hm.
    destruct (load_model_arch data_name vae_type) as [a|] eqn:Ha; [|discriminate].
    destruct (select_decoder vae_type) as [[[d1 d2] lb']|] eqn:Hdec; [|discriminate].
    destruct (instantiate a _ _ 0%Z device) as [net'|] eqn:Hnet; [|discriminate].
    injection Hm as -> <- ->.
    eexists _, _. split; [|split; [|split]].
    - unfold variant_step.
      erewrite bind_ok_eq.
      2:{ unfold load_model. erewrite bind_ok_eq by (unfold lift; rewrite Ha; reflexivity).
          erewrite bind_ok_eq by reflexivity. unfold lift. rewrite Hnet. reflexivity. }
      erewrite bind_ok_eq by (unfold lift; rewrite Hdec; reflexivity).
      cbv beta iota.
      erewrite bind_ok_eq by (unfold lift; rewrite Hopt; reflexivity).
      reflexivity.
    - reflexivity.
    - reflexivity.
    - reflexivity. }
  destruct (foldM_all_Ok _ (fun acc vae_type => <[vae_type := attack_dict [] [] []]> acc)
              vae_types Hstep (list_to_map (map (fun vae_type => (vae_type, ∅)) vae_types)))
    with (W := World (<[save_dir := Dir]> (fs w))
                 (trace w ++
                  (if bool_decide (is_Some (fs w !! save_dir))
                   then [Warn ("Results directory " +:+ save_dir +:+
                               " already exists and may be overwritten.")]
                   else []) ++ [LoadData data_name]))
    as (W7 & events & Hloop & Hfs7 & Htr7 & Hsetup).
  assert (foldl (fun acc vae_type => <[vae_type := attack_dict [] [] []]> acc)
            (list_to_map (map (fun vae_type => (vae_type, ∅)) vae_types)) vae_types
          = result) as Hresult.
  { apply map_eq. intros k. unfold result.
    rewrite (lookup_foldl_insert (fun _ => attack_dict [] [] [])).
    rewrite (lookup_list_to_map_keys (fun _ => attack_dict [] [] [])).
    rewrite (lookup_list_to_map_keys (fun _ => ∅)).
    case_decide; reflexivity. }
  rewrite Hresult in Hloop. cbn [fs trace] in Hfs7, Htr7.
  assert (exists W3,
            os_makedirs save_dir
              (World (fs w)
                 (trace w ++
                  (if bool_decide (is_Some (fs w !! save_dir))
                   then [Warn ("Results directory " +:+ save_dir +:+
                               " already exists and may be overwritten.")]
                   else []))) = (Ok tt, W3) /\
            fs W3 = <[save_dir := Dir]> (fs w) /\
            trace W3 = trace w ++
                  (if bool_decide (is_Some (fs w !! save_dir))
                   then [Warn ("Results directory " +:+ save_dir +:+
                               " already exists and may be overwritten.")]
                   else [])) as (W3 & Hmk & Hfs3 & Htr3).
  { apply (os_makedirs_run save_dir (World (fs w) _)). exact Hdir. }
  assert ((if bool_decide (is_Some (fs w !! save_dir))
           then emit (Warn ("Results directory " +:+ save_dir +:+
                            " already exists and may be overwritten."))
           else ret tt) w
          = (Ok tt,
             World (fs w)
               (trace w ++
                (if bool_decide (is_Some (fs w !! save_dir))
                 then [Warn ("Results directory " +:+ save_dir +:+
                             " already exists and may be overwritten.")]
                 else [])))) as Hwarn.
  { destruct (bool_decide (is_Some (fs w !! save_dir)));
      [reflexivity | unfold ret; rewrite app_nil_r; destruct w; reflexivity]. }
  exists (World (<[path := JsonFile result]> (fs W7)) (trace W7)),
         ((if bool_decide (is_Some (fs w !! save_dir))
           then [Warn ("Results directory " +:+ save_dir +:+
                       " already exists and may be overwritten.")]
           else []) ++ [LoadData data_name] ++ events).
  split; [|split; [|split]].
  - unfold perform_attacks.
    erewrite bind_ok_eq by reflexivity.
    erewrite bind_ok_eq by reflexivity.
    erewrite bind_ok_eq by exact Hwarn.
    erewrite bind_ok_eq by exact Hmk.
    erewrite bind_ok_eq by reflexivity.
    erewrite bind_ok_eq by (unfold lift; rewrite Hds; reflexivity).
    erewrite bind_ok_eq
      by (unfold lift, new_DataLoader; rewrite (proj2 (Z.leb_gt _ _) Hbs); reflexivity).
    erewrite bind_ok_eq.
    2:{ rewrite <- Hloop. f_equal. destruct W3 as [fs3 tr3]. cbn [fs trace] in *.
        subst fs3 tr3. rewrite <- app_assoc. reflexivity. }
    erewrite bind_ok_eq.
    2:{ apply json_dump_to_run. rewrite Hfs7. fold path.
        rewrite lookup_insert_ne by (intros E; apply Hpath; symmetry; exact E).
        exact Hfile. }
    reflexivity.
  - cbn [fs]. rewrite Hfs7. reflexivity.
  - cbn [trace]. rewrite Htr7, <- !app_assoc. reflexivity.
  - rewrite !forallb_app, Hsetup.
    destruct (bool_decide (is_Some (fs w !! save_dir))); reflexivity.
Qed.

End Returns.

(** *** The effects and the results on the small framework *)

Lemma demo_unbound_run_raises :
  is_ok (demo_perform_attacks None "mnist" [1 # 20]%Q [1 # 100]%Q 100 "./results/" None
           demo_world) = false.
Proof. vm_compute. reflexivity. Qed.

Lemma perform_attacks_files_witness :
  exists (e : exn) (w' : world),
    demo_perform_attacks None "mnist" [1 # 20]%Q [1 # 100]%Q 100 "./results/" None demo_world
      = (Raise e, w') /\
    (fs w' = fs demo_world \/ fs w' = <["./results/" := Dir]> (fs demo_world)).
Proof.
  pose proof demo_unbound_run_raises as Hraise.
  destruct (demo_perform_attacks None "mnist" [1 # 20]%Q [1 # 100]%Q 100 "./results/" None
              demo_world) as [[accuracies|e] w'] eqn:E; [discriminate Hraise|].
  exists e, w'. split; [reflexivity|].
  exact (perform_attacks_files demo_load_data demo_instantiate demo_construct_optimizer
           demo_bayes_classifier demo_sticker_attack demo_gaussian_perturbation_attack None
           "mnist" [1 # 20]%Q [1 # 100]%Q 100 "./results/" None demo_world w' (Raise e) E).
Defined.

Lemma perform_attacks_trace_witness :
  exists (r : result (gmap string (gmap string (list Q)))) (w' : world)
         (rest : list event),
    demo_perform_attacks None "mnist" [1 # 10; 1 # 5]%Q [1 # 100; 1 # 50]%Q 4
      "./results/" None demo_world_existing = (r, w') /\
    trace w' =
      trace demo_world_existing ++
      (if bool_decide (is_Some (fs demo_world_existing !! "./results/"))
       then [Warn ("Results directory " +:+ "./results/" +:+
                   " already exists and may be overwritten.")]
       else []) ++ rest /\
    match (os_makedirs "./results/" demo_world_existing).1 with
    | Ok _ =>
      exists loop : list event, rest = LoadData "mnist" :: loop /\ Forall loop_event loop
    | Raise e => rest = [] /\ r = Raise e
    end.
Proof.
  destruct (demo_perform_attacks None "mnist" [1 # 10; 1 # 5]%Q
              [1 # 100; 1 # 50]%Q 4 "./results/" None demo_world_existing)
    as [r w'] eqn:E.
  destruct (perform_attacks_trace demo_load_data demo_instantiate demo_construct_optimizer
              demo_bayes_classifier demo_sticker_attack demo_gaussian_perturbation_attack
              None "mnist" [1 # 10; 1 # 5]%Q [1 # 100; 1 # 50]%Q 4 "./results/"
              None demo_world_existing w' r eq_refl E) as (rest & H).
  exists r, w', rest. split; [reflexivity | exact H].
Defined.

Lemma load_model_arch_matches_driver_witness :
  input_shape
    (Arch "models.conv_generator_cifar10_C" "models.conv_encoder_cifar10" (3, 32, 32)
       128 128 1000 10)
  = (if String.eqb "gtsrb" "mnist" then (1, 28, 28) else (3, 32, 32)) /\
  (if String.eqb "gtsrb" "gtsrb" then 43
   else dimY (Arch "models.conv_generator_cifar10_C" "models.conv_encoder_cifar10"
                (3, 32, 32) 128 128 1000 10))
  = (if negb (String.eqb "gtsrb" "gtsrb") then 10 else 43).
Proof.
  apply (load_model_arch_matches_driver "gtsrb" "C"). reflexivity.
Defined.

Lemma load_model_checkpoints_distinct_witness :
  exists a1 a2 : arch,
    load_model_arch "cifar10" "F" = Ok a1 /\ load_model_arch "gtsrb" "F" = Ok a2 /\
    trace (load_model demo_instantiate "cifar10" "F" 0 None demo_world).2 =
      trace demo_world ++ [LoadModel "cifar10" "F" (checkpoint_filename "cifar10" "F" a1)] /\
    (checkpoint_filename "cifar10" "F" a1 = checkpoint_filename "gtsrb" "F" a2 ->
     "cifar10" = "gtsrb" /\ "F" = "F").
Proof.
  apply (load_model_checkpoints_distinct demo_instantiate "cifar10" "F" "gtsrb" "F" 0 None
           demo_world);
    apply (bool_decide_unpack _); vm_compute; exact I.
Defined.

Lemma perform_attacks_result_layout_witness :
  exists accuracies w',
    demo_perform_attacks (Some demo_simba) "mnist" [1 # 10; 1 # 5]%Q [1 # 100; 1 # 50]%Q 4
      "./results/" None demo_world = (Ok accuracies, w') /\
    (forall vae_type, is_Some (accuracies !! vae_type) <-> vae_type ∈ vae_types) /\
    (forall vae_type d, accuracies !! vae_type = Some d ->
       (forall attack, is_Some (d !! attack) <-> attack ∈ attack_methods) /\
       (forall attack l, d !! attack = Some l ->
          length l = length [1 # 10; 1 # 5]%Q /\ length l = length [1 # 100; 1 # 50]%Q)) /\
    fs w' !! os_path_join "./results/" ("mnist" +:+ "_accuracy_vs_sticker_size.json")
      = Some (JsonFile accuracies).
Proof.
  destruct demo_run_returns as (accuracies & w' & E).
  exists accuracies, w'. split; [exact E|].
  exact (perform_attacks_result_layout demo_load_data demo_instantiate
           demo_construct_optimizer demo_bayes_classifier demo_sticker_attack
           demo_gaussian_perturbation_attack (Some demo_simba)
           "mnist" [1 # 10; 1 # 5]%Q [1 # 100; 1 # 50]%Q 4 "./results/" None demo_world
           accuracies w' E).
Defined.

Lemma perform_attacks_needs_ten_samples_witness :
  is_ok (perform_attacks (fun _ => Ok (take 9 demo_test_set)) demo_instantiate
           demo_construct_optimizer demo_bayes_classifier demo_sticker_attack
           demo_gaussian_perturbation_attack (Some demo_simba)
           "mnist" [1 # 10]%Q [1 # 100]%Q 4 "./results/" None demo_world) = false.
Proof.
  apply (perform_attacks_needs_ten_samples (fun _ => Ok (take 9 demo_test_set))
           demo_instantiate demo_construct_optimizer demo_bayes_classifier
           demo_sticker_attack demo_gaussian_perturbation_attack (Some demo_simba)
           "mnist" [1 # 10]%Q [1 # 100]%Q 4 "./results/" None demo_world
           (take 9 demo_test_set)).
  - reflexivity.
  - vm_compute. lia.
  - discriminate.
Defined.

Lemma perform_attacks_empty_lists_witness :
  exists (w' : world) (events : list event),
    demo_perform_attacks None "gtsrb" [] [] 4 "./results/" None demo_world
    = (Ok (list_to_map (map (fun vae_type => (vae_type, attack_dict [] [] [])) vae_types)),
       w') /\
    fs w' = <[os_path_join "./results/" ("gtsrb" +:+ "_accuracy_vs_sticker_size.json")
              := JsonFile
                   (list_to_map
                      (map (fun vae_type => (vae_type, attack_dict [] [] [])) vae_types))]>
              (<["./results/" := Dir]> (fs demo_world)) /\
    trace w' = trace demo_world ++ events /\ forallb setup_event events = true.
Proof.
  apply (perform_attacks_empty_lists demo_load_data demo_instantiate
           demo_construct_optimizer demo_bayes_classifier demo_sticker_attack
           demo_gaussian_perturbation_attack None
           "gtsrb" 4 "./results/" None demo_world demo_test_set).
  - lia.
  - right. split; [reflexivity | discriminate].
  - vm_compute. discriminate.
  - vm_compute. discriminate.
  - reflexivity.
  - intros vae_type Hin. unfold vae_types in Hin.
    repeat (apply elem_of_cons in Hin as [-> | Hin]);
      [eexists _, _, _; split; reflexivity ..|inversion Hin].
Defined.

(** *** Calls that are rejected late *)

Lemma setup_world (save_dir : string) (w : world) :
  fs w !! save_dir = Some Dir \/ (fs w !! save_dir = None /\ save_dir <> "") ->
  exists W3 : world,
    (if bool_decide (is_Some (fs w !! save_dir))
     then emit (Warn ("Results directory " +:+ save_dir +:+
                      " already exists and may be overwritten."))
     else ret tt) w
    = (Ok tt,
       World (fs w)
         (trace w ++
          (if bool_decide (is_Some (fs w !! save_dir))
           then [Warn ("Results directory " +:+ save_dir +:+
                       " already exists and may be overwritten.")]
           else []))) /\
    os_makedirs save_dir
      (World (fs w)
         (trace w ++
          (if bool_decide (is_Some (fs w !! save_dir))
           then [Warn ("Results directory " +:+ save_dir +:+
                       " already exists and may be overwritten.")]
           else []))) = (Ok tt, W3) /\
    fs W3 = <[save_dir := Dir]> (fs w) /\
    trace W3 = trace w ++
               (if bool_decide (is_Some (fs w !! save_dir))
                then [Warn ("Results directory " +:+ save_dir +:+
                            " already exists and may be overwritten.")]
                else []).
Proof.
  intros Hdir.
  destruct (os_makedirs_run save_dir
              (World (fs w)
                 (trace w ++
                  (if bool_decide (is_Some (fs w !! save_dir))
                   then [Warn ("Results directory " +:+ save_dir +:+
                               " already exists and may be overwritten.")]
                   else []))) Hdir) as (W3 & Hmk & Hfs3 & Htr3).
  exists W3. split; [|auto].
  destruct (bool_decide (is_Some (fs w !! save_dir)));
    [reflexivity | unfold ret; rewrite app_nil_r; destruct w; reflexivity].
Qed.

Section Rejections.
Context {Img Net : Type}.
Variable load_data : string -> result (list (Img * nat)).
Variable instantiate : arch -> nat -> string -> Z -> option string -> result Net.
Variable construct_optimizer :
  nat * nat * nat -> nat -> Net -> string * string -> string -> nat -> string -> result unit.
Variable bayes_classifier :
  list Img -> Net -> string * string -> string -> nat -> string -> nat -> Q -> list (list Q).
Variable sticker_attack : list Img -> Q -> list Img.
Variable gaussian_perturbation_attack : list Img -> Q -> Q -> Z -> list Img.
Variable simba :
  option ((list Img -> list (list Q)) -> list Img -> Q -> nat -> bool -> Z -> Q -> Q -> bool
          -> list Img).

(** A batch size that is not positive is rejected by [DataLoader], after
    the results directory has been created and the data loaded; no model
    is loaded. *)
Theorem perform_attacks_bad_batch_size
    data_name sticker_sizes epsilons batch_size save_dir device w (ds : list (Img * nat)) :
  length sticker_sizes = length epsilons -> (batch_size <= 0)%Z ->
  fs w !! save_dir = Some Dir \/ (fs w !! save_dir = None /\ save_dir <> "") ->
  load_data data_name = Ok ds ->
  exists (msg : string) (w' : world),
    perform_attacks load_data instantiate construct_optimizer bayes_classifier
      sticker_attack gaussian_perturbation_attack simba
      data_name sticker_sizes epsilons batch_size save_dir device w
    = (Raise (ValueError msg), w') /\
    fs w' = <[save_dir := Dir]> (fs w) /\
    trace w' =
      trace w ++
      (if bool_decide (is_Some (fs w !! save_dir))
       then [Warn ("Results directory " +:+ save_dir +:+
                   " already exists and may be overwritten.")]
       else []) ++ [LoadData data_name].
Proof.
  intros Hlen Hbs Hdir Hds.
  destruct (setup_world save_dir w Hdir) as (W3 & Hwarn & Hmk & Hfs3 & Htr3).
  eexists _, _. split; [|split].
  - unfold perform_attacks.
    erewrite bind_ok_eq
      by (unfold py_assert; rewrite (proj2 (Nat.eqb_eq _ _) Hlen); reflexivity).
    erewrite bind_ok_eq by reflexivity.
    erewrite bind_ok_eq by exact Hwarn.
    erewrite bind_ok_eq by exact Hmk.
    erewrite bind_ok_eq by reflexivity.
    erewrite bind_ok_eq by (unfold lift; rewrite Hds; reflexivity).
    apply bind_raise_eq. unfold lift, new_DataLoader.
    rewrite (proj2 (Z.leb_le _ _) Hbs). reflexivity.
  - cbn [fs]. exact Hfs3.
  - cbn [trace]. rewrite Htr3, <- app_assoc. reflexivity.
Qed.

(** A data set that [load_model] does not know is rejected by its first
    call, for variant "A": by then the results directory has been created
    and [load_data] has been called with that name; no model is loaded
    and no results file is written. *)
Theorem perform_attacks_unknown_dataset
    data_name sticker_sizes epsilons batch_size save_dir device w (ds : list (Img * nat)) :
  data_name ∉ datasets ->
  length sticker_sizes = length epsilons -> (0 < batch_size)%Z ->
  fs w !! save_dir = Some Dir \/ (fs w !! save_dir = None /\ save_dir <> "") ->
  load_data data_name = Ok ds ->
  exists w' : world,
    perform_attacks load_data instantiate construct_optimizer bayes_classifier
      sticker_attack gaussian_perturbation_attack simba
      data_name sticker_sizes epsilons batch_size save_dir device w
    = (Raise (ValueError ("Unknown dataset: " +:+ data_name)), w') /\
    fs w' = <[save_dir := Dir]> (fs w) /\
    trace w' =
      trace w ++
      (if bool_decide (is_Some (fs w !! save_dir))
       then [Warn ("Results directory " +:+ save_dir +:+
                   " already exists and may be overwritten.")]
       else []) ++ [LoadData data_name].
Proof.
  intros Hdata Hlen Hbs Hdir Hds.
  destruct (setup_world save_dir w Hdir) as (W3 & Hwarn & Hmk & Hfs3 & Htr3).
  eexists. split; [|split].
  - unfold perform_attacks.
    erewrite bind_ok_eq
      by (unfold py_assert; rewrite (proj2 (Nat.eqb_eq _ _) Hlen); reflexivity).
    erewrite bind_ok_eq by reflexivity.
    erewrite bind_ok_eq by exact Hwarn.
    erewrite bind_ok_eq by exact Hmk.
    erewrite bind_ok_eq by reflexivity.
    erewrite bind_ok_eq by (unfold lift; rewrite Hds; reflexivity).
    erewrite bind_ok_eq
      by (unfold lift, new_DataLoader; rewrite (proj2 (Z.leb_gt _ _) Hbs); reflexivity).
    apply bind_raise_eq. unfold vae_types. apply foldM_raise_head.
    unfold variant_step. apply bind_raise_eq.
    unfold load_model. apply bind_raise_eq. unfold lift.
    rewrite (load_model_arch_unknown_dataset data_name "A" Hdata). reflexivity.
  - cbn [fs]. exact Hfs3.
  - cbn [trace]. rewrite Htr3, <- app_assoc. reflexivity.
Qed.

End Rejections.

Lemma perform_attacks_bad_batch_size_witness :
  exists (msg : string) (w' : world),
    demo_perform_attacks (Some demo_simba) "mnist" [1 # 10]%Q [1 # 100]%Q 0 "./results/" None
      demo_world_existing
    = (Raise (ValueError msg), w') /\
    fs w' = <["./results/" := Dir]> (fs demo_world_existing) /\
    trace w' =
      trace demo_world_existing ++
      (if bool_decide (is_Some (fs demo_world_existing !! "./results/"))
       then [Warn ("Results directory " +:+ "./results/" +:+
                   " already exists and may be overwritten.")]
       else []) ++ [LoadData "mnist"].
Proof.
  apply (perform_attacks_bad_batch_size demo_load_data demo_instantiate
           demo_construct_optimizer demo_bayes_classifier demo_sticker_attack
           demo_gaussian_perturbation_attack (Some demo_simba)
           "mnist" [1 # 10]%Q [1 # 100]%Q 0 "./results/" None demo_world_existing
           demo_test_set).
  - reflexivity.
  - lia.
  - left. reflexivity.
  - reflexivity.
Defined.

Lemma perform_attacks_unknown_dataset_witness :
  exists w' : world,
    demo_perform_attacks (Some demo_simba) "svhn" [1 # 10]%Q [1 # 100]%Q 4 "./results/" None
      demo_world
    = (Raise (ValueError ("Unknown dataset: " +:+ "svhn")), w') /\
    fs w' = <["./results/" := Dir]> (fs demo_world) /\
    trace w' =
      trace demo_world ++
      (if bool_decide (is_Some (fs demo_world !! "./results/"))
       then [Warn ("Results directory " +:+ "./results/" +:+
                   " already exists and may be overwritten.")]
       else []) ++ [LoadData "svhn"].
Proof.
  apply (perform_attacks_unknown_dataset demo_load_data demo_instantiate
           demo_construct_optimizer demo_bayes_classifier demo_sticker_attack
           demo_gaussian_perturbation_attack (Some demo_simba)
           "svhn" [1 # 10]%Q [1 # 100]%Q 4 "./results/" None demo_world demo_test_set).
  - apply (bool_decide_unpack _). vm_compute. exact I.
  - reflexivity.
  - lia.
  - right. split; [reflexivity | discriminate].
  - reflexivity.
Defined.

End BlackBox.
